(** * Nordson Ultimus V dispenser controller

    A shallow embedding of [nordson_dispenser_control.py] (class
    [DispenserController]) and the properties of its serial protocol:
    the additive two's-complement checksum, the STX/ETX framing of
    commands, the scanning of response buffers, the ENQ/ACK handshake and
    the command dispatcher.

    Python values are modelled as follows.
    - [str] is [string]; its characters are limited to code points below
      256, and a character is ASCII when its code is below 128.
    - [bytes] is a list of integers, each meant to lie in 0..255.
    - [int] is [Z]; indices are [Z] because the scanning loops can drive
      them below zero, where Python indexes from the end.
    - [float] is [spec_float] at binary64 (precision 53, emax 1024).
    - exceptions are values of [exn]; a computation yields an [outcome].
    - the serial port is a record holding what was written and what the
      device will deliver to each successive [read]. *)

From Stdlib Require Import ZArith List String Ascii Bool Lia.
From Stdlib Require Import Floats.SpecFloat.
Import ListNotations.

Local Open Scope Z_scope.

(** ** Python builtins used by the controller *)

Module Py.

Definition bytes := list Z.

Inductive exn :=
| IndexError
| ValueError
| UnicodeEncodeError
| OverflowError
| AttributeError.

(** [except ValueError] also catches its subclass [UnicodeEncodeError]. *)
Definition is_ValueError (e : exn) : bool :=
  match e with ValueError | UnicodeEncodeError => true | _ => false end.

Definition is_IndexError (e : exn) : bool :=
  match e with IndexError => true | _ => false end.

Definition ord (c : ascii) : Z := Z.of_N (N_of_ascii c).
Definition chr (z : Z) : ascii := ascii_of_N (Z.to_N z).

Definition len {A} (l : list A) : Z := Z.of_nat (List.length l).
Definition strlen (s : string) : Z := Z.of_nat (String.length s).

(** [s.encode('ascii')] *)
Fixpoint encode_ascii (s : string) : exn + bytes :=
  match s with
  | EmptyString => inr []
  | String c s' =>
      if ord c <? 128 then
        match encode_ascii s' with
        | inr b => inr (ord c :: b)
        | inl e => inl e
        end
      else inl UnicodeEncodeError
  end.

(** [b.decode('ascii', errors='ignore')]: bytes outside 0..127 are dropped. *)
Fixpoint decode_ascii_ignore (b : bytes) : string :=
  match b with
  | [] => EmptyString
  | z :: b' =>
      if (0 <=? z) && (z <? 128) then String (chr z) (decode_ascii_ignore b')
      else decode_ascii_ignore b'
  end.

(** A slice bound, as Python normalises it against the length [n]. *)
Definition clamp_index (n i : Z) : Z :=
  if i <? 0 then Z.max 0 (i + n) else Z.min i n.

(** [l[a:b]] *)
Definition slice {A} (l : list A) (a b : Z) : list A :=
  let a' := clamp_index (len l) a in
  let b' := clamp_index (len l) b in
  firstn (Z.to_nat (b' - a')) (skipn (Z.to_nat a') l).

(** [l[i]]; [None] stands for [IndexError]. *)
Definition getitem {A} (l : list A) (i : Z) : option A :=
  let j := if i <? 0 then i + len l else i in
  if (0 <=? j) && (j <? len l) then nth_error l (Z.to_nat j) else None.

(** [s[a:b]] for indices that are not negative. *)
Definition strslice (s : string) (a b : nat) : string :=
  substring a (b - a) s.

(** [s.startswith(p)] *)
Definition startswith (s p : string) : bool := prefix p s.

(** [s.split(sep)] for a separator of one character. *)
Fixpoint split (sep : ascii) (s : string) : list string :=
  match s with
  | EmptyString => [EmptyString]
  | String c s' =>
      if Ascii.eqb c sep then EmptyString :: split sep s'
      else match split sep s' with
           | h :: t => String c h :: t
           | [] => [String c EmptyString]
           end
  end.

(** [s.lower()] on code points below 256. *)
Definition lower_char (c : ascii) : ascii :=
  let n := ord c in
  if ((65 <=? n) && (n <=? 90))
     || ((192 <=? n) && (n <=? 222) && negb (n =? 215))
  then chr (n + 32) else c.

Fixpoint lower (s : string) : string :=
  match s with
  | EmptyString => EmptyString
  | String c s' => String (lower_char c) (lower s')
  end.

(** *** [int(s, base)]

    Surrounding whitespace is stripped, then an optional sign, then (base
    16) an optional [0x] prefix that may be followed by one underscore,
    then digits separated by single underscores.  [None] stands for
    [ValueError]. *)

Definition is_space (c : ascii) : bool :=
  let n := ord c in
  ((9 <=? n) && (n <=? 13)) || (n =? 32) || (n =? 133) || (n =? 160).

Definition digit_value (c : ascii) : option Z :=
  let n := ord c in
  if (48 <=? n) && (n <=? 57) then Some (n - 48)
  else if (97 <=? n) && (n <=? 122) then Some (n - 87)
  else if (65 <=? n) && (n <=? 90) then Some (n - 55)
  else None.

Fixpoint lstrip (l : list ascii) : list ascii :=
  match l with
  | c :: l' => if is_space c then lstrip l' else l
  | [] => []
  end.

Definition strip (l : list ascii) : list ascii :=
  rev (lstrip (rev (lstrip l))).

Definition is_underscore (c : ascii) : bool := ord c =? 95.

Fixpoint int_digits (base : Z) (l : list ascii) (acc : Z) (after_underscore : bool)
  : option Z :=
  match l with
  | [] => if after_underscore then None else Some acc
  | c :: l' =>
      if is_underscore c then
        if after_underscore then None else int_digits base l' acc true
      else
        match digit_value c with
        | Some d =>
            if d <? base then int_digits base l' (acc * base + d) false
            else None
        | None => None
        end
  end.

Definition skip_sign (l : list ascii) : bool * list ascii :=
  match l with
  | c :: l' =>
      if ord c =? 43 then (false, l')
      else if ord c =? 45 then (true, l')
      else (false, l)
  | [] => (false, [])
  end.

Definition skip_prefix (base : Z) (l : list ascii) : list ascii :=
  match l with
  | z :: x :: l' =>
      if (base =? 16) && (ord z =? 48) && ((ord x =? 120) || (ord x =? 88)) then
        match l' with
        | u :: l'' => if is_underscore u then l'' else l'
        | [] => l'
        end
      else l
  | _ => l
  end.

Definition int_of_str (base : Z) (s : string) : option Z :=
  let '(neg, l) := skip_sign (strip (list_ascii_of_string s)) in
  match skip_prefix base l with
  | [] => None
  | c :: l' =>
      if is_underscore c then None
      else
        match int_digits base (c :: l') 0 false with
        | Some n => Some (if neg then - n else n)
        | None => None
        end
  end.

(** *** Format specifications [{n:0wX}] and [{n:0wd}] *)

Definition digit_char (d : Z) : ascii :=
  if d <? 10 then chr (48 + d) else chr (55 + d).

Fixpoint digits_of (fuel : nat) (base n : Z) (acc : string) : string :=
  match fuel with
  | O => acc
  | S fuel' =>
      let acc' := String (digit_char (n mod base)) acc in
      if n <? base then acc' else digits_of fuel' base (n / base) acc'
  end.

Definition natural_digits (base n : Z) : string :=
  digits_of (S (Z.to_nat (Z.log2 n))) base n EmptyString.

Fixpoint zeros (k : nat) : string :=
  match k with
  | O => EmptyString
  | S k' => String "0" (zeros k')
  end.

Definition zfill (width : nat) (s : string) : string :=
  (zeros (width - String.length s) ++ s)%string.

Definition format_int (base : Z) (width : nat) (n : Z) : string :=
  if n <? 0 then String "-" (zfill (width - 1) (natural_digits base (- n)))
  else zfill width (natural_digits base n).

(** [f"{n:02X}"] is [format_X 2 n]; [f"{n:04d}"] is [format_d 4 n]. *)
Definition format_X := format_int 16.
Definition format_d := format_int 10.

(** *** Floats (binary64) *)

Definition float := spec_float.
Definition prec := 53.
Definition emax := 1024.

Definition fmul : float -> float -> float := SFmul prec emax.
Definition fdiv : float -> float -> float := SFdiv prec emax.
Definition fle : float -> float -> bool := SFleb.
Definition flt : float -> float -> bool := SFltb.

(** [float(n)] for an integer that binary64 holds exactly or rounds. *)
Definition float_of_int (n : Z) : float := binary_normalize prec emax n 0 false.

(** The decimal literal [n / 10^k].  Both operands are exact in binary64
    when [|n| < 2^53] and [k <= 22], so the one rounding of the division
    gives the double nearest to the decimal. *)
Definition float_lit (n : Z) (k : nat) : float :=
  fdiv (float_of_int n) (float_of_int (10 ^ Z.of_nat k)).

(** [int(x)]: truncation toward zero. *)
Definition int_of_float (x : float) : exn + Z :=
  match x with
  | S754_zero _ => inr 0
  | S754_finite s m e =>
      let a := Z.shiftl (Zpos m) e in
      inr (if s then - a else a)
  | S754_infinity _ => inl OverflowError
  | S754_nan => inl ValueError
  end.

(** [int / float] *)
Definition int_div_float (n : Z) (d : float) : float := fdiv (float_of_int n) d.

End Py.

Import Py.

Definition is_ascii (s : string) : Prop :=
  Forall (fun c => ord c < 128) (list_ascii_of_string s).

Definition sum_bytes (b : bytes) : Z := fold_right Z.add 0 b.

(** ** [calculate_checksum_ascii] *)

Definition calculate_checksum_ascii (data_str : string) : exn + Z :=
  match encode_ascii data_str with
  | inr b => inr (Z.land (0 - sum_bytes b) 255)
  | inl e => inl e
  end.


(** ** The serial port

    [written] lists the chunks passed to [write], oldest first.  A [read]
    takes what the device delivers before the timeout: the bytes left over
    in [rxbuf] followed by the next entry of [incoming]; bytes beyond the
    requested size stay in [rxbuf].  The port is assumed not to raise
    [SerialException]. *)

Record serial := {
  written : list bytes;
  rxbuf : bytes;
  incoming : list bytes
}.

Definition ser_write (b : bytes) (p : serial) : serial :=
  {| written := written p ++ [b]; rxbuf := rxbuf p; incoming := incoming p |}.

Definition ser_read (size : nat) (p : serial) : bytes * serial :=
  let available := rxbuf p ++ hd [] (incoming p) in
  (firstn size available,
   {| written := written p;
      rxbuf := skipn size available;
      incoming := tl (incoming p) |}).

(** ** Logging

    A log record keeps the level and the pieces of the formatted message:
    literal text and the values interpolated into it. *)

Inductive level := DEBUG | INFO | WARNING | ERROR.

Inductive piece :=
| Str (s : string)
| Hex (b : bytes)          (* [b.hex()] *)
| Flt (x : float)
| Int (n : Z)
| Keys (l : list string)   (* [list(d.keys())] *)
| Exc (e : exn)
| Elapsed.                 (* a wall-clock difference; its value is not modelled *)

Definition record := (level * list piece)%type.

(** ** The controller *)

Record controller := {
  ser : option serial;
  is_timed_mode : bool;
  start_time : option Z;
  logged : list record
}.

Inductive outcome (A : Type) :=
| Return (a : A)
| Raise (e : exn)
| Diverge.
Arguments Return {A} a.
Arguments Raise {A} e.
Arguments Diverge {A}.

(** A method: it transforms the controller and returns, raises, or runs
    out of fuel.  The controller reached is kept in every case. *)
Definition M (A : Type) := controller -> controller * outcome A.

Definition ret {A} (a : A) : M A := fun st => (st, Return a).
Definition raise {A} (e : exn) : M A := fun st => (st, Raise e).
Definition diverge {A} : M A := fun st => (st, Diverge).

Definition bind {A B} (c : M A) (k : A -> M B) : M B :=
  fun st =>
    match c st with
    | (st', Return a) => k a st'
    | (st', Raise e) => (st', Raise e)
    | (st', Diverge) => (st', Diverge)
    end.

Notation "x <- c ;; k" := (bind c (fun x => k))
  (at level 61, c at next level, right associativity).
Notation "c ;; k" := (bind c (fun _ => k))
  (at level 61, right associativity).

(** [try: body  except <handled>: handler] *)
Definition try_except {A} (body : M A) (handled : exn -> bool) (handler : exn -> M A)
  : M A :=
  fun st =>
    match body st with
    | (st', Raise e) => if handled e then handler e st' else (st', Raise e)
    | r => r
    end.

Definition lift_exn {A} (r : exn + A) : M A :=
  match r with inr a => ret a | inl e => raise e end.

Definition lift_opt {A} (e : exn) (r : option A) : M A :=
  match r with Some a => ret a | None => raise e end.

Definition add_log (r : record) (st : controller) : controller :=
  {| ser := ser st; is_timed_mode := is_timed_mode st;
     start_time := start_time st; logged := logged st ++ [r] |}.

Definition logger (l : level) (msg : list piece) : M unit :=
  fun st => (add_log (l, msg) st, Return tt).

Definition set_ser (p : serial) (st : controller) : controller :=
  {| ser := Some p; is_timed_mode := is_timed_mode st;
     start_time := start_time st; logged := logged st |}.

Definition set_mode (b : bool) (st : controller) : controller :=
  {| ser := ser st; is_timed_mode := b;
     start_time := start_time st; logged := logged st |}.

(** [self.is_timed_mode = b] *)
Definition set_is_timed_mode (b : bool) : M unit :=
  fun st => (set_mode b st, Return tt).

(** [self.ser.write(b)] *)
Definition write (b : bytes) : M unit :=
  fun st =>
    match ser st with
    | Some p => (set_ser (ser_write b p) st, Return tt)
    | None => (st, Raise AttributeError)
    end.

(** [self.ser.read(size)] *)
Definition read (size : nat) : M bytes :=
  fun st =>
    match ser st with
    | Some p => (set_ser (snd (ser_read size p)) st, Return (fst (ser_read size p)))
    | None => (st, Raise AttributeError)
    end.

Definition bytes_eqb (a b : bytes) : bool :=
  if list_eq_dec Z.eq_dec a b then true else false.

Definition STX : Z := 2.
Definition ETX : Z := 3.
Definition EOT : Z := 4.
Definition ENQ : Z := 5.
Definition ACK : Z := 6.

(** The constructor, given the port that [connect] opened ([None] when no port
    could be opened and the controller runs in simulation mode). *)
Definition __init__ (port : option serial) : controller :=
  {| ser := port;
     is_timed_mode := true;
     start_time := None;
     logged := [(INFO, [Str "Dispenser Controller Started"])] |}.

(** ** Scanning one frame

    The body that [check_response] (lines 300-342) and
    [process_data_response] (lines 414-455) share, entered with [index]
    on the STX byte.  [what] is the end of the warning texts, which is
    all that differs between the two copies. *)

Inductive frame_step :=
| FBreak (msg : string)                                (* warn and [break] *)
| FContinue (msg : string) (index : Z)                 (* warn and [continue] *)
| FValid (length_str command_and_data : string) (index : Z)
| FRaise (e : exn).

Definition read_frame (what : string) (response : bytes) (index : Z) : frame_step :=
  let index := index + 1 in
  if index + 1 >=? len response then
    FBreak ("Incomplete length in " ++ what)
  else
    let length_str := decode_ascii_ignore (slice response index (index + 2)) in
    let index := index + 2 in
    match int_of_str 16 length_str with
    | None => FBreak ("Invalid length in " ++ what)
    | Some length =>
        if index + length + 2 >? len response then
          FBreak ("Incomplete command/data in " ++ what)
        else
          let command_and_data :=
            decode_ascii_ignore (slice response index (index + length)) in
          let index := index + length in
          let checksum_str :=
            decode_ascii_ignore (slice response index (index + 2)) in
          let index := index + 2 in
          if index >=? len response then FBreak ("Missing ETX in " ++ what)
          else
            match getitem response index with
            | None => FRaise IndexError
            | Some b =>
                if negb (b =? ETX) then FBreak ("Missing ETX in " ++ what)
                else
                  let index := index + 1 in
                  match calculate_checksum_ascii (length_str ++ command_and_data) with
                  | inl e => FRaise e
                  | inr calculated_checksum =>
                      match int_of_str 16 checksum_str with
                      | None => FContinue ("Invalid checksum in " ++ what) index
                      | Some received_checksum =>
                          if negb (received_checksum =? calculated_checksum) then
                            FContinue ("Checksum mismatch in " ++ what) index
                          else FValid length_str command_and_data index
                      end
                  end
            end
    end.

(** ** [process_data_response] *)

Fixpoint process_data_response_loop (fuel : nat) (response : bytes) (index : Z)
  : M (option string) :=
  match fuel with
  | O => diverge
  | S fuel' =>
      if index <? len response then
        b <- lift_opt IndexError (getitem response index) ;;
        if b =? STX then
          match read_frame "data response." response index with
          | FBreak msg => logger WARNING [Str msg] ;; ret None
          | FContinue msg index' =>
              logger WARNING [Str msg] ;;
              process_data_response_loop fuel' response index'
          | FRaise e => raise e
          | FValid _ command_and_data _ =>
              logger DEBUG [Str "Command and Data: "; Str command_and_data] ;;
              ret (Some command_and_data)
          end
        else process_data_response_loop fuel' response (index + 1)
      else ret None
  end.

Definition process_data_response (fuel : nat) (response : bytes) : M (option string) :=
  logger DEBUG [Str "Processing data response: "; Hex response] ;;
  process_data_response_loop fuel response 0.

(** ** [check_response] *)

(** Lines 349-356 and 387-394: the delay report. *)
Definition log_delay : M unit :=
  fun st =>
    match start_time st with
    | Some t =>
        if t =? 0 then
          logger WARNING [Str "Start time not recorded. Cannot calculate delay."] st
        else logger INFO [Str "Delay time: "; Elapsed; Str " milliseconds"] st
    | None =>
        logger WARNING [Str "Start time not recorded. Cannot calculate delay."] st
    end.

Fixpoint check_response_loop (fuel : nat) (response : bytes) (expect_response : bool)
  (index : Z) : M (option string) :=
  match fuel with
  | O => diverge
  | S fuel' =>
      if index <? len response then
        b <- lift_opt IndexError (getitem response index) ;;
        if b =? STX then
          match read_frame "response." response index with
          | FBreak msg => logger WARNING [Str msg] ;; ret None
          | FContinue msg index' =>
              logger WARNING [Str msg] ;;
              check_response_loop fuel' response expect_response index'
          | FRaise e => raise e
          | FValid _ command_and_data index' =>
              let command_code := strslice command_and_data 0 2 in
              if String.eqb command_code "A0" then
                log_delay ;;
                logger INFO [Str "Received Success Command (A0)."] ;;
                if expect_response then
                  logger DEBUG [Str "Sending ACK (0x06) to receive data."] ;;
                  write [ACK] ;;
                  data_response <- read 100 ;;
                  match data_response with
                  | _ :: _ =>
                      logger DEBUG [Str "Received data response: "; Hex data_response] ;;
                      data_str <- process_data_response fuel' data_response ;;
                      logger DEBUG [Str "Sending EOT (0x04) to end the sequence."] ;;
                      write [EOT] ;;
                      ret data_str
                  | [] =>
                      logger WARNING [Str "No data response received."] ;;
                      logger DEBUG [Str "Sending EOT (0x04) to end the sequence."] ;;
                      write [EOT] ;;
                      check_response_loop fuel' response expect_response index'
                  end
                else
                  logger DEBUG [Str "Sending EOT (0x04) to end the sequence."] ;;
                  write [EOT] ;;
                  check_response_loop fuel' response expect_response index'
              else if String.eqb command_code "A2" then
                log_delay ;;
                logger INFO
                  [Str "Received Failure Command (A2). Sending EOT to end the sequence."] ;;
                write [EOT] ;;
                check_response_loop fuel' response expect_response index'
              else
                logger INFO [Str "Received response with command code ";
                             Str command_code; Str ": "; Str command_and_data] ;;
                check_response_loop fuel' response expect_response index'
          end
        else check_response_loop fuel' response expect_response (index + 1)
      else ret None
  end.

Definition check_response (fuel : nat) (response : bytes) (expect_response : bool)
  : M (option string) :=
  logger DEBUG [Str "Received raw response: "; Hex response] ;;
  check_response_loop fuel response expect_response 0.

(** ** [send_command] *)

(** Lines 93-118: the packet for a command code and its data. *)
Definition build_packet (command_code data : string) : exn + bytes :=
  let command_str := command_code in
  let data_str := data in
  let length := strlen command_str + strlen data_str in
  let length_str := format_X 2 length in
  let checksum_input_str := (length_str ++ command_str ++ data_str)%string in
  match calculate_checksum_ascii checksum_input_str with
  | inl e => inl e
  | inr checksum_value =>
      let checksum_str := format_X 2 checksum_value in
      match encode_ascii length_str, encode_ascii command_str,
            encode_ascii data_str, encode_ascii checksum_str with
      | inr l, inr c, inr d, inr h => inr ([STX] ++ l ++ c ++ d ++ h ++ [ETX])
      | inl e, _, _, _ => inl e
      | _, inl e, _, _ => inl e
      | _, _, inl e, _ => inl e
      | _, _, _, inl e => inl e
      end
  end.

Definition send_command (fuel : nat) (command_code data : string)
  (expect_response : bool) : M (option string) :=
  fun st =>
    match ser st with
    | Some _ =>
        (write [ENQ] ;;
         logger DEBUG [Str "Sent ENQ (0x05)"] ;;
         ack_response <- read 1 ;;
         if negb (bytes_eqb ack_response [ACK]) then
           logger WARNING
             [Str "Did not receive ACK after ENQ. Communication may not be established."] ;;
           ret None
         else
           logger DEBUG [Str "Received ACK after ENQ"] ;;
           packet <- lift_exn (build_packet command_code data) ;;
           logger DEBUG [Str "Sent packet: "; Hex packet] ;;
           write packet ;;
           response <- read 100 ;;
           match response with
           | _ :: _ => check_response fuel response expect_response
           | [] =>
               logger WARNING
                 [Str "No response from device after sending command. Command may not have been executed."] ;;
               ret None
           end) st
    | None =>
        (logger INFO [Str "Simulated command sent."] ;;
         logger INFO [Str "Simulated successful response"] ;;
         ret None) st
    end.

(** ** [parse_read_values] *)

Definition parse_read_values (data_str : string) : M unit :=
  try_except
    (if startswith data_str "D0" then
       if String.eqb (strslice data_str 2 4) "PD" then
         let pressure_value := strslice data_str 4 8 in
         n <- lift_opt ValueError (int_of_str 10 pressure_value) ;;
         let pressure := int_div_float n (float_lit 100 1) in
         if String.eqb (strslice data_str 8 10) "DT" then
           let time_value := strslice data_str 10 15 in
           n <- lift_opt ValueError (int_of_str 10 time_value) ;;
           let time_sec := int_div_float n (float_lit 100000 1) in
           if String.eqb (strslice data_str 15 17) "VC" then
             let vacuum_value := strslice data_str 17 21 in
             n <- lift_opt ValueError (int_of_str 10 vacuum_value) ;;
             let vacuum := int_div_float n (float_lit 100 1) in
             logger INFO [Str "Pressure: "; Flt pressure; Str " psi"] ;;
             logger INFO [Str "Time: "; Flt time_sec; Str " seconds"] ;;
             logger INFO [Str "Vacuum: "; Flt vacuum; Str " H2O"]
           else logger ERROR [Str "Invalid response format: Missing 'VC'"]
         else logger ERROR [Str "Invalid response format: Missing 'DT'"]
       else logger ERROR [Str "Invalid response format: Missing 'PD'"]
     else logger ERROR [Str "Invalid response format: Missing 'D0'"])
    (fun _ => true)
    (fun e => logger ERROR [Str "Error parsing response: "; Exc e]).

(** ** [dispenser_callback] *)

Fixpoint lookup (k : string) (d : list (string * string)) : option string :=
  match d with
  | [] => None
  | (k', v) :: d' => if String.eqb k k' then Some v else lookup k d'
  end.

Definition pressure_units_map : list (string * string) :=
  [("psi", "00"); ("bar", "01"); ("kpa", "02")]%string.

Definition vacuum_units_map : list (string * string) :=
  [("kpa", "00"); ("inches_h2o", "01"); ("inches_hg", "02");
   ("mmhg", "03"); ("torr", "04")]%string.

Definition discard {A} (c : M A) : M unit := c ;; ret tt.

Definition handles_Index_or_Value (e : exn) : bool :=
  is_IndexError e || is_ValueError e.

Section Dispatcher.

(** The builtin [float(s)]; [None] stands for [ValueError]. *)
Variable py_float : string -> option float.

Definition dispenser_callback (fuel : nat) (command_str : string) : M unit :=
  if String.eqb command_str "start" then
    discard (send_command fuel "DI  " "" false)
  else if String.eqb command_str "stop" then
    discard (send_command fuel "DI  " "" false)
  else if startswith command_str "pressure " then
    try_except
      (arg <- lift_opt IndexError (getitem (split " " command_str) 1) ;;
       pressure_value <- lift_opt ValueError (py_float arg) ;;
       if fle (float_lit 0 1) pressure_value && fle pressure_value (float_lit 1000 1) then
         n <- lift_exn (int_of_float (fmul pressure_value (float_of_int 10))) ;;
         let formatted_pressure := format_d 4 n in
         discard (send_command fuel "PS  " formatted_pressure false)
       else
         logger ERROR [Str "Invalid pressure value: "; Flt pressure_value;
                       Str ". Must be between 0.0 and 100.0 psi"])
      handles_Index_or_Value
      (fun _ => logger ERROR [Str "Invalid pressure command format. Use: pressure <value>"])
  else if startswith command_str "vacuum " then
    try_except
      (arg <- lift_opt IndexError (getitem (split " " command_str) 1) ;;
       vacuum_value <- lift_opt ValueError (py_float arg) ;;
       if fle (float_lit 0 1) vacuum_value && fle vacuum_value (float_lit 180 1) then
         n <- lift_exn (int_of_float (fmul vacuum_value (float_of_int 10))) ;;
         let formatted_vacuum := format_d 4 n in
         discard (send_command fuel "VS  " formatted_vacuum false)
       else
         logger ERROR [Str "Invalid vacuum value: "; Flt vacuum_value;
                       Str ". Must be between 0.0 and 18.0 inH2O"])
      handles_Index_or_Value
      (fun _ => logger ERROR [Str "Invalid vacuum command format. Use: vacuum <value>"])
  else if String.eqb command_str "toggle_mode" then
    send_command fuel "TM  " "" false ;;
    fun st =>
      if is_timed_mode st then
        (set_is_timed_mode false ;; logger INFO [Str "Switched to Steady Mode"]) st
      else
        (set_is_timed_mode true ;; logger INFO [Str "Switched to Timed Mode"]) st
  else if startswith command_str "time " then
    try_except
      (arg <- lift_opt IndexError (getitem (split " " command_str) 1) ;;
       time_value <- lift_opt ValueError (py_float arg) ;;
       if fle (float_lit 0 4) time_value && fle time_value (float_lit 99999 4) then
         n <- lift_exn (int_of_float (fmul time_value (float_of_int 10000))) ;;
         let formatted_time :=
           if flt time_value (float_lit 10000 4)
           then String "T" (format_d 4 n) else String "T" (format_d 5 n) in
         discard (send_command fuel "DS  " formatted_time false)
       else
         logger ERROR [Str "Invalid time value: "; Flt time_value;
                       Str ". Must be between 0.0000 and 9.9999 seconds"])
      handles_Index_or_Value
      (fun _ => logger ERROR [Str "Invalid time command format. Use: time <value>"])
  else if startswith command_str "read_values" then
    try_except
      (let parts := split " " command_str in
       memory_location <-
         (if len parts =? 2 then
            arg <- lift_opt IndexError (getitem parts 1) ;;
            lift_opt ValueError (int_of_str 10 arg)
          else ret 0) ;;
       if (0 <=? memory_location) && (memory_location <=? 399) then
         let memory_location_str := format_d 3 memory_location in
         response_data <- send_command fuel "E8" memory_location_str true ;;
         match response_data with
         | Some (String c s) => parse_read_values (String c s)
         | _ => ret tt
         end
       else
         logger ERROR [Str "Invalid memory location: "; Int memory_location;
                       Str ". Must be between 0 and 399"])
      is_ValueError
      (fun _ => logger ERROR
         [Str "Invalid memory location format. Use: read_values <memory_location>"])
  else if startswith command_str "set_pressure_units " then
    let units_map := pressure_units_map in
    try_except
      (arg <- lift_opt IndexError (getitem (split " " command_str) 1) ;;
       let unit := lower arg in
       match lookup unit units_map with
       | Some units_code => discard (send_command fuel "E6  " units_code false)
       | None =>
           logger ERROR [Str "Invalid pressure unit: "; Str unit;
                         Str ". Must be one of "; Keys (map fst units_map)]
       end)
      is_IndexError
      (fun _ => logger ERROR [Str "Invalid command format. Use: set_pressure_units <unit>"])
  else if startswith command_str "set_vacuum_units " then
    let units_map := vacuum_units_map in
    try_except
      (arg <- lift_opt IndexError (getitem (split " " command_str) 1) ;;
       let unit := lower arg in
       match lookup unit units_map with
       | Some units_code => discard (send_command fuel "E7  " units_code false)
       | None =>
           logger ERROR [Str "Invalid vacuum unit: "; Str unit;
                         Str ". Must be one of "; Keys (map fst units_map)]
       end)
      is_IndexError
      (fun _ => logger ERROR [Str "Invalid command format. Use: set_vacuum_units <unit>"])
  else
    logger ERROR [Str "Unknown command: "; Str command_str].

End Dispatcher.

(** [float(s)] on plain decimal literals [ddd] and [ddd.ddd], with or
    without a sign, in the cases where one division of exact operands
    gives the correctly rounded double; everything else is left undefined
    here.  It stands for the builtin on the concrete commands below. *)

Fixpoint decimal_digits (l : list ascii) (acc : Z) : option Z :=
  match l with
  | [] => Some acc
  | c :: l' =>
      let n := ord c in
      if (48 <=? n) && (n <=? 57) then decimal_digits l' (acc * 10 + (n - 48))
      else None
  end.

Definition float_of_decimal (s : string) : option float :=
  let '(neg, l) := skip_sign (list_ascii_of_string s) in
  match split "." (string_of_list_ascii l) with
  | [i] =>
      match list_ascii_of_string i with
      | [] => None
      | d => match decimal_digits d 0 with
             | Some n =>
                 if n <? 2 ^ 53
                 then Some (let x := float_lit n 0 in
                            if neg then SFopp x else x)
                 else None
             | None => None
             end
      end
  | [i; f] =>
      let d := (list_ascii_of_string i ++ list_ascii_of_string f)%list in
      match d with
      | [] => None
      | _ => match decimal_digits d 0 with
             | Some n =>
                 if (n <? 2 ^ 53) && (Nat.leb (String.length f) 22)
                 then Some (let x := float_lit n (String.length f) in
                            if neg then SFopp x else x)
                 else None
             | None => None
             end
      end
  | _ => None
  end.

Definition idle_port (replies : list bytes) : serial :=
  {| written := []; rxbuf := []; incoming := replies |}.

(** [round(x)], which the specification uses to word the encodings: the
    nearest integer, ties to even.  The controller itself calls [int]. *)
Definition round_half_even (x : float) : exn + Z :=
  match x with
  | S754_zero _ => inr 0
  | S754_finite s m e =>
      let a :=
        if 0 <=? e then Z.shiftl (Zpos m) e
        else
          let q := Z.shiftr (Zpos m) (- e) in
          let r := Zpos m - Z.shiftl q (- e) in
          let half := Z.shiftl 1 (- e - 1) in
          if r <? half then q
          else if half <? r then q + 1
          else if Z.even q then q else q + 1 in
      inr (if s then - a else a)
  | S754_infinity _ => inl OverflowError
  | S754_nan => inl ValueError
  end.

Definition bytes_of (s : string) : bytes := map ord (list_ascii_of_string s).

(** What a run has written to the port, oldest chunk first. *)
Definition written_by {A} (r : controller * outcome A) : list bytes :=
  match ser (fst r) with
  | Some p => written p
  | None => []
  end.

(** What the device does during one exchange of [send_command]: there is
    no port (simulation mode), ENQ is not answered with ACK, the command
    gets no response, or the response is one well-formed frame (code A0
    for success, A2 for failure, or any other code). *)
Inductive device_outcome (st : controller) : Prop :=
| NoPort :
    ser st = None -> device_outcome st
| NoAck p :
    ser st = Some p -> fst (ser_read 1 p) <> [ACK] -> device_outcome st
| NoResponse p :
    ser st = Some p -> fst (ser_read 1 p) = [ACK] ->
    fst (ser_read 100 (snd (ser_read 1 p))) = [] ->
    device_outcome st
| OneFrame p code data :
    ser st = Some p -> fst (ser_read 1 p) = [ACK] ->
    is_ascii code -> is_ascii data -> strlen code + strlen data <= 255 ->
    build_packet code data = inr (fst (ser_read 100 (snd (ser_read 1 p)))) ->
    device_outcome st.

(** ** [destroy], [run], [connect] and the constructor

    [destroy] closes the port when there is one; the flag returned tells
    whether [close] was called. *)

Definition destroy (st : controller) : controller * bool :=
  (add_log (INFO, [Str "Dispenser Controller Stopped"]) st,
   match ser st with Some _ => true | None => false end).

Definition set_start_time (t : Z) (st : controller) : controller :=
  {| ser := ser st; is_timed_mode := is_timed_mode st;
     start_time := Some t; logged := logged st |}.

(** How [run] ends: the user typed 'exit', [input] met the end of the
    input ([EOFError], not caught), a command raised, or a command never
    returned. *)
Inductive run_end :=
| Exited
| EndOfInput
| Uncaught (e : exn)
| Hung.

Section Run.

Variable py_float : string -> option float.

(** The [while True] loop of [run].  Standard input is the list of the
    lines typed, each with the value [time.time()] has when it is read.
    [KeyboardInterrupt] is not modelled. *)
Fixpoint run_loop (fuel : nat) (stdin : list (string * Z)) (st : controller)
  : controller * run_end :=
  match stdin with
  | [] => (st, EndOfInput)
  | (command_str, now) :: stdin' =>
      if String.eqb (lower command_str) "exit" then (st, Exited)
      else
        match dispenser_callback py_float fuel command_str (set_start_time now st) with
        | (st', Return _) => run_loop fuel stdin' st'
        | (st', Raise e) => (st', Uncaught e)
        | (st', Diverge) => (st', Hung)
        end
  end.

(** [run]: the loop, then [destroy] in the [finally] clause, which is
    reached however the loop ends, unless a command never returns. *)
Definition run (fuel : nat) (stdin : list (string * Z)) (st : controller)
  : controller * bool * run_end :=
  match run_loop fuel stdin st with
  | (st', Hung) => (st', false, Hung)
  | (st', e) => (destroy st', e)
  end.

End Run.

(** A port listed by [comports()]: its device name, its description, and
    what [serial.Serial(device, ...)] gives, the open port or the message
    of the [SerialException]. *)
Record port_info := {
  device : string;
  description : string;
  opens : string + serial
}.

(** The second loop of [connect]. *)
Fixpoint connect_loop (available_ports : list port_info) : M unit :=
  match available_ports with
  | [] =>
      fun st =>
        match ser st with
        | None =>
            logger ERROR
              [Str "Could not connect to any port. Running in simulation mode."] st
        | Some _ => (st, Return tt)
        end
  | port :: ports' =>
      match opens port with
      | inr p =>
          fun st => logger INFO [Str "Connected to "; Str (device port)] (set_ser p st)
      | inl e =>
          logger ERROR [Str "Error connecting to "; Str (device port); Str ": "; Str e] ;;
          connect_loop ports'
      end
  end.

Fixpoint log_ports (available_ports : list port_info) : M unit :=
  match available_ports with
  | [] => ret tt
  | port :: ports' =>
      logger INFO [Str "  "; Str (device port); Str ": "; Str (description port)] ;;
      log_ports ports'
  end.

Definition connect (available_ports : list port_info) : M unit :=
  match available_ports with
  | [] => logger ERROR [Str "No serial ports found. Running in simulation mode."]
  | _ =>
      logger INFO [Str "Available serial ports:"] ;;
      log_ports available_ports ;;
      connect_loop available_ports
  end.

(** [DispenserController()]: the whole of the constructor, [connect]
    included. *)
Definition DispenserController (available_ports : list port_info) : controller :=
  let st := {| ser := None; is_timed_mode := true; start_time := None; logged := [] |} in
  let st := fst (connect available_ports st) in
  add_log (INFO, [Str "Dispenser Controller Started"])
    {| ser := ser st; is_timed_mode := true; start_time := None; logged := logged st |}.

(** ** Notions used to state the properties *)

Definition preserves {A} (R : controller -> controller -> Prop) (c : M A) : Prop :=
  forall st, R st (fst (c st)).

(** The mode flag is left as it was. *)
Definition same_mode (st st' : controller) : Prop :=
  is_timed_mode st' = is_timed_mode st.

(** The port stays open (or absent) and its write log only grows. *)
Definition port_grows (st st' : controller) : Prop :=
  match ser st with
  | Some p => exists p' extra, ser st' = Some p' /\ written p' = written p ++ extra
  | None => ser st' = None
  end.

(** The port is open and its write log starts with [w]. *)
Definition has_written {A} (w : list bytes) (r : controller * outcome A) : Prop :=
  exists p rest, ser (fst r) = Some p /\ written p = w ++ rest.

Definition hex2_ok (n : Z) : bool :=
  let s := format_X 2 n in
  Nat.eqb (String.length s) 2
  && forallb (fun c => ord c <? 128) (list_ascii_of_string s)
  && match int_of_str 16 s with Some m => m =? n | None => false end.

Definition dec4_ok (n : Z) : bool :=
  let s := format_d 4 n in
  Nat.eqb (String.length s) 4
  && forallb (fun c => (48 <=? ord c) && (ord c <=? 57)) (list_ascii_of_string s)
  && match int_of_str 10 s with Some m => m =? n | None => false end.

Definition dec3_ok (n : Z) : bool :=
  let s := format_d 3 n in
  Nat.eqb (String.length s) 3
  && forallb (fun c => (48 <=? ord c) && (ord c <=? 57)) (list_ascii_of_string s)
  && match int_of_str 10 s with Some m => m =? n | None => false end.

(** Whether the lines typed before the first 'exit' hold an odd number
    of 'toggle_mode'. *)
Fixpoint toggles (stdin : list (string * Z)) : bool :=
  match stdin with
  | [] => false
  | (command_str, _) :: stdin' =>
      if String.eqb (lower command_str) "exit" then false
      else xorb (String.eqb command_str "toggle_mode") (toggles stdin')
  end.

(** The command codes [dispenser_callback] passes to [send_command]. *)
Definition command_codes : list string :=
  ["DI  "; "PS  "; "VS  "; "TM  "; "DS  "; "E8"; "E6  "; "E7  "]%string.

(** What the protocol lets the controller put on the line: one of the
    control bytes ENQ, ACK and EOT, or the packet of one of its commands. *)
Definition transmission (b : bytes) : Prop :=
  b = [ENQ] \/ b = [ACK] \/ b = [EOT] \/
  exists code data, In code command_codes /\ build_packet code data = inr b.

(** The port stays open (or absent) and every chunk written to it
    satisfies [W]. *)
Definition writes_only (W : bytes -> Prop) (st st' : controller) : Prop :=
  match ser st with
  | Some p =>
      exists p' chunks,
        ser st' = Some p' /\ written p' = written p ++ chunks /\ Forall W chunks
  | None => ser st' = None
  end.

(** Nothing but the log has changed, and the log has only grown. *)
Definition only_logs (st st' : controller) : Prop :=
  ser st' = ser st /\ is_timed_mode st' = is_timed_mode st /\
  start_time st' = start_time st /\
  exists records, logged st' = logged st ++ records.

(** * Properties *)

(** ** Strings and bytes *)

Lemma list_ascii_of_string_app (s t : string) :
  list_ascii_of_string (s ++ t) = list_ascii_of_string s ++ list_ascii_of_string t.
Proof. induction s as [|c s IH]; simpl; [reflexivity | now rewrite IH]. Qed.

Lemma bytes_of_app (s t : string) : bytes_of (s ++ t) = bytes_of s ++ bytes_of t.
Proof. unfold bytes_of. now rewrite list_ascii_of_string_app, map_app. Qed.

Lemma is_ascii_app (s t : string) : is_ascii s -> is_ascii t -> is_ascii (s ++ t).
Proof.
  unfold is_ascii. intros Hs Ht. rewrite list_ascii_of_string_app.
  apply Forall_app. now split.
Qed.

Lemma is_ascii_String (c : ascii) (s : string) :
  is_ascii (String c s) <-> ord c < 128 /\ is_ascii s.
Proof.
  unfold is_ascii; simpl. split.
  - intros H. inversion H; subst. now split.
  - intros [H1 H2]. now constructor.
Qed.

Lemma strlen_app (s t : string) : strlen (s ++ t) = strlen s + strlen t.
Proof.
  unfold strlen. induction s as [|c s IH]; simpl String.length.
  - reflexivity.
  - rewrite !Nat2Z.inj_succ, IH. lia.
Qed.

Lemma len_bytes_of (s : string) : len (bytes_of s) = strlen s.
Proof.
  unfold len, strlen, bytes_of. rewrite length_map. f_equal.
  induction s as [|c s IH]; simpl; [reflexivity | now rewrite IH].
Qed.

Lemma len_app {A} (a b : list A) : len (a ++ b) = len a + len b.
Proof. unfold len. rewrite length_app. lia. Qed.

Lemma len_nonneg {A} (a : list A) : 0 <= len a.
Proof. unfold len. lia. Qed.

Lemma ord_range (c : ascii) : 0 <= ord c < 256.
Proof.
  unfold ord. pose proof (N_ascii_bounded c) as H.
  split; [apply N2Z.is_nonneg | lia].
Qed.

Lemma chr_ord (c : ascii) : chr (ord c) = c.
Proof. unfold chr, ord. rewrite N2Z.id. apply ascii_N_embedding. Qed.

Lemma encode_ascii_ok (s : string) :
  is_ascii s -> encode_ascii s = inr (bytes_of s).
Proof.
  induction s as [|c s IH]; intros H; simpl.
  - reflexivity.
  - apply is_ascii_String in H as [Hc Hs].
    apply Z.ltb_lt in Hc. rewrite Hc, (IH Hs). reflexivity.
Qed.

Lemma decode_bytes_of (s : string) :
  is_ascii s -> decode_ascii_ignore (bytes_of s) = s.
Proof.
  induction s as [|c s IH]; intros H.
  - reflexivity.
  - apply is_ascii_String in H as [Hc Hs].
    change (bytes_of (String c s)) with (ord c :: bytes_of s). simpl.
    pose proof (ord_range c) as [H0 _].
    apply Z.leb_le in H0. apply Z.ltb_lt in Hc. rewrite H0, Hc. simpl.
    now rewrite chr_ord, (IH Hs).
Qed.

(** ** C3: the checksum *)

Lemma land_255 (x : Z) : Z.land x 255 = x mod 256.
Proof. change 255 with (Z.ones 8). now rewrite Z.land_ones by lia. Qed.

(** C3. For an ASCII string [s] the checksum is defined, lies in 0..255,
    and added to the sum of the code points of [s] gives 0 modulo 256. *)
Theorem checksum_complements_sum (s : string) :
  is_ascii s ->
  exists c,
    calculate_checksum_ascii s = inr c /\
    0 <= c < 256 /\
    (c + sum_bytes (bytes_of s)) mod 256 = 0.
Proof.
  intros H. unfold calculate_checksum_ascii.
  rewrite (encode_ascii_ok s H).
  exists (Z.land (0 - sum_bytes (bytes_of s)) 255).
  rewrite land_255. repeat split.
  - apply Z.mod_pos_bound. lia.
  - apply Z.mod_pos_bound. lia.
  - rewrite Z.add_mod_idemp_l by lia.
    replace (0 - sum_bytes (bytes_of s) + sum_bytes (bytes_of s)) with 0 by lia.
    reflexivity.
Qed.

Lemma checksum_complements_sum_witness :
  exists c,
    calculate_checksum_ascii "08PS  0500" = inr c /\
    0 <= c < 256 /\
    (c + sum_bytes (bytes_of "08PS  0500")) mod 256 = 0.
Proof.
  apply (checksum_complements_sum "08PS  0500").
  unfold is_ascii. simpl. repeat constructor.
Defined.

Lemma checksum_value (s : string) :
  is_ascii s ->
  calculate_checksum_ascii s = inr ((0 - sum_bytes (bytes_of s)) mod 256).
Proof.
  intros H. unfold calculate_checksum_ascii.
  now rewrite (encode_ascii_ok s H), land_255.
Qed.

(** ** Properties kept by every step of a method *)

Lemma bytes_eqb_eq (a b : bytes) : bytes_eqb a b = true <-> a = b.
Proof.
  unfold bytes_eqb. destruct (list_eq_dec Z.eq_dec a b); split; congruence.
Qed.

Section Preservation.

Variable R : controller -> controller -> Prop.
Hypothesis R_refl : forall st, R st st.
Hypothesis R_trans : forall a b c, R a b -> R b c -> R a c.
Hypothesis R_logger : forall l msg, preserves R (logger l msg).
Hypothesis R_write : forall b, preserves R (write b).
Hypothesis R_read : forall n, preserves R (read n).

Lemma preserves_ret {A} (a : A) : preserves R (ret a).
Proof. intros st. apply R_refl. Qed.

Lemma preserves_raise {A} (e : exn) : preserves R (@raise A e).
Proof. intros st. apply R_refl. Qed.

Lemma preserves_diverge {A} : preserves R (@diverge A).
Proof. intros st. apply R_refl. Qed.

Lemma preserves_bind {A B} (c : M A) (k : A -> M B) :
  preserves R c -> (forall a, preserves R (k a)) -> preserves R (bind c k).
Proof.
  intros Hc Hk st. unfold bind. specialize (Hc st).
  destruct (c st) as [st' [a| e |]]; simpl in *; try assumption.
  eapply R_trans; [exact Hc | apply Hk].
Qed.

Lemma preserves_try_except {A} (body : M A) handled (handler : exn -> M A) :
  preserves R body -> (forall e, preserves R (handler e)) ->
  preserves R (try_except body handled handler).
Proof.
  intros Hb Hh st. unfold try_except. specialize (Hb st).
  destruct (body st) as [st' [a| e |]]; simpl in *; try assumption.
  destruct (handled e); simpl; [| assumption].
  eapply R_trans; [exact Hb | apply Hh].
Qed.

Lemma preserves_lift_opt {A} e (r : option A) : preserves R (lift_opt e r).
Proof. destruct r; [apply preserves_ret | apply preserves_raise]. Qed.

Lemma preserves_lift_exn {A} (r : exn + A) : preserves R (lift_exn r).
Proof. destruct r; [apply preserves_raise | apply preserves_ret]. Qed.

Lemma preserves_log_delay : preserves R log_delay.
Proof.
  intros st. unfold log_delay.
  destruct (start_time st) as [t|]; [destruct (t =? 0)|]; apply R_logger.
Qed.

Ltac pres :=
  repeat first
    [ apply preserves_ret | apply preserves_raise | apply preserves_diverge
    | apply R_logger | apply R_write | apply R_read | apply preserves_log_delay
    | apply preserves_lift_opt | apply preserves_lift_exn
    | assumption
    | apply preserves_bind; [| intros ? ]
    | apply preserves_try_except; [| intros ? ]
    | match goal with
      | |- preserves _ (if ?b then _ else _) => destruct b
      | |- preserves _ (match ?x with _ => _ end) => destruct x
      end
    | progress cbv zeta ].

Lemma preserves_process_data_response_loop fuel response :
  forall index, preserves R (process_data_response_loop fuel response index).
Proof.
  induction fuel as [|fuel IH]; intros index; simpl; pres; apply IH.
Qed.

Lemma preserves_process_data_response fuel response :
  preserves R (process_data_response fuel response).
Proof.
  unfold process_data_response. pres.
  apply preserves_process_data_response_loop.
Qed.

Lemma preserves_check_response_loop fuel response expect :
  forall index, preserves R (check_response_loop fuel response expect index).
Proof.
  induction fuel as [|fuel IH]; intros index; simpl; pres;
    first [apply IH | apply preserves_process_data_response_loop].
Qed.

Lemma preserves_check_response fuel response expect :
  preserves R (check_response fuel response expect).
Proof.
  unfold check_response. pres. apply preserves_check_response_loop.
Qed.

Lemma preserves_send_command fuel code data expect :
  preserves R (send_command fuel code data expect).
Proof.
  intros st. unfold send_command. destruct (ser st).
  - match goal with |- R st (fst (?c st)) => enough (H : preserves R c) by apply H end.
    pres. apply preserves_check_response_loop.
  - match goal with |- R st (fst (?c st)) => enough (H : preserves R c) by apply H end.
    pres.
Qed.

Lemma preserves_parse_read_values data_str :
  preserves R (parse_read_values data_str).
Proof. unfold parse_read_values. pres. Qed.

Lemma preserves_discard {A} (c : M A) : preserves R c -> preserves R (discard c).
Proof. intros H. unfold discard. pres. Qed.

Lemma preserves_dispenser_callback py_float fuel command_str :
  String.eqb command_str "toggle_mode" = false ->
  preserves R (dispenser_callback py_float fuel command_str).
Proof.
  intros Hne. unfold dispenser_callback. rewrite Hne.
  pres;
    try apply preserves_discard;
    try apply preserves_send_command;
    try apply preserves_parse_read_values.
Qed.

End Preservation.

Lemma same_mode_refl st : same_mode st st.
Proof. reflexivity. Qed.

Lemma same_mode_trans a b c : same_mode a b -> same_mode b c -> same_mode a c.
Proof. unfold same_mode. congruence. Qed.

Lemma same_mode_logger l msg : preserves same_mode (logger l msg).
Proof. intros st. reflexivity. Qed.

Lemma same_mode_write b : preserves same_mode (write b).
Proof. intros st. unfold write. destruct (ser st); reflexivity. Qed.

Lemma same_mode_read n : preserves same_mode (read n).
Proof. intros st. unfold read. destruct (ser st); reflexivity. Qed.

Lemma port_grows_refl st : port_grows st st.
Proof.
  unfold port_grows. destruct (ser st) as [p|] eqn:E; [| reflexivity].
  exists p, []. now rewrite app_nil_r.
Qed.

Lemma port_grows_trans a b c : port_grows a b -> port_grows b c -> port_grows a c.
Proof.
  unfold port_grows. destruct (ser a) as [pa|].
  - intros (pb & e1 & Hb & H1). rewrite Hb.
    intros (pc & e2 & Hc & H2). exists pc, (e1 ++ e2).
    split; [assumption |]. now rewrite H2, H1, app_assoc.
  - intros Hb. now rewrite Hb.
Qed.

Lemma port_grows_logger l msg : preserves port_grows (logger l msg).
Proof.
  intros st. unfold port_grows. simpl.
  destruct (ser st) as [p|]; [| reflexivity].
  exists p, []. now rewrite app_nil_r.
Qed.

Lemma port_grows_write b : preserves port_grows (write b).
Proof.
  intros st. unfold port_grows, write. destruct (ser st) as [p|] eqn:E; simpl.
  - exists (ser_write b p), [b]. split; reflexivity.
  - assumption.
Qed.

Lemma port_grows_read n : preserves port_grows (read n).
Proof.
  intros st. unfold port_grows, read. destruct (ser st) as [p|] eqn:E; simpl.
  - exists (snd (ser_read n p)), []. split; [reflexivity |].
    simpl. now rewrite app_nil_r.
  - assumption.
Qed.

Lemma send_command_port_grows fuel code data expect :
  preserves port_grows (send_command fuel code data expect).
Proof.
  apply preserves_send_command;
    auto using port_grows_refl, port_grows_logger, port_grows_write, port_grows_read.
  apply port_grows_trans.
Qed.

Lemma check_response_port_grows fuel response expect :
  preserves port_grows (check_response fuel response expect).
Proof.
  apply preserves_check_response;
    auto using port_grows_refl, port_grows_logger, port_grows_write, port_grows_read.
  apply port_grows_trans.
Qed.

Lemma parse_read_values_port_grows data_str :
  preserves port_grows (parse_read_values data_str).
Proof.
  apply preserves_parse_read_values;
    auto using port_grows_refl, port_grows_logger, port_grows_write, port_grows_read.
  apply port_grows_trans.
Qed.

Lemma dispenser_callback_same_mode py_float fuel command_str :
  String.eqb command_str "toggle_mode" = false ->
  preserves same_mode (dispenser_callback py_float fuel command_str).
Proof.
  apply preserves_dispenser_callback;
    auto using same_mode_refl, same_mode_logger, same_mode_write, same_mode_read.
  apply same_mode_trans.
Qed.

Lemma send_command_same_mode fuel code data expect :
  preserves same_mode (send_command fuel code data expect).
Proof.
  apply preserves_send_command;
    auto using same_mode_refl, same_mode_logger, same_mode_write, same_mode_read.
  apply same_mode_trans.
Qed.

(** *** Running a method one step at a time *)

Lemma run_ret {A B} (a : A) (k : A -> M B) st : bind (ret a) k st = k a st.
Proof. reflexivity. Qed.

Lemma run_logger {B} l msg (k : unit -> M B) st :
  bind (logger l msg) k st = k tt (add_log (l, msg) st).
Proof. reflexivity. Qed.

Lemma run_write {B} b (k : unit -> M B) st p :
  ser st = Some p ->
  bind (write b) k st = k tt (set_ser (ser_write b p) st).
Proof. intros H. unfold bind, write. now rewrite H. Qed.

Lemma run_read {B} n (k : bytes -> M B) st p :
  ser st = Some p ->
  bind (read n) k st = k (fst (ser_read n p)) (set_ser (snd (ser_read n p)) st).
Proof. intros H. unfold bind, read. now rewrite H. Qed.

Lemma run_bind_assoc {A B C} (c : M A) (k : A -> M B) (h : B -> M C) st :
  bind (bind c k) h st = bind c (fun a => bind (k a) h) st.
Proof. unfold bind. destruct (c st) as [st' [a| e |]]; reflexivity. Qed.

Lemma ser_add_log r st : ser (add_log r st) = ser st.
Proof. reflexivity. Qed.

Lemma ser_set_ser p st : ser (set_ser p st) = Some p.
Proof. reflexivity. Qed.

Lemma ser_set_mode b st : ser (set_mode b st) = ser st.
Proof. reflexivity. Qed.

Lemma mode_add_log r st : is_timed_mode (add_log r st) = is_timed_mode st.
Proof. reflexivity. Qed.

Lemma mode_set_ser p st : is_timed_mode (set_ser p st) = is_timed_mode st.
Proof. reflexivity. Qed.

Lemma mode_set_mode b st : is_timed_mode (set_mode b st) = b.
Proof. reflexivity. Qed.

(** ** The handshake *)

Lemma ser_read_write n b p :
  ser_read n (ser_write b p) = (fst (ser_read n p), ser_write b (snd (ser_read n p))).
Proof. reflexivity. Qed.

Lemma has_written_by {A} w (r : controller * outcome A) :
  has_written w r -> exists rest, written_by r = w ++ rest.
Proof.
  intros (p & rest & Hp & Hw). exists rest. unfold written_by. now rewrite Hp.
Qed.

Lemma has_written_grows {A B} w (r : controller * outcome A)
  (r' : controller * outcome B) :
  has_written w r -> port_grows (fst r) (fst r') -> has_written w r'.
Proof.
  intros (p & rest & Hp & Hw) G. unfold port_grows in G. rewrite Hp in G.
  destruct G as (p' & extra & Hp' & Hw').
  exists p', (rest ++ extra). split; [assumption |].
  now rewrite Hw', Hw, app_assoc.
Qed.

Lemma has_written_bind {A B} w (c : M A) (k : A -> M B) st :
  has_written w (c st) -> (forall a, preserves port_grows (k a)) ->
  has_written w (bind c k st).
Proof.
  intros H Hk. unfold bind. destruct (c st) as [st' [a| e |]] eqn:E;
    try exact H.
  eapply has_written_grows; [exact H | apply Hk].
Qed.

Lemma has_written_try_except {A} w (body : M A) handled handler st :
  has_written w (body st) -> (forall e, preserves port_grows (handler e)) ->
  has_written w (try_except body handled handler st).
Proof.
  intros H Hh. unfold try_except. destruct (body st) as [st' [a| e |]] eqn:E;
    try exact H.
  destruct (handled e); [| exact H].
  eapply has_written_grows; [exact H | apply Hh].
Qed.

(** When the port answers ENQ with ACK, the second chunk written is the
    packet of the command, whatever the device sends afterwards. *)
Lemma send_command_has_written fuel code data expect st p pkt :
  ser st = Some p ->
  fst (ser_read 1 p) = [ACK] ->
  build_packet code data = inr pkt ->
  has_written (written p ++ [[ENQ]; pkt]) (send_command fuel code data expect st).
Proof.
  intros Hser Hack Hpkt. unfold send_command. rewrite Hser.
  rewrite (run_write _ _ _ p Hser), run_logger.
  rewrite (run_read _ _ _ (ser_write [ENQ] p)) by reflexivity.
  rewrite ser_read_write. cbn [fst snd]. rewrite Hack.
  change (negb (bytes_eqb [ACK] [ACK])) with false. cbv iota.
  rewrite run_logger, Hpkt. cbn [lift_exn]. rewrite run_ret, run_logger.
  set (p1 := ser_write [ENQ] (snd (ser_read 1 p))).
  rewrite (run_write _ _ _ p1) by reflexivity.
  rewrite (run_read _ _ _ (ser_write pkt p1)) by reflexivity.
  rewrite ser_read_write. cbn [fst snd].
  set (p2 := ser_write pkt (snd (ser_read 100 p1))).
  assert (Hw : written p2 = written p ++ [[ENQ]; pkt]).
  { subst p2 p1. cbn. now rewrite <- app_assoc. }
  match goal with |- context [set_ser p2 ?s] => set (st2 := set_ser p2 s) end.
  assert (H2 : has_written (written p ++ [[ENQ]; pkt]) (st2, Return tt)).
  { exists p2, []. split; [reflexivity |]. now rewrite app_nil_r. }
  destruct (fst (ser_read 100 p1)) as [|z response].
  - rewrite run_logger. eapply has_written_grows; [exact H2 |].
    cbn [fst ret]. apply port_grows_logger.
  - eapply has_written_grows; [exact H2 |]. apply check_response_port_grows.
Qed.

Lemma send_command_transmits fuel code data expect st p pkt :
  ser st = Some p ->
  fst (ser_read 1 p) = [ACK] ->
  build_packet code data = inr pkt ->
  exists rest,
    written_by (send_command fuel code data expect st)
    = written p ++ [ENQ] :: pkt :: rest.
Proof.
  intros Hser Hack Hpkt.
  destruct (has_written_by _ _
              (send_command_has_written fuel code data expect st p pkt Hser Hack Hpkt))
    as (rest & H).
  exists rest. rewrite H. now rewrite <- app_assoc.
Qed.

Lemma send_command_no_ack fuel code data expect st p :
  ser st = Some p ->
  fst (ser_read 1 p) <> [ACK] ->
  send_command fuel code data expect st
  = (add_log
       (WARNING,
        [Str "Did not receive ACK after ENQ. Communication may not be established."])
       (set_ser (ser_write [ENQ] (snd (ser_read 1 p)))
          (add_log (DEBUG, [Str "Sent ENQ (0x05)"])
             (set_ser (ser_write [ENQ] p) st))),
     Return None).
Proof.
  intros Hser Hack. unfold send_command. rewrite Hser.
  rewrite (run_write _ _ _ p Hser), run_logger.
  rewrite (run_read _ _ _ (ser_write [ENQ] p)) by reflexivity.
  rewrite ser_read_write. cbn [fst snd].
  destruct (bytes_eqb (fst (ser_read 1 p)) [ACK]) eqn:E.
  { apply bytes_eqb_eq in E. contradiction. }
  cbn [negb]. now rewrite run_logger.
Qed.

(** C7. After ENQ is written, a one-byte read that is not ACK (an empty
    read included) ends the exchange: the warning is logged, [None] is
    returned, and ENQ is the only thing written to the port. *)
Theorem no_ack_sends_nothing fuel code data expect st p :
  ser st = Some p ->
  fst (ser_read 1 p) <> [ACK] ->
  exists st',
    send_command fuel code data expect st = (st', Return None) /\
    written_by (st', Return (@None string)) = written p ++ [[ENQ]] /\
    logged st' = logged st ++
      [(DEBUG, [Str "Sent ENQ (0x05)"]);
       (WARNING,
        [Str "Did not receive ACK after ENQ. Communication may not be established."])] /\
    is_timed_mode st' = is_timed_mode st.
Proof.
  intros Hser Hack. rewrite (send_command_no_ack _ _ _ _ _ _ Hser Hack).
  eexists. split; [reflexivity |]. unfold written_by. cbn.
  repeat split. now rewrite <- app_assoc.
Qed.

Lemma no_ack_sends_nothing_witness :
  exists st',
    send_command 5 "PS  " "0500" false (__init__ (Some (idle_port [])))
    = (st', Return None) /\
    written_by (st', Return (@None string)) = [] ++ [[ENQ]] /\
    logged st' = logged (__init__ (Some (idle_port []))) ++
      [(DEBUG, [Str "Sent ENQ (0x05)"]);
       (WARNING,
        [Str "Did not receive ACK after ENQ. Communication may not be established."])] /\
    is_timed_mode st' = is_timed_mode (__init__ (Some (idle_port []))).
Proof.
  apply (no_ack_sends_nothing 5 "PS  " "0500" false
           (__init__ (Some (idle_port []))) (idle_port [])).
  - reflexivity.
  - vm_compute. discriminate.
Defined.

(** ** C1: the packet for ('PS  ', '0500') *)

(** The length field counts the four characters of the code and the four
    of the data, so it is "08"; the packet with "06" and the checksum of
    "06PS  0500" (0xF2) is not what the encoder builds. *)
Lemma packet_PS_0500_is_not_06 :
  calculate_checksum_ascii "06PS  0500" = inr 242 /\
  format_X 2 242 = "F2"%string /\
  build_packet "PS  " "0500"
  <> inr ([STX] ++ bytes_of "06PS  0500" ++ bytes_of "F2" ++ [ETX]).
Proof.
  split; [reflexivity |]. split; [reflexivity |].
  vm_compute. discriminate.
Qed.

(** C1 (amended). Encoding ('PS  ', '0500') gives STX, the characters
    "08PS  0500", the two hexadecimal digits "F0" of the checksum of
    "08PS  0500", then ETX; and once the port has answered ENQ with ACK
    this packet is the chunk [send_command] writes next. *)
Theorem packet_PS_0500 :
  format_X 2 (strlen "PS  " + strlen "0500") = "08"%string /\
  calculate_checksum_ascii "08PS  0500" = inr 240 /\
  format_X 2 240 = "F0"%string /\
  build_packet "PS  " "0500"
  = inr ([STX] ++ bytes_of "08PS  0500" ++ bytes_of "F0" ++ [ETX]) /\
  forall fuel expect st p,
    ser st = Some p ->
    fst (ser_read 1 p) = [ACK] ->
    exists rest,
      written_by (send_command fuel "PS  " "0500" expect st)
      = written p ++ [ENQ]
          :: ([STX] ++ bytes_of "08PS  0500" ++ bytes_of "F0" ++ [ETX]) :: rest.
Proof.
  repeat (split; [reflexivity |]).
  intros fuel expect st p Hser Hack.
  now apply send_command_transmits.
Qed.

Lemma packet_PS_0500_witness :
  exists rest,
    written_by (send_command 2 "PS  " "0500" false (__init__ (Some (idle_port [[ACK]]))))
    = [] ++ [ENQ]
        :: ([STX] ++ bytes_of "08PS  0500" ++ bytes_of "F0" ++ [ETX]) :: rest.
Proof.
  apply (proj2 (proj2 (proj2 (proj2 packet_PS_0500))) 2%nat false
           (__init__ (Some (idle_port [[ACK]]))) (idle_port [[ACK]]));
    reflexivity.
Defined.

(** ** Slices of a buffer built by concatenation *)

Lemma slice_app_mid {A} (a b c : list A) i j :
  i = len a -> j = len a + len b -> slice (a ++ b ++ c) i j = b.
Proof.
  intros -> ->. unfold slice, clamp_index.
  pose proof (len_nonneg a). pose proof (len_nonneg b). pose proof (len_nonneg c).
  rewrite !len_app.
  destruct (len a <? 0) eqn:E1; [apply Z.ltb_lt in E1; lia |].
  destruct (len a + len b <? 0) eqn:E2; [apply Z.ltb_lt in E2; lia |].
  rewrite !Z.min_l by lia.
  replace (len a + len b - len a) with (len b) by lia.
  unfold len. rewrite !Nat2Z.id.
  rewrite skipn_app, skipn_all, Nat.sub_diag. simpl.
  rewrite firstn_app, firstn_all, Nat.sub_diag. simpl.
  apply app_nil_r.
Qed.

Lemma getitem_app_mid {A} (a : list A) x c i :
  i = len a -> getitem (a ++ x :: c) i = Some x.
Proof.
  intros ->. unfold getitem.
  pose proof (len_nonneg a). pose proof (len_nonneg c).
  destruct (len a <? 0) eqn:E1; [apply Z.ltb_lt in E1; lia |].
  rewrite len_app. change (len (x :: c)) with (Z.of_nat (S (List.length c))).
  rewrite Nat2Z.inj_succ. fold (len c).
  replace ((0 <=? len a) && (len a <? len a + Z.succ (len c))) with true
    by (symmetry; apply andb_true_iff; split; [apply Z.leb_le | apply Z.ltb_lt]; lia).
  unfold len. rewrite Nat2Z.id.
  rewrite nth_error_app2 by lia. now rewrite Nat.sub_diag.
Qed.

(** ** Two-digit hexadecimal fields *)

Lemma hex2_all : forallb hex2_ok (map Z.of_nat (seq 0 256)) = true.
Proof. vm_compute. reflexivity. Qed.

(** A value in 0..255 is rendered as two ASCII characters that
    [int(_, 16)] reads back. *)
Lemma format_X_2 (n : Z) :
  0 <= n < 256 ->
  String.length (format_X 2 n) = 2%nat /\
  is_ascii (format_X 2 n) /\
  int_of_str 16 (format_X 2 n) = Some n.
Proof.
  intros Hn.
  assert (Hin : In n (map Z.of_nat (seq 0 256))).
  { apply in_map_iff. exists (Z.to_nat n). split; [lia |]. apply in_seq. lia. }
  pose proof (proj1 (forallb_forall _ _) hex2_all n Hin) as H.
  unfold hex2_ok in H. cbv zeta in H.
  apply andb_true_iff in H as [H H3]. apply andb_true_iff in H as [H1 H2].
  split; [now apply Nat.eqb_eq |]. split.
  - unfold is_ascii. apply Forall_forall. intros c Hc.
    apply Z.ltb_lt. exact (proj1 (forallb_forall _ _) H2 c Hc).
  - destruct (int_of_str 16 (format_X 2 n)) as [m|]; [| discriminate].
    apply Z.eqb_eq in H3. now subst.
Qed.

(** ** A well-delimited frame inside a buffer

    The frame starts after [pre]: STX, a two-character length field [L]
    that reads as the length of the payload [P], the payload, a
    two-character checksum field [Hs], ETX.  Scanning it either accepts
    the frame or warns about its checksum, and in both cases leaves the
    index just past its ETX. *)
Lemma read_frame_at what pre L P Hs post :
  is_ascii L -> String.length L = 2%nat -> int_of_str 16 L = Some (strlen P) ->
  is_ascii P -> is_ascii Hs -> String.length Hs = 2%nat ->
  read_frame what
    (pre ++ [STX] ++ bytes_of L ++ bytes_of P ++ bytes_of Hs ++ [ETX] ++ post)
    (len pre)
  = match int_of_str 16 Hs with
    | None => FContinue ("Invalid checksum in " ++ what) (len pre + 6 + strlen P)
    | Some r =>
        if negb (r =? (0 - sum_bytes (bytes_of (L ++ P))) mod 256)
        then FContinue ("Checksum mismatch in " ++ what) (len pre + 6 + strlen P)
        else FValid L P (len pre + 6 + strlen P)
    end.
Proof.
  intros HL HL2 HLn HP HH HH2.
  set (buffer := pre ++ [STX] ++ bytes_of L ++ bytes_of P ++ bytes_of Hs ++ [ETX] ++ post).
  assert (HlL : len (bytes_of L) = 2)
    by (rewrite len_bytes_of; unfold strlen; now rewrite HL2).
  assert (HlH : len (bytes_of Hs) = 2)
    by (rewrite len_bytes_of; unfold strlen; now rewrite HH2).
  assert (HlP : len (bytes_of P) = strlen P) by apply len_bytes_of.
  assert (Hlen : len buffer = len pre + 6 + strlen P + len post).
  { subst buffer. rewrite !len_app, HlL, HlH, HlP.
    change (len [STX]) with 1. change (len [ETX]) with 1. lia. }
  pose proof (len_nonneg pre) as Hpre. pose proof (len_nonneg post) as Hpost.
  assert (HPn : 0 <= strlen P) by (unfold strlen; lia).
  assert (S1 : slice buffer (len pre + 1) (len pre + 1 + 2) = bytes_of L).
  { subst buffer. rewrite (app_assoc pre [STX]).
    apply slice_app_mid; rewrite ?len_app, ?HlL; change (len [STX]) with 1; lia. }
  assert (S2 : slice buffer (len pre + 1 + 2) (len pre + 1 + 2 + strlen P) = bytes_of P).
  { replace buffer with
      ((pre ++ [STX] ++ bytes_of L) ++ bytes_of P ++ (bytes_of Hs ++ [ETX] ++ post))
      by (subst buffer; now rewrite <- !app_assoc).
    apply slice_app_mid; rewrite ?len_app, ?HlL, ?HlP; change (len [STX]) with 1; lia. }
  assert (S3 : slice buffer (len pre + 1 + 2 + strlen P) (len pre + 1 + 2 + strlen P + 2)
               = bytes_of Hs).
  { replace buffer with
      ((pre ++ [STX] ++ bytes_of L ++ bytes_of P) ++ bytes_of Hs ++ ([ETX] ++ post))
      by (subst buffer; now rewrite <- !app_assoc).
    apply slice_app_mid; rewrite ?len_app, ?HlL, ?HlP, ?HlH;
      change (len [STX]) with 1; lia. }
  assert (G : getitem buffer (len pre + 1 + 2 + strlen P + 2) = Some ETX).
  { replace buffer with
      ((pre ++ [STX] ++ bytes_of L ++ bytes_of P ++ bytes_of Hs) ++ ETX :: post)
      by (subst buffer; now rewrite <- !app_assoc).
    apply getitem_app_mid. rewrite !len_app, HlL, HlP, HlH.
    change (len [STX]) with 1. lia. }
  unfold read_frame.
  replace (len pre + 1 + 1 >=? len buffer) with false
    by (symmetry; rewrite Z.geb_leb; apply Z.leb_gt; lia).
  rewrite S1, (decode_bytes_of L HL), HLn.
  replace (len pre + 1 + 2 + strlen P + 2 >? len buffer) with false
    by (symmetry; rewrite Z.gtb_ltb; apply Z.ltb_ge; lia).
  rewrite S2, S3, (decode_bytes_of P HP), (decode_bytes_of Hs HH).
  replace (len pre + 1 + 2 + strlen P + 2 >=? len buffer) with false
    by (symmetry; rewrite Z.geb_leb; apply Z.leb_gt; lia).
  rewrite G. change (negb (ETX =? ETX)) with false. cbv iota.
  rewrite (checksum_value (L ++ P) (is_ascii_app L P HL HP)).
  replace (len pre + 1 + 2 + strlen P + 2 + 1) with (len pre + 6 + strlen P) by lia.
  reflexivity.
Qed.

(** ** The packet of an ASCII command *)

Lemma build_packet_ok code data :
  is_ascii code -> is_ascii data -> strlen code + strlen data <= 255 ->
  build_packet code data
  = inr ([STX] ++ bytes_of (format_X 2 (strlen code + strlen data))
           ++ bytes_of code ++ bytes_of data
           ++ bytes_of
                (format_X 2
                   ((0 - sum_bytes
                           (bytes_of (format_X 2 (strlen code + strlen data)
                                      ++ code ++ data))) mod 256))
           ++ [ETX]).
Proof.
  intros Hc Hd Hlen.
  assert (Hn : 0 <= strlen code + strlen data < 256) by (unfold strlen in *; lia).
  destruct (format_X_2 _ Hn) as (_ & HL & _).
  set (L := format_X 2 (strlen code + strlen data)) in *.
  assert (Hin : is_ascii (L ++ code ++ data))
    by (apply is_ascii_app; [assumption | now apply is_ascii_app]).
  unfold build_packet. cbv zeta. fold L.
  rewrite (checksum_value _ Hin).
  set (c := (0 - sum_bytes (bytes_of (L ++ code ++ data))) mod 256).
  assert (Hcr : 0 <= c < 256) by (apply Z.mod_pos_bound; lia).
  destruct (format_X_2 _ Hcr) as (_ & HH & _).
  now rewrite !encode_ascii_ok.
Qed.


(** *** One iteration of the scanning loops *)

Lemma process_data_response_loop_end fuel response index st :
  (index <? len response) = false ->
  process_data_response_loop (S fuel) response index st = (st, Return None).
Proof. intros H. cbn [process_data_response_loop]. now rewrite H. Qed.

Lemma process_data_response_loop_valid fuel response index L P next st :
  (index <? len response) = true ->
  getitem response index = Some STX ->
  read_frame "data response." response index = FValid L P next ->
  process_data_response_loop (S fuel) response index st
  = (add_log (DEBUG, [Str "Command and Data: "; Str P]) st, Return (Some P)).
Proof.
  intros H G F. cbn [process_data_response_loop]. rewrite H, G.
  cbn [lift_opt]. rewrite run_ret. change (STX =? STX) with true. cbv iota.
  rewrite F. now rewrite run_logger.
Qed.

Lemma process_data_response_loop_continue fuel response index msg next st :
  (index <? len response) = true ->
  getitem response index = Some STX ->
  read_frame "data response." response index = FContinue msg next ->
  process_data_response_loop (S fuel) response index st
  = process_data_response_loop fuel response next (add_log (WARNING, [Str msg]) st).
Proof.
  intros H G F. cbn [process_data_response_loop]. rewrite H, G.
  cbn [lift_opt]. rewrite run_ret. change (STX =? STX) with true. cbv iota.
  rewrite F. now rewrite run_logger.
Qed.

Lemma check_response_loop_end fuel response expect index st :
  (index <? len response) = false ->
  check_response_loop (S fuel) response expect index st = (st, Return None).
Proof. intros H. cbn [check_response_loop]. now rewrite H. Qed.

Lemma check_response_loop_continue fuel response expect index msg next st :
  (index <? len response) = true ->
  getitem response index = Some STX ->
  read_frame "response." response index = FContinue msg next ->
  check_response_loop (S fuel) response expect index st
  = check_response_loop fuel response expect next (add_log (WARNING, [Str msg]) st).
Proof.
  intros H G F. cbn [check_response_loop]. rewrite H, G.
  cbn [lift_opt]. rewrite run_ret. change (STX =? STX) with true. cbv iota.
  rewrite F. now rewrite run_logger.
Qed.


Lemma check_response_loop_skip fuel response expect index b st :
  (index <? len response) = true ->
  getitem response index = Some b ->
  (b =? STX) = false ->
  check_response_loop (S fuel) response expect index st
  = check_response_loop fuel response expect (index + 1) st.
Proof.
  intros H G Hb. cbn [check_response_loop]. rewrite H, G.
  cbn [lift_opt]. rewrite run_ret. now rewrite Hb.
Qed.

(** *** Why the loops carry fuel, and why they can raise

    A length field may carry a sign: [int('-6', 16)] is -6.  The index
    then moves backwards, and on the buffer below the scan comes back to
    the same STX for ever; on STX '-F' it indexes before the start of the
    buffer. *)

Remark scan_may_not_terminate :
  forall fuel st,
    snd (check_response_loop fuel [122; 122; ETX; STX; 45; 54] false 0 st) = Diverge.
Proof.
  assert (L : forall fuel st,
             snd (check_response_loop fuel [122; 122; ETX; STX; 45; 54] false 3 st)
             = Diverge).
  { induction fuel as [|fuel IH]; intros st; [reflexivity |].
    rewrite (check_response_loop_continue fuel _ false 3
               "Invalid checksum in response." 3) by reflexivity.
    apply IH. }
  intros [|[|[|fuel]]] st; try reflexivity.
  rewrite (check_response_loop_skip _ _ false 0 122) by reflexivity.
  rewrite (check_response_loop_skip _ _ false 1 122) by reflexivity.
  rewrite (check_response_loop_skip _ _ false 2 ETX) by reflexivity.
  apply L.
Qed.

Remark scan_may_raise_IndexError :
  forall fuel st,
    snd (check_response (S fuel) [STX; 45; 70] false st) = Raise IndexError.
Proof. reflexivity. Qed.

(** ** C2: decoding what the encoder built *)




(** ** C4: what the scan does after a bad frame *)

(** The packet of an ASCII command, wherever it sits in a buffer, is
    accepted by the scan, which stops just past it. *)
Lemma read_frame_packet pre post code data :
  is_ascii code -> is_ascii data -> strlen code + strlen data <= 255 ->
  exists pkt,
    build_packet code data = inr pkt /\
    len pkt = 6 + strlen code + strlen data /\
    getitem (pre ++ pkt ++ post) (len pre) = Some STX /\
    forall what,
      read_frame what (pre ++ pkt ++ post) (len pre)
      = FValid (format_X 2 (strlen code + strlen data)) (code ++ data)
          (len pre + len pkt).
Proof.
  intros Hc Hd Hlen.
  assert (Hn : 0 <= strlen code + strlen data < 256) by (unfold strlen in *; lia).
  destruct (format_X_2 _ Hn) as (HL2 & HL & HLn).
  set (L := format_X 2 (strlen code + strlen data)) in *.
  set (cs := (0 - sum_bytes (bytes_of (L ++ code ++ data))) mod 256).
  assert (Hcr : 0 <= cs < 256) by (apply Z.mod_pos_bound; lia).
  destruct (format_X_2 _ Hcr) as (HH2 & HH & HHn).
  assert (HP : is_ascii (code ++ data)) by now apply is_ascii_app.
  exists ([STX] ++ bytes_of L ++ bytes_of (code ++ data)
            ++ bytes_of (format_X 2 cs) ++ [ETX]).
  assert (Hlp : len ([STX] ++ bytes_of L ++ bytes_of (code ++ data)
                       ++ bytes_of (format_X 2 cs) ++ [ETX])
                = 6 + strlen code + strlen data).
  { rewrite !len_app, !len_bytes_of, strlen_app. unfold strlen at 1 4.
    rewrite HL2, HH2. change (len [STX]) with 1. change (len [ETX]) with 1. lia. }
  split.
  { rewrite (build_packet_ok code data Hc Hd Hlen). fold L. fold cs.
    now rewrite bytes_of_app, <- app_assoc. }
  split; [exact Hlp |]. split.
  { cbn [app]. now apply getitem_app_mid. }
  intros what. rewrite Hlp.
  pose proof (read_frame_at what pre L (code ++ data) (format_X 2 cs) post
                HL HL2) as F.
  rewrite strlen_app in F. specialize (F HLn HP HH HH2).
  rewrite HHn in F.
  replace (negb (cs =? (0 - sum_bytes (bytes_of (L ++ code ++ data))) mod 256))
    with false in F by (subst cs; now rewrite Z.eqb_refl).
  rewrite <- !app_assoc.
  replace (len pre + (6 + strlen code + strlen data))
    with (len pre + 6 + (strlen code + strlen data)) by lia.
  exact F.
Qed.

Lemma process_data_response_loop_break fuel response index msg st :
  (index <? len response) = true ->
  getitem response index = Some STX ->
  read_frame "data response." response index = FBreak msg ->
  process_data_response_loop (S fuel) response index st
  = (add_log (WARNING, [Str msg]) st, Return None).
Proof.
  intros H G F. cbn [process_data_response_loop]. rewrite H, G.
  cbn [lift_opt]. rewrite run_ret. change (STX =? STX) with true. cbv iota.
  rewrite F. now rewrite run_logger.
Qed.

Lemma check_response_loop_break fuel response expect index msg st :
  (index <? len response) = true ->
  getitem response index = Some STX ->
  read_frame "response." response index = FBreak msg ->
  check_response_loop (S fuel) response expect index st
  = (add_log (WARNING, [Str msg]) st, Return None).
Proof.
  intros H G F. cbn [check_response_loop]. rewrite H, G.
  cbn [lift_opt]. rewrite run_ret. change (STX =? STX) with true. cbv iota.
  rewrite F. now rewrite run_logger.
Qed.




(** ** C9: the read-values payload *)

(** A payload that lacks a marker is not always answered with the name
    of the marker: 'D0PD0500DT' has no 'VC', but its time field is empty,
    [int] raises [ValueError] on it, and the error logged is that of the
    handler, which names no marker. *)
Lemma missing_marker_is_not_always_named :
  String.eqb (strslice "D0PD0500DT" 15 17) "VC" = false /\
  parse_read_values "D0PD0500DT" (__init__ None)
  = (add_log (ERROR, [Str "Error parsing response: "; Exc ValueError]) (__init__ None),
     Return tt) /\
  ~ In (ERROR, [Str "Invalid response format: Missing 'VC'"])
       (logged (fst (parse_read_values "D0PD0500DT" (__init__ None)))).
Proof.
  split; [reflexivity |]. split; [reflexivity |].
  cbn. intros [H | [H | []]]; discriminate.
Qed.

(** C9 (amended). [parse_read_values] checks 'D0' at the start, then
    'PD' at 2..4 followed by the four characters of the pressure, 'DT' at
    8..10 followed by the five characters of the time, 'VC' at 15..17
    followed by the four characters of the vacuum.  The first marker
    found absent is named in the error that is logged, provided the
    numeric fields before it are read by [int]; a numeric field that
    [int] does not read gives the error of the handler instead,
    'Error parsing response' with the [ValueError], which names no
    marker.  When all is present the three values logged are the fields
    divided by 10.0, 10000.0 and 10.0.  In particular
    'D0PD0500DT05000VC0100' gives 50.0, 0.5 and 10.0, and the same
    payload without its 'VC' gives the error naming 'VC'. *)
Theorem parse_read_values_markers data_str st :
  (startswith data_str "D0" = false ->
   parse_read_values data_str st
   = (add_log (ERROR, [Str "Invalid response format: Missing 'D0'"]) st, Return tt)) /\
  (startswith data_str "D0" = true ->
   String.eqb (strslice data_str 2 4) "PD" = false ->
   parse_read_values data_str st
   = (add_log (ERROR, [Str "Invalid response format: Missing 'PD'"]) st, Return tt)) /\
  (forall p,
      startswith data_str "D0" = true ->
      String.eqb (strslice data_str 2 4) "PD" = true ->
      int_of_str 10 (strslice data_str 4 8) = Some p ->
      String.eqb (strslice data_str 8 10) "DT" = false ->
      parse_read_values data_str st
      = (add_log (ERROR, [Str "Invalid response format: Missing 'DT'"]) st, Return tt)) /\
  (forall p t,
      startswith data_str "D0" = true ->
      String.eqb (strslice data_str 2 4) "PD" = true ->
      int_of_str 10 (strslice data_str 4 8) = Some p ->
      String.eqb (strslice data_str 8 10) "DT" = true ->
      int_of_str 10 (strslice data_str 10 15) = Some t ->
      String.eqb (strslice data_str 15 17) "VC" = false ->
      parse_read_values data_str st
      = (add_log (ERROR, [Str "Invalid response format: Missing 'VC'"]) st, Return tt)) /\
  (forall p t v,
      startswith data_str "D0" = true ->
      String.eqb (strslice data_str 2 4) "PD" = true ->
      int_of_str 10 (strslice data_str 4 8) = Some p ->
      String.eqb (strslice data_str 8 10) "DT" = true ->
      int_of_str 10 (strslice data_str 10 15) = Some t ->
      String.eqb (strslice data_str 15 17) "VC" = true ->
      int_of_str 10 (strslice data_str 17 21) = Some v ->
      parse_read_values data_str st
      = (add_log (INFO, [Str "Vacuum: ";
                         Flt (fdiv (float_of_int v) (float_of_int 10)); Str " H2O"])
           (add_log (INFO, [Str "Time: ";
                            Flt (fdiv (float_of_int t) (float_of_int 10000));
                            Str " seconds"])
              (add_log (INFO, [Str "Pressure: ";
                               Flt (fdiv (float_of_int p) (float_of_int 10));
                               Str " psi"]) st)),
         Return tt)) /\
  parse_read_values "D0PD0500DT05000VC0100" st
  = (add_log (INFO, [Str "Vacuum: "; Flt (float_of_int 10); Str " H2O"])
       (add_log (INFO, [Str "Time: "; Flt (S754_finite false (2 ^ 52) (-53));
                        Str " seconds"])
          (add_log (INFO, [Str "Pressure: "; Flt (float_of_int 50); Str " psi"]) st)),
     Return tt) /\
  parse_read_values "D0PD0500DT05000" st
  = (add_log (ERROR, [Str "Invalid response format: Missing 'VC'"]) st, Return tt) /\
  (startswith data_str "D0" = true ->
   String.eqb (strslice data_str 2 4) "PD" = true ->
   int_of_str 10 (strslice data_str 4 8) = None ->
   parse_read_values data_str st
   = (add_log (ERROR, [Str "Error parsing response: "; Exc ValueError]) st, Return tt)) /\
  (forall p,
      startswith data_str "D0" = true ->
      String.eqb (strslice data_str 2 4) "PD" = true ->
      int_of_str 10 (strslice data_str 4 8) = Some p ->
      String.eqb (strslice data_str 8 10) "DT" = true ->
      int_of_str 10 (strslice data_str 10 15) = None ->
      parse_read_values data_str st
      = (add_log (ERROR, [Str "Error parsing response: "; Exc ValueError]) st,
         Return tt)) /\
  (forall p t,
      startswith data_str "D0" = true ->
      String.eqb (strslice data_str 2 4) "PD" = true ->
      int_of_str 10 (strslice data_str 4 8) = Some p ->
      String.eqb (strslice data_str 8 10) "DT" = true ->
      int_of_str 10 (strslice data_str 10 15) = Some t ->
      String.eqb (strslice data_str 15 17) "VC" = true ->
      int_of_str 10 (strslice data_str 17 21) = None ->
      parse_read_values data_str st
      = (add_log (ERROR, [Str "Error parsing response: "; Exc ValueError]) st,
         Return tt)).
Proof.
  unfold parse_read_values, try_except.
  split; [intros H0; now rewrite H0 |].
  split; [intros H0 H1; now rewrite H0, H1 |].
  split.
  { intros p H0 H1 Hp H2. rewrite H0, H1, Hp. cbn [lift_opt].
    rewrite run_ret. cbv zeta. now rewrite H2. }
  split.
  { intros p t H0 H1 Hp H2 Ht H3. rewrite H0, H1, Hp. cbn [lift_opt].
    rewrite run_ret. cbv zeta. rewrite H2, Ht. cbn [lift_opt].
    rewrite run_ret. cbv zeta. now rewrite H3. }
  split.
  { intros p t v H0 H1 Hp H2 Ht H3 Hv. rewrite H0, H1, Hp. cbn [lift_opt].
    rewrite run_ret. cbv zeta. rewrite H2, Ht. cbn [lift_opt].
    rewrite run_ret. cbv zeta. rewrite H3, Hv. cbn [lift_opt].
    rewrite run_ret. cbv zeta. rewrite !run_logger. reflexivity. }
  split; [reflexivity |]. split; [reflexivity |].
  split.
  { intros H0 H1 Hp. now rewrite H0, H1, Hp. }
  split.
  { intros p H0 H1 Hp H2 Ht. rewrite H0, H1, Hp. cbn [lift_opt].
    rewrite run_ret. cbv zeta. now rewrite H2, Ht. }
  intros p t H0 H1 Hp H2 Ht H3 Hv. rewrite H0, H1, Hp. cbn [lift_opt].
  rewrite run_ret. cbv zeta. rewrite H2, Ht. cbn [lift_opt].
  rewrite run_ret. cbv zeta. now rewrite H3, Hv.
Qed.

(** The payload of the example, with pressure 0500, time 05000 and
    vacuum 0100, through the general statement. *)
Lemma parse_read_values_markers_witness :
  parse_read_values "D0PD0500DT05000VC0100" (__init__ None)
  = (add_log (INFO, [Str "Vacuum: ";
                     Flt (fdiv (float_of_int 100) (float_of_int 10)); Str " H2O"])
       (add_log (INFO, [Str "Time: ";
                        Flt (fdiv (float_of_int 5000) (float_of_int 10000));
                        Str " seconds"])
          (add_log (INFO, [Str "Pressure: ";
                           Flt (fdiv (float_of_int 500) (float_of_int 10));
                           Str " psi"]) (__init__ None))),
     Return tt).
Proof.
  apply (proj1 (proj2 (proj2 (proj2 (proj2
           (parse_read_values_markers "D0PD0500DT05000VC0100" (__init__ None))))))
           500 5000 100);
    reflexivity.
Defined.

(** ** C10: [read_values] without a memory location *)

(** C10. 'read_values' alone behaves exactly as 'read_values 0': both
    issue [send_command('E8', '000', expect_response=True)] and hand a
    non-empty answer to [parse_read_values]; when the port answers ENQ
    with ACK the packet written is STX "05E8000" "8E" ETX. *)
Theorem read_values_defaults_to_location_0 py_float fuel st :
  dispenser_callback py_float fuel "read_values" st
  = dispenser_callback py_float fuel "read_values 0" st /\
  dispenser_callback py_float fuel "read_values" st
  = try_except
      (response_data <- send_command fuel "E8" "000" true ;;
       match response_data with
       | Some (String c s) => parse_read_values (String c s)
       | _ => ret tt
       end)
      is_ValueError
      (fun _ => logger ERROR
         [Str "Invalid memory location format. Use: read_values <memory_location>"])
      st /\
  build_packet "E8" "000" = inr ([STX] ++ bytes_of "05E8000" ++ bytes_of "8E" ++ [ETX]) /\
  forall p,
    ser st = Some p ->
    fst (ser_read 1 p) = [ACK] ->
    exists rest,
      written_by (dispenser_callback py_float fuel "read_values" st)
      = written p ++ [ENQ]
          :: ([STX] ++ bytes_of "05E8000" ++ bytes_of "8E" ++ [ETX]) :: rest.
Proof.
  split; [reflexivity |]. split; [reflexivity |]. split; [reflexivity |].
  intros p Hser Hack.
  assert (H : has_written
                (written p ++ [[ENQ]; [STX] ++ bytes_of "05E8000" ++ bytes_of "8E" ++ [ETX]])
                (dispenser_callback py_float fuel "read_values" st)).
  { change (dispenser_callback py_float fuel "read_values" st)
      with (try_except
              (response_data <- send_command fuel "E8" "000" true ;;
               match response_data with
               | Some (String c s) => parse_read_values (String c s)
               | _ => ret tt
               end)
              is_ValueError
              (fun _ => logger ERROR
                 [Str "Invalid memory location format. Use: read_values <memory_location>"])
              st).
    apply has_written_try_except; [| intros e; apply port_grows_logger].
    apply has_written_bind.
    - now apply send_command_has_written.
    - intros [[|c s]|]; try (intros s0; apply port_grows_refl).
      apply parse_read_values_port_grows. }
  destruct (has_written_by _ _ H) as (rest & Hr).
  exists rest. rewrite Hr. now rewrite <- app_assoc.
Qed.

Lemma read_values_defaults_to_location_0_witness :
  exists rest,
    written_by (dispenser_callback float_of_decimal 3 "read_values"
                  (__init__ (Some (idle_port [[ACK]]))))
    = [] ++ [ENQ] :: ([STX] ++ bytes_of "05E8000" ++ bytes_of "8E" ++ [ETX]) :: rest.
Proof.
  apply (proj2 (proj2 (proj2
           (read_values_defaults_to_location_0 float_of_decimal 3
              (__init__ (Some (idle_port [[ACK]])))))) (idle_port [[ACK]]));
    reflexivity.
Defined.

(** ** C8: the mode flag *)

Lemma run_log_delay {B} (k : unit -> M B) st :
  exists r, bind log_delay k st = k tt (add_log r st).
Proof.
  unfold bind, log_delay.
  destruct (start_time st) as [t|]; [destruct (t =? 0) |]; eexists; reflexivity.
Qed.

Ltac run_delay :=
  match goal with
  | |- context [bind log_delay ?k ?s] =>
      let r := fresh "r" in
      let Hr := fresh "Hr" in
      destruct (run_log_delay k s) as [r Hr]; rewrite Hr; clear Hr
  end.

(** A response made of one frame that the scan accepts is handled to the
    end by a write command, whatever its code: EOT is written for A0 and
    A2, other codes are only reported. *)
Lemma check_response_single_frame fuel pkt L P st p :
  ser st = Some p ->
  (0 <? len pkt) = true ->
  getitem pkt 0 = Some STX ->
  read_frame "response." pkt 0 = FValid L P (len pkt) ->
  exists st', check_response (S (S fuel)) pkt false st = (st', Return None).
Proof.
  intros Hser Hlt HG HF. unfold check_response. rewrite run_logger.
  cbn [check_response_loop]. rewrite Hlt, HG. cbn [lift_opt]. rewrite run_ret.
  change (STX =? STX) with true. cbv iota. rewrite HF. cbv zeta.
  assert (Hend : forall st0, check_response_loop (S fuel) pkt false (len pkt) st0
                             = (st0, Return None))
    by (intros st0; apply check_response_loop_end, Z.ltb_irrefl).
  destruct (String.eqb (strslice P 0 2) "A0").
  - run_delay. rewrite !run_logger.
    rewrite (run_write _ _ _ p) by exact Hser.
    rewrite Hend. eexists; reflexivity.
  - destruct (String.eqb (strslice P 0 2) "A2").
    + run_delay. rewrite !run_logger.
      rewrite (run_write _ _ _ p) by exact Hser.
      rewrite Hend. eexists; reflexivity.
    + rewrite run_logger, Hend. eexists; reflexivity.
Qed.

Lemma send_command_acked fuel code data expect st p pkt :
  ser st = Some p ->
  fst (ser_read 1 p) = [ACK] ->
  build_packet code data = inr pkt ->
  exists st2 p2,
    ser st2 = Some p2 /\
    send_command fuel code data expect st
    = match fst (ser_read 100 (snd (ser_read 1 p))) with
      | [] =>
          (add_log
             (WARNING,
              [Str "No response from device after sending command. Command may not have been executed."])
             st2, Return None)
      | z :: response => check_response fuel (z :: response) expect st2
      end.
Proof.
  intros Hser Hack Hpkt. unfold send_command. rewrite Hser.
  rewrite (run_write _ _ _ p Hser), run_logger.
  rewrite (run_read _ _ _ (ser_write [ENQ] p)) by reflexivity.
  rewrite ser_read_write. cbn [fst snd]. rewrite Hack.
  change (negb (bytes_eqb [ACK] [ACK])) with false. cbv iota.
  rewrite run_logger, Hpkt. cbn [lift_exn]. rewrite run_ret, run_logger.
  rewrite (run_write _ _ _ (ser_write [ENQ] (snd (ser_read 1 p)))) by reflexivity.
  rewrite (run_read _ _ _ (ser_write pkt (ser_write [ENQ] (snd (ser_read 1 p)))))
    by reflexivity.
  rewrite !ser_read_write. cbn [fst snd].
  match goal with |- context [set_ser ?q ?s] =>
    match q with ser_write pkt _ => exists (set_ser q s), q end end.
  split; [reflexivity |].
  destruct (fst (ser_read 100 (snd (ser_read 1 p)))); [now rewrite run_logger | reflexivity].
Qed.

(** The exchange ends without an exception for each behaviour of the
    device listed in [device_outcome]. *)
Lemma send_command_returns fuel code data st pkt :
  build_packet code data = inr pkt ->
  device_outcome st ->
  exists st1 r, send_command (S (S fuel)) code data false st = (st1, Return r).
Proof.
  intros Hpkt [Hnone | p Hser Hack | p Hser Hack Hresp
               | p code' data' Hser Hack Hc Hd Hlen Hresp].
  - unfold send_command. rewrite Hnone. rewrite !run_logger. eexists _, _; reflexivity.
  - rewrite (send_command_no_ack _ _ _ _ _ _ Hser Hack). eexists _, _; reflexivity.
  - destruct (send_command_acked (S (S fuel)) code data false st p pkt Hser Hack Hpkt)
      as (st2 & p2 & Hp2 & E).
    rewrite E, Hresp. eexists _, _; reflexivity.
  - destruct (send_command_acked (S (S fuel)) code data false st p pkt Hser Hack Hpkt)
      as (st2 & p2 & Hp2 & E).
    destruct (read_frame_packet [] [] code' data' Hc Hd Hlen)
      as (frame & Hframe & Hlf & HG & HF).
    rewrite app_nil_r in HG, HF. cbn [app] in HG, HF.
    change (len (@nil Z)) with 0 in HG, HF.
    assert (Hresp' : frame = fst (ser_read 100 (snd (ser_read 1 p))))
      by congruence.
    assert (Hlt : (0 <? len frame) = true)
      by (apply Z.ltb_lt; rewrite Hlf; unfold strlen; lia).
    destruct (check_response_single_frame fuel frame _ _ st2 p2 Hp2 Hlt HG
                (HF "response."%string)) as (st' & Hst').
    rewrite E, <- Hresp'.
    destruct frame as [|z frame]; [discriminate |].
    rewrite Hst'. eexists _, _; reflexivity.
Qed.

Lemma toggle_mode_unfold py_float fuel st :
  dispenser_callback py_float fuel "toggle_mode" st
  = bind (send_command fuel "TM  " "" false)
      (fun _ st =>
         if is_timed_mode st then
           (set_is_timed_mode false ;; logger INFO [Str "Switched to Steady Mode"]) st
         else
           (set_is_timed_mode true ;; logger INFO [Str "Switched to Timed Mode"]) st)
      st.
Proof. reflexivity. Qed.

(** C8. The controller starts in timed mode.  'toggle_mode' calls
    [send_command] for the TM command and then flips the flag once:
    whenever the call returns the flag is the negation of what it was,
    and it returns for each behaviour of the device (no port, no ACK, no
    response, or one well-formed frame of any code, A0 and A2 included);
    on a port that acknowledges ENQ the packet STX "04TM  " "BB" ETX has
    been written.  Every other command string leaves the flag unchanged.
    The flag is not flipped by every call, though: a call cut short by an
    exception leaves it as it was, and the response STX '-' 'F' makes the
    scan raise [IndexError] after the TM packet has been written, so that
    the controller is still in timed mode when the command has been
    issued. *)
Theorem toggle_mode_flips_mode py_float :
  (forall port, is_timed_mode (__init__ port) = true) /\
  (forall fuel st,
      let r := dispenser_callback py_float fuel "toggle_mode" st in
      (snd r = Return tt /\ is_timed_mode (fst r) = negb (is_timed_mode st)) \/
      (snd r <> Return tt /\ is_timed_mode (fst r) = is_timed_mode st)) /\
  (forall fuel st,
      device_outcome st ->
      exists st',
        dispenser_callback py_float (S (S fuel)) "toggle_mode" st = (st', Return tt) /\
        is_timed_mode st' = negb (is_timed_mode st)) /\
  (forall fuel st p,
      ser st = Some p ->
      fst (ser_read 1 p) = [ACK] ->
      build_packet "TM  " "" = inr ([STX] ++ bytes_of "04TM  " ++ bytes_of "BB" ++ [ETX]) /\
      exists rest,
        written_by (dispenser_callback py_float fuel "toggle_mode" st)
        = written p ++ [ENQ]
            :: ([STX] ++ bytes_of "04TM  " ++ bytes_of "BB" ++ [ETX]) :: rest) /\
  (forall fuel command_str st,
      command_str <> "toggle_mode"%string ->
      is_timed_mode (fst (dispenser_callback py_float fuel command_str st))
      = is_timed_mode st) /\
  (forall fuel,
      let st := __init__ (Some (idle_port [[ACK]; [STX; 45; 70]])) in
      let r := dispenser_callback py_float (S fuel) "toggle_mode" st in
      snd r = Raise IndexError /\
      is_timed_mode st = true /\
      is_timed_mode (fst r) = true /\
      written_by r = [[ENQ]; [STX] ++ bytes_of "04TM  " ++ bytes_of "BB" ++ [ETX]]).
Proof.
  split; [reflexivity |]. split; [| split; [| split; [| split]]].
  - intros fuel st. cbv zeta. rewrite toggle_mode_unfold. unfold bind.
    pose proof (send_command_same_mode fuel "TM  " "" false st) as Hm.
    unfold same_mode in Hm.
    destruct (send_command fuel "TM  " "" false st) as [st1 [r| e |]];
      cbn [fst] in Hm.
    + left. destruct (is_timed_mode st1) eqn:E; cbn; rewrite <- Hm; now split.
    + right. cbn. split; [discriminate | exact Hm].
    + right. cbn. split; [discriminate | exact Hm].
  - intros fuel st Hout. rewrite toggle_mode_unfold. unfold bind.
    pose proof (send_command_same_mode (S (S fuel)) "TM  " "" false st) as Hm.
    unfold same_mode in Hm.
    destruct (send_command_returns fuel "TM  " "" st _ eq_refl Hout)
      as (st1 & r & E).
    rewrite E in *. cbn [fst] in Hm.
    destruct (is_timed_mode st1) eqn:E1; eexists; (split; [reflexivity |]);
      cbn; now rewrite <- Hm.
  - intros fuel st p Hser Hack. split; [reflexivity |].
    assert (H : has_written
                  (written p ++ [[ENQ]; [STX] ++ bytes_of "04TM  " ++ bytes_of "BB" ++ [ETX]])
                  (dispenser_callback py_float fuel "toggle_mode" st)).
    { rewrite toggle_mode_unfold. apply has_written_bind.
      - apply send_command_has_written; [exact Hser | exact Hack | reflexivity].
      - intros a st0. unfold port_grows.
        destruct (ser st0) as [q|] eqn:Eq.
        + exists q, []. rewrite app_nil_r. split; [| reflexivity].
          destruct (is_timed_mode st0); cbn; exact Eq.
        + destruct (is_timed_mode st0); cbn; exact Eq. }
    destruct (has_written_by _ _ H) as (rest & Hr).
    exists rest. rewrite Hr. now rewrite <- app_assoc.
  - intros fuel command_str st Hne.
    apply (dispenser_callback_same_mode py_float fuel command_str).
    now apply String.eqb_neq.
  - intros fuel. cbv zeta. repeat split; reflexivity.
Qed.

Lemma toggle_mode_flips_mode_witness :
  exists st',
    dispenser_callback float_of_decimal 2 "toggle_mode"
      (__init__ (Some (idle_port [[ACK]; [STX; 48; 50; 65; 50; 50; 66; ETX]])))
    = (st', Return tt) /\
    is_timed_mode st'
    = negb (is_timed_mode
              (__init__ (Some (idle_port [[ACK]; [STX; 48; 50; 65; 50; 50; 66; ETX]])))).
Proof.
  apply (proj1 (proj2 (proj2 (toggle_mode_flips_mode float_of_decimal))) 0%nat).
  apply (OneFrame _ (idle_port [[ACK]; [STX; 48; 50; 65; 50; 50; 66; ETX]]) "A2" "").
  - reflexivity.
  - reflexivity.
  - unfold is_ascii. simpl. repeat constructor.
  - unfold is_ascii. simpl. repeat constructor.
  - vm_compute. discriminate.
  - vm_compute. reflexivity.
Defined.

(** ** Binary64 rounding of small products

    Enough of the behaviour of [binary_round_aux] to know that the
    product formed for a pressure is finite and small. *)

Lemma digits2_pos_size (p : positive) : digits2_pos p = Pos.size p.
Proof. induction p; simpl; congruence. Qed.

Lemma Zdigits2_upper (x : Z) : 0 <= x -> x < 2 ^ Zdigits2 x.
Proof.
  intros H. destruct x as [|p|p]; [reflexivity | | lia].
  simpl Zdigits2. rewrite digits2_pos_size.
  pose proof (Pos.size_gt p) as G.
  apply Pos2Z.pos_lt_pos in G. now rewrite Pos2Z.inj_pow in G.
Qed.

Lemma Zdigits2_lower (x : Z) : 0 < x -> 2 ^ (Zdigits2 x - 1) <= x.
Proof.
  intros H. destruct x as [|p|p]; [lia | | lia].
  simpl Zdigits2. rewrite digits2_pos_size.
  pose proof (Pos.size_le p) as G.
  apply Pos2Z.pos_le_pos in G. rewrite Pos2Z.inj_pow in G.
  assert (E : 2 ^ Z.pos (Pos.size p) = 2 * 2 ^ (Z.pos (Pos.size p) - 1)).
  { rewrite <- (Z.pow_succ_r 2 (Z.pos (Pos.size p) - 1)) by lia. f_equal. lia. }
  change (Z.pos 2 ^ Z.pos (Pos.size p)) with (2 ^ Z.pos (Pos.size p)) in G.
  rewrite E in G. lia.
Qed.

Lemma Zdigits2_nonneg (x : Z) : 0 <= Zdigits2 x.
Proof. destruct x; simpl; lia. Qed.

(** A number below [2^j] has at most [j] binary digits. *)
Lemma Zdigits2_le (x j : Z) : 0 <= x -> 0 <= j -> x < 2 ^ j -> Zdigits2 x <= j.
Proof.
  intros Hx Hj H. destruct (Z.eq_dec x 0) as [->|Hne]; [simpl; lia |].
  pose proof (Zdigits2_lower x ltac:(lia)) as L.
  assert (L2 : 2 ^ (Zdigits2 x - 1) < 2 ^ j) by lia.
  apply Z.pow_lt_mono_r_iff in L2; lia.
Qed.

Lemma shr_1_div2 mrs : 0 <= shr_m mrs -> shr_m (shr_1 mrs) = shr_m mrs / 2.
Proof.
  destruct mrs as [m r s]. simpl. intros H. rewrite <- Z.div2_div.
  destruct m as [|[p|p|]|p]; try reflexivity; lia.
Qed.

Lemma iter_shr_1 (p : positive) :
  forall mrs, 0 <= shr_m mrs ->
              shr_m (iter_pos shr_1 p mrs) = shr_m mrs / 2 ^ Z.pos p.
Proof.
  induction p as [p IH|p IH|]; intros mrs H; simpl iter_pos.
  - assert (H1 : 0 <= shr_m (shr_1 mrs))
      by (rewrite shr_1_div2 by assumption; apply Z.div_pos; lia).
    assert (H2 : 0 <= shr_m (iter_pos shr_1 p (shr_1 mrs)))
      by (rewrite IH by assumption; apply Z.div_pos; lia).
    rewrite IH, IH, shr_1_div2 by assumption.
    rewrite !Z.div_div by lia. f_equal.
    replace (Z.pos p~1) with (1 + Z.pos p + Z.pos p) by lia.
    rewrite !Z.pow_add_r by lia. change (2 ^ 1) with 2. ring.
  - assert (H2 : 0 <= shr_m (iter_pos shr_1 p mrs))
      by (rewrite IH by assumption; apply Z.div_pos; lia).
    rewrite IH, IH by assumption.
    rewrite !Z.div_div by lia. f_equal.
    replace (Z.pos p~0) with (Z.pos p + Z.pos p) by lia.
    rewrite !Z.pow_add_r by lia. reflexivity.
  - now apply shr_1_div2.
Qed.

Lemma shr_m_of_loc m l : shr_m (shr_record_of_loc m l) = m.
Proof. destruct l as [|[]]; reflexivity. Qed.

(** [shr] divides the mantissa by [2^k] and adds [k] to the exponent,
    where [k] is the shift when positive and 0 otherwise. *)
Lemma shr_spec mrs e n :
  0 <= shr_m mrs ->
  shr_m (fst (shr mrs e n)) = shr_m mrs / 2 ^ Z.max 0 n /\
  snd (shr mrs e n) = e + Z.max 0 n.
Proof.
  intros H. destruct n as [|p|p]; simpl.
  - rewrite Z.div_1_r. lia.
  - rewrite iter_shr_1 by assumption. split; [reflexivity | lia].
  - rewrite Z.div_1_r. lia.
Qed.

Lemma round_nearest_even_bounds m l :
  m <= round_nearest_even m l <= m + 1.
Proof.
  destruct l as [|[]]; simpl; try lia. destruct (Z.even m); lia.
Qed.

(** Rounding a positive number below [2^11] whose exponent is negative
    gives zero or a finite positive float, whose integer part is at most
    2049. *)
Lemma binary_round_aux_small (M : positive) (E : Z) :
  E <= -1 -> Zdigits2 (Z.pos M) + E <= 11 ->
  exists r,
    binary_round_aux 53 1024 false (Z.pos M) E loc_Exact = r /\
    (r = S754_zero false \/
     exists m e, r = S754_finite false m e /\ e <= -1 /\
                 0 <= Z.shiftl (Z.pos m) e <= 2049).
Proof.
  intros HE Hd. eexists. split; [reflexivity |].
  unfold binary_round_aux, shr_fexp.
  change (fexp 53 1024) with (fun k => Z.max (k - 53) (-1074)). cbv beta.
  set (d := Zdigits2 (Z.pos M)) in *.
  set (n1 := Z.max (d + E - 53) (-1074) - E).
  pose proof (shr_spec (shr_record_of_loc (Z.pos M) loc_Exact) E n1) as S1.
  rewrite shr_m_of_loc in S1. specialize (S1 ltac:(lia)).
  destruct (shr (shr_record_of_loc (Z.pos M) loc_Exact) E n1) as [mrs1 e1].
  cbn [fst snd] in S1. destruct S1 as [Hm1 He1].
  set (m2 := round_nearest_even (shr_m mrs1) (loc_of_shr_record mrs1)).
  pose proof (round_nearest_even_bounds (shr_m mrs1) (loc_of_shr_record mrs1)) as Hm2.
  fold m2 in Hm2.
  set (k1 := Z.max 0 n1) in *.
  assert (Hk1 : 0 <= k1) by lia.
  assert (Hm1n : 0 <= shr_m mrs1) by (rewrite Hm1; apply Z.div_pos; lia).
  set (n2 := Z.max (Zdigits2 m2 + e1 - 53) (-1074) - e1).
  pose proof (shr_spec (shr_record_of_loc m2 loc_Exact) e1 n2) as S2.
  rewrite shr_m_of_loc in S2. specialize (S2 ltac:(lia)).
  destruct (shr (shr_record_of_loc m2 loc_Exact) e1 n2) as [mrs2 e2].
  cbn [fst snd] in S2. destruct S2 as [Hm3 He2].
  set (k2 := Z.max 0 n2) in *.
  assert (Hk2 : 0 <= k2) by lia.
  (* the exponents stay negative *)
  assert (He1n : e1 <= -1) by lia.
  pose proof (Zdigits2_upper (Z.pos M) ltac:(lia)) as HMd. fold d in HMd.
  pose proof (Zdigits2_nonneg (Z.pos M)) as Hdn. fold d in Hdn.
  assert (Hd2 : Zdigits2 m2 + e1 <= 12).
  { destruct (Z_le_gt_dec k1 d) as [Hle|Hgt].
    - assert (shr_m mrs1 < 2 ^ (d - k1)).
      { rewrite Hm1. apply Z.div_lt_upper_bound; [apply Z.pow_pos_nonneg; lia |].
        rewrite <- Z.pow_add_r by lia. now replace (k1 + (d - k1)) with d by lia. }
      assert (m2 < 2 ^ (d - k1 + 1)).
      { rewrite Z.pow_add_r by lia. change (2 ^ 1) with 2.
        assert (0 < 2 ^ (d - k1)) by (apply Z.pow_pos_nonneg; lia). lia. }
      assert (Hz : Zdigits2 m2 <= d - k1 + 1) by (apply Zdigits2_le; lia). lia.
    - assert (shr_m mrs1 = 0).
      { rewrite Hm1. apply Z.div_small. split; [lia |].
        eapply Z.lt_le_trans; [exact HMd |]. apply Z.pow_le_mono_r; lia. }
      assert (m2 < 2 ^ 1) by (change (2 ^ 1) with 2; lia).
      assert (Hz : Zdigits2 m2 <= 1) by (apply Zdigits2_le; lia). lia. }
  assert (He2n : e2 <= -1) by lia.
  assert (Hm3n : 0 <= shr_m mrs2) by (rewrite Hm3; apply Z.div_pos; lia).
  destruct (shr_m mrs2) as [|m3|m3] eqn:Em3; [now left | | lia].
  right. replace (e2 <=? 1024 - 53) with true by (symmetry; apply Z.leb_le; lia).
  exists m3, e2. split; [reflexivity |]. split; [assumption |].
  rewrite Z.shiftl_div_pow2 by lia. rewrite Hm3.
  rewrite Z.div_div by lia.
  rewrite <- Z.pow_add_r by lia.
  replace (k2 + - e2) with (- e1) by lia.
  split; [apply Z.div_pos; lia |].
  assert (Hb : m2 / 2 ^ (- e1) <= (shr_m mrs1 + 1) / 2 ^ (- e1))
    by (apply Z.div_le_mono; lia).
  assert (Hc : (shr_m mrs1 + 1) / 2 ^ (- e1) <= shr_m mrs1 / 2 ^ (- e1) + 1).
  { assert (0 < 2 ^ (- e1)) by (apply Z.pow_pos_nonneg; lia).
    replace (shr_m mrs1 + 1) with (shr_m mrs1 + 1 * 1) by lia.
    apply Z.div_le_upper_bound; [assumption |].
    pose proof (Z.mul_div_le (shr_m mrs1) (2 ^ (- e1)) H) as Hx.
    pose proof (Z.mod_pos_bound (shr_m mrs1) (2 ^ (- e1)) H) as Hy.
    pose proof (Z.div_mod (shr_m mrs1) (2 ^ (- e1)) ltac:(lia)) as Hz.
    nia. }
  assert (Hdv : shr_m mrs1 / 2 ^ (- e1) = Z.pos M / 2 ^ (- E)).
  { rewrite Hm1, Z.div_div by lia. rewrite <- Z.pow_add_r by lia.
    f_equal. f_equal. lia. }
  assert (He : Z.pos M / 2 ^ (- E) <= 2048).
  { destruct (Z_le_gt_dec 0 (d + E)) as [Hp|Hn].
    - apply Z.lt_succ_r. apply Z.div_lt_upper_bound; [apply Z.pow_pos_nonneg; lia |].
      eapply Z.lt_le_trans; [exact HMd |].
      change (Z.succ 2048) with (2 ^ 11 + 1).
      assert (2 ^ d <= 2 ^ (- E) * 2 ^ 11).
      { rewrite <- Z.pow_add_r by lia. apply Z.pow_le_mono_r; lia. }
      assert (0 < 2 ^ (- E)) by (apply Z.pow_pos_nonneg; lia). nia.
    - rewrite Z.div_small; [lia |]. split; [lia |].
      eapply Z.lt_le_trans; [exact HMd |]. apply Z.pow_le_mono_r; lia. }
  lia.
Qed.

(** For a binary64 value in [0.0, 100.0] the product with 10 is finite and
    its integer part lies in 0..2049 (in fact 0..1000; the coarse bound
    is all that is used). *)
Lemma pressure_product_small (v : float) :
  valid_binary prec emax v = true ->
  fle (float_lit 0 1) v = true ->
  fle v (float_lit 1000 1) = true ->
  exists n, int_of_float (fmul v (float_of_int 10)) = inr n /\ 0 <= n <= 2049.
Proof.
  change (float_lit 0 1) with (S754_zero false).
  change (float_lit 1000 1) with (S754_finite false 7036874417766400 (-46)).
  change (float_of_int 10) with (S754_finite false 5629499534213120 (-49)).
  intros Hv H0 H100.
  destruct v as [s | s | | s m e]; try discriminate.
  - exists 0. split; [reflexivity | lia].
  - destruct s; discriminate.
  - destruct s; [discriminate |].
    assert (He : e <= -46).
    { unfold fle, SFleb, SFcompare in H100.
      destruct (Z.compare_spec e (-46)); [lia | lia | discriminate]. }
    assert (Hm : Zdigits2 (Z.pos m) <= 53).
    { unfold valid_binary, bounded, canonical_mantissa in Hv.
      apply andb_true_iff in Hv as [Hc _]. apply Z.eqb_eq in Hc.
      change (fexp prec emax) with (fun k => Z.max (k - 53) (-1074)) in Hc.
      cbv beta in Hc. simpl Zdigits2. lia. }
    assert (Hd : Zdigits2 (Z.pos (m * 5629499534213120)) <= 106).
    { apply Zdigits2_le; [lia | lia |].
      pose proof (Zdigits2_upper (Z.pos m) ltac:(lia)) as Hu.
      assert (2 ^ Zdigits2 (Z.pos m) <= 2 ^ 53) by (apply Z.pow_le_mono_r; lia).
      rewrite Pos2Z.inj_mul.
      change (2 ^ 106) with (2 ^ 53 * 2 ^ 53).
      apply Z.mul_lt_mono_nonneg; [lia | lia | lia | reflexivity]. }
    destruct (binary_round_aux_small (m * 5629499534213120) (e + -49))
      as (r & Hr & [Hz | (m' & e' & Hf & He' & Hn)]); [lia | lia | |].
    + exists 0. unfold fmul, SFmul. cbn [xorb]. unfold prec, emax.
      rewrite Hr, Hz. split; [reflexivity | lia].
    + exists (Z.shiftl (Z.pos m') e'). unfold fmul, SFmul. cbn [xorb].
      unfold prec, emax. rewrite Hr, Hf. split; [reflexivity | exact Hn].
Qed.

(** *** Four-digit fields *)

Lemma dec4_all : forallb dec4_ok (map Z.of_nat (seq 0 2050)) = true.
Proof. vm_compute. reflexivity. Qed.

(** A value in 0..2049 is rendered as four decimal digits that read back
    as the value. *)
Lemma format_d_4 (n : Z) :
  0 <= n <= 2049 ->
  String.length (format_d 4 n) = 4%nat /\
  is_ascii (format_d 4 n) /\
  int_of_str 10 (format_d 4 n) = Some n.
Proof.
  intros Hn.
  assert (Hin : In n (map Z.of_nat (seq 0 2050))).
  { apply in_map_iff. exists (Z.to_nat n). split; [lia |]. apply in_seq. lia. }
  pose proof (proj1 (forallb_forall _ _) dec4_all n Hin) as H.
  unfold dec4_ok in H. cbv zeta in H.
  apply andb_true_iff in H as [H H3]. apply andb_true_iff in H as [H1 H2].
  split; [now apply Nat.eqb_eq |]. split.
  - unfold is_ascii. apply Forall_forall. intros c Hc.
    pose proof (proj1 (forallb_forall _ _) H2 c Hc) as Hd.
    apply andb_true_iff in Hd as [_ Hd]. apply Z.leb_le in Hd. lia.
  - destruct (int_of_str 10 (format_d 4 n)) as [m|]; [| discriminate].
    apply Z.eqb_eq in H3. now subst.
Qed.

Lemma startswith_app (s p : string) :
  startswith s p = true -> exists rest, s = (p ++ rest)%string.
Proof.
  unfold startswith. revert s.
  induction p as [|a p IH]; intros s H.
  - exists s. reflexivity.
  - destruct s as [|b s]; [discriminate |]. simpl in H.
    destruct (ascii_dec a b) as [->|]; [| discriminate].
    destruct (IH s H) as (rest & ->). now exists rest.
Qed.

(** ** C5: setting the pressure *)

(** For 0.875 psi the product 8.75 is exact; [round] would give 9, the
    controller sends 0008. *)
Lemma set_pressure_does_not_round :
  float_of_decimal "0.875" = Some (float_lit 875 3) /\
  fle (float_lit 0 1) (float_lit 875 3) && fle (float_lit 875 3) (float_lit 1000 1)
  = true /\
  round_half_even (fmul (float_lit 875 3) (float_of_int 10)) = inr 9 /\
  int_of_float (fmul (float_lit 875 3) (float_of_int 10)) = inr 8 /\
  written_by (dispenser_callback float_of_decimal 2 "pressure 0.875"
                (__init__ (Some (idle_port [[ACK]]))))
  = [[ENQ]; [STX] ++ bytes_of "08PS  0008" ++ bytes_of "ED" ++ [ETX]] /\
  build_packet "PS  " (format_d 4 9)
  <> inr ([STX] ++ bytes_of "08PS  0008" ++ bytes_of "ED" ++ [ETX]).
Proof.
  repeat (split; [vm_compute; reflexivity |]).
  vm_compute. discriminate.
Qed.

(** C5 (amended). For a pressure [v] (a binary64 value read from the
    command) in [0.0, 100.0], the data field is the integer part of the
    product [v * 10], truncated toward zero, as four decimal digits, and
    it is sent with command code 'PS  '; outside the range (100.0001 for
    one) only the error is logged: nothing is written to the port. *)
Theorem set_pressure_truncates py_float fuel command_str arg v st :
  startswith command_str "pressure " = true ->
  getitem (split " " command_str) 1 = Some arg ->
  py_float arg = Some v ->
  valid_binary prec emax v = true ->
  (fle (float_lit 0 1) v && fle v (float_lit 1000 1) = true ->
   exists n pkt,
     int_of_float (fmul v (float_of_int 10)) = inr n /\
     0 <= n < 10000 /\
     String.length (format_d 4 n) = 4%nat /\
     int_of_str 10 (format_d 4 n) = Some n /\
     build_packet "PS  " (format_d 4 n) = inr pkt /\
     dispenser_callback py_float fuel command_str st
     = try_except (discard (send_command fuel "PS  " (format_d 4 n) false))
         handles_Index_or_Value
         (fun _ => logger ERROR
            [Str "Invalid pressure command format. Use: pressure <value>"])
         st /\
     forall p,
       ser st = Some p -> fst (ser_read 1 p) = [ACK] ->
       exists rest,
         written_by (dispenser_callback py_float fuel command_str st)
         = written p ++ [ENQ] :: pkt :: rest) /\
  (fle (float_lit 0 1) v && fle v (float_lit 1000 1) = false ->
   dispenser_callback py_float fuel command_str st
   = (add_log (ERROR, [Str "Invalid pressure value: "; Flt v;
                       Str ". Must be between 0.0 and 100.0 psi"]) st,
      Return tt)).
Proof.
  intros Hpre Harg Hv Hvalid.
  destruct (startswith_app _ _ Hpre) as (rest0 & Hcmd).
  assert (E1 : String.eqb command_str "start" = false) by (subst; reflexivity).
  assert (E2 : String.eqb command_str "stop" = false) by (subst; reflexivity).
  assert (Hcb : forall b,
             fle (float_lit 0 1) v && fle v (float_lit 1000 1) = b ->
             dispenser_callback py_float fuel command_str st
             = try_except
                 (if b then
                    n <- lift_exn (int_of_float (fmul v (float_of_int 10))) ;;
                    discard (send_command fuel "PS  " (format_d 4 n) false)
                  else
                    logger ERROR [Str "Invalid pressure value: "; Flt v;
                                  Str ". Must be between 0.0 and 100.0 psi"])
                 handles_Index_or_Value
                 (fun _ => logger ERROR
                    [Str "Invalid pressure command format. Use: pressure <value>"])
                 st).
  { intros b Hb. unfold dispenser_callback. rewrite E1, E2, Hpre.
    unfold try_except. rewrite Harg. cbn [lift_opt]. rewrite run_ret, Hv.
    cbn [lift_opt]. rewrite run_ret, Hb. reflexivity. }
  split.
  - intros Hrange. rewrite (Hcb true Hrange).
    apply andb_true_iff in Hrange as [H0 H100].
    destruct (pressure_product_small v Hvalid H0 H100) as (n & Hn & Hnr).
    destruct (format_d_4 n Hnr) as (Hl & Ha & Hi).
    assert (HPS : is_ascii "PS  ") by (unfold is_ascii; simpl; repeat constructor).
    assert (Hlen : strlen "PS  " + strlen (format_d 4 n) <= 255)
      by (unfold strlen; rewrite Hl; simpl; lia).
    pose proof (build_packet_ok "PS  " (format_d 4 n) HPS Ha Hlen) as Hpkt.
    match type of Hpkt with _ = inr ?x => set (pkt := x) in Hpkt end.
    exists n, pkt. split; [exact Hn |]. split; [lia |]. split; [exact Hl |].
    split; [exact Hi |]. split; [exact Hpkt |].
    assert (Hbody : forall st0,
               (n0 <- lift_exn (int_of_float (fmul v (float_of_int 10))) ;;
                discard (send_command fuel "PS  " (format_d 4 n0) false)) st0
               = discard (send_command fuel "PS  " (format_d 4 n) false) st0).
    { intros st0. rewrite Hn. cbn [lift_exn]. now rewrite run_ret. }
    split.
    { unfold try_except. now rewrite Hbody. }
    intros p Hser Hack.
    match goal with |- exists rest, written_by ?r = _ =>
      assert (H : has_written (written p ++ [[ENQ]; pkt]) r) end.
    { unfold try_except at 1. rewrite Hbody. fold (try_except
        (discard (send_command fuel "PS  " (format_d 4 n) false))
        handles_Index_or_Value
        (fun _ => logger ERROR
           [Str "Invalid pressure command format. Use: pressure <value>"]) st).
      apply has_written_try_except; [| intros e; apply port_grows_logger].
      unfold discard. apply has_written_bind.
      - apply send_command_has_written; [exact Hser | exact Hack | exact Hpkt].
      - intros a st0. apply port_grows_refl. }
    destruct (has_written_by _ _ H) as (rest & Hr).
    exists rest. rewrite Hr. now rewrite <- app_assoc.
  - intros Hrange. rewrite (Hcb false Hrange). reflexivity.
Qed.

Lemma set_pressure_truncates_witness :
   exists n pkt,
     int_of_float (fmul (float_lit 500 1) (float_of_int 10)) = inr n /\
     0 <= n < 10000 /\
     String.length (format_d 4 n) = 4%nat /\
     int_of_str 10 (format_d 4 n) = Some n /\
     build_packet "PS  " (format_d 4 n) = inr pkt /\
     dispenser_callback float_of_decimal 2 "pressure 50.0"
         (__init__ (Some (idle_port [[ACK]])))
     = try_except (discard (send_command 2 "PS  " (format_d 4 n) false))
         handles_Index_or_Value
         (fun _ => logger ERROR
            [Str "Invalid pressure command format. Use: pressure <value>"])
         (__init__ (Some (idle_port [[ACK]]))) /\
     forall p,
       ser (__init__ (Some (idle_port [[ACK]]))) = Some p -> fst (ser_read 1 p) = [ACK] ->
       exists rest,
         written_by (dispenser_callback float_of_decimal 2 "pressure 50.0"
         (__init__ (Some (idle_port [[ACK]]))))
         = written p ++ [ENQ] :: pkt :: rest.
Proof.
  apply (proj1 (set_pressure_truncates float_of_decimal 2 "pressure 50.0" "50.0"
                  (float_lit 500 1) (__init__ (Some (idle_port [[ACK]])))
                  eq_refl eq_refl eq_refl eq_refl)).
  reflexivity.
Defined.

(** The bounds of the range: 100.0 is sent as 1000, 100.0001 is refused
    and leaves the port untouched. *)
Example set_pressure_100 :
  written_by (dispenser_callback float_of_decimal 2 "pressure 100.0"
                (__init__ (Some (idle_port [[ACK]]))))
  = [[ENQ]; [STX] ++ bytes_of "08PS  1000" ++ bytes_of "F4" ++ [ETX]].
Proof. vm_compute. reflexivity. Qed.

Example set_pressure_100_0001 :
  dispenser_callback float_of_decimal 2 "pressure 100.0001"
    (__init__ (Some (idle_port [[ACK]])))
  = (add_log (ERROR, [Str "Invalid pressure value: "; Flt (float_lit 1000001 4);
                      Str ". Must be between 0.0 and 100.0 psi"])
       (__init__ (Some (idle_port [[ACK]]))),
     Return tt).
Proof. vm_compute. reflexivity. Qed.

(** ** C6: setting the dispense time *)

(** C6. The data field specified is 'T' followed by the rounded number
    of ten-thousandths of a second; the controller takes
    [int(time_value * 10000)].  For 'time 0.0003' the binary64 product is
    2.9999999999999996: rounding gives 3, and the controller sends
    'T0002'.  For 9.9999 and 0.5 the fields sent are 'T99999' and
    'T5000'. *)
Theorem set_dispense_time_truncates_0_0003 :
  float_of_decimal "0.0003" = Some (float_lit 3 4) /\
  fle (float_lit 0 4) (float_lit 3 4) && fle (float_lit 3 4) (float_lit 99999 4)
  = true /\
  fmul (float_lit 3 4) (float_of_int 10000)
  = S754_finite false 6755399441055743 (-51) /\
  round_half_even (fmul (float_lit 3 4) (float_of_int 10000)) = inr 3 /\
  int_of_float (fmul (float_lit 3 4) (float_of_int 10000)) = inr 2 /\
  written_by (dispenser_callback float_of_decimal 2 "time 0.0003"
                (__init__ (Some (idle_port [[ACK]]))))
  = [[ENQ]; [STX] ++ bytes_of "09DS  T0002" ++ bytes_of "AA" ++ [ETX]] /\
  written_by (dispenser_callback float_of_decimal 2 "time 9.9999"
                (__init__ (Some (idle_port [[ACK]]))))
  = [[ENQ]; [STX] ++ bytes_of "0ADS  T99999" ++ bytes_of "47" ++ [ETX]] /\
  written_by (dispenser_callback float_of_decimal 2 "time 0.5"
                (__init__ (Some (idle_port [[ACK]]))))
  = [[ENQ]; [STX] ++ bytes_of "09DS  T5000" ++ bytes_of "A7" ++ [ETX]].
Proof. repeat split; vm_compute; reflexivity. Qed.

(** * Further properties of the code *)

(** ** What the scan accepts *)

(** The guards a frame has passed when the scan accepts it. *)
Lemma read_frame_valid_inv what response index L P next :
  read_frame what response index = FValid L P next ->
  exists n r,
    L = decode_ascii_ignore (slice response (index + 1) (index + 3)) /\
    int_of_str 16 L = Some n /\
    P = decode_ascii_ignore (slice response (index + 3) (index + 3 + n)) /\
    next = index + 3 + n + 3 /\
    next <= len response /\
    getitem response (next - 1) = Some ETX /\
    int_of_str 16
      (decode_ascii_ignore (slice response (index + 3 + n) (index + 3 + n + 2)))
    = Some r /\
    calculate_checksum_ascii (L ++ P) = inr r.
Proof.
  unfold read_frame.
  destruct (index + 1 + 1 >=? len response); [discriminate |].
  replace (index + 1 + 2) with (index + 3) by lia.
  set (L0 := decode_ascii_ignore (slice response (index + 1) (index + 3))).
  destruct (int_of_str 16 L0) as [n|] eqn:En; [| discriminate].
  destruct (index + 3 + n + 2 >? len response); [discriminate |].
  set (P0 := decode_ascii_ignore (slice response (index + 3) (index + 3 + n))).
  destruct (index + 3 + n + 2 >=? len response) eqn:Eg; [discriminate |].
  destruct (getitem response (index + 3 + n + 2)) as [b|] eqn:G; [| discriminate].
  destruct (b =? ETX) eqn:Eb; cbn [negb]; [| discriminate].
  destruct (calculate_checksum_ascii (L0 ++ P0)) as [e|c] eqn:Ec; [discriminate |].
  destruct (int_of_str 16
              (decode_ascii_ignore
                 (slice response (index + 3 + n) (index + 3 + n + 2))))
    as [r|] eqn:Er; [| discriminate].
  destruct (r =? c) eqn:Erc; cbn [negb]; [| discriminate].
  intros H. injection H as <- <- <-.
  apply Z.eqb_eq in Eb, Erc. subst b c.
  rewrite Z.geb_leb in Eg. apply Z.leb_gt in Eg.
  exists n, r. repeat split; try assumption; try reflexivity; try lia.
  replace (index + 3 + n + 2 + 1 - 1) with (index + 3 + n + 2) by lia.
  exact G.
Qed.

(** Slices and items inside a list, as pieces of it. *)
Lemma slice_inside {A} (l : list A) a b :
  0 <= a <= b -> b <= len l ->
  slice l a b = firstn (Z.to_nat (b - a)) (skipn (Z.to_nat a) l) /\
  len (slice l a b) = b - a.
Proof.
  intros Hab Hb. unfold slice, clamp_index.
  destruct (a <? 0) eqn:Ea; [apply Z.ltb_lt in Ea; lia |].
  destruct (b <? 0) eqn:Eb; [apply Z.ltb_lt in Eb; lia |].
  rewrite !Z.min_l by lia. split; [reflexivity |].
  unfold len in *. rewrite length_firstn, length_skipn. lia.
Qed.

Lemma skipn_slice {A} (l : list A) a b :
  0 <= a <= b -> b <= len l ->
  skipn (Z.to_nat a) l = slice l a b ++ skipn (Z.to_nat b) l.
Proof.
  intros Hab Hb. rewrite (proj1 (slice_inside l a b Hab Hb)).
  replace (Z.to_nat b) with (Z.to_nat (b - a) + Z.to_nat a)%nat by lia.
  rewrite <- skipn_skipn. now rewrite firstn_skipn.
Qed.

Lemma nth_error_skipn {A} (l : list A) : forall k x,
  nth_error l k = Some x -> skipn k l = x :: skipn (S k) l.
Proof.
  induction l as [|y l IH]; intros [|k] x H; try discriminate.
  - now injection H as ->.
  - cbn [nth_error] in H. cbn [skipn]. now apply IH.
Qed.

Lemma getitem_inside {A} (l : list A) i x :
  0 <= i -> getitem l i = Some x ->
  i < len l /\ skipn (Z.to_nat i) l = x :: skipn (Z.to_nat (i + 1)) l.
Proof.
  intros Hi. unfold getitem.
  destruct (i <? 0) eqn:E; [apply Z.ltb_lt in E; lia |].
  destruct ((0 <=? i) && (i <? len l)) eqn:Er; [| discriminate].
  apply andb_true_iff in Er as [_ Er]. apply Z.ltb_lt in Er.
  intros H. split; [exact Er |].
  replace (Z.to_nat (i + 1)) with (S (Z.to_nat i)) by lia.
  now apply nth_error_skipn.
Qed.

(** X1. A frame the scan accepts is laid out in the buffer as the
    protocol has it, when its length field is not negative.  If the scan
    started on the STX at [index] accepts a frame with length field [L]
    and payload [P], and [L] reads as a number [n >= 0], then the buffer
    is: what precedes [index], STX, two bytes that decode to [L], [n]
    bytes that decode to [P] (decoding drops bytes above 127), two bytes
    that read as the checksum recomputed over [L] and [P], ETX, and the
    rest; the scan goes on right after that ETX, beyond [index].  (A
    length field with a minus sign is read by [int] as well; see
    [scan_may_not_terminate] for what the scan does then.) *)
Theorem accepted_frame_is_verified what response index L P next n :
  0 <= index ->
  getitem response index = Some STX ->
  read_frame what response index = FValid L P next ->
  int_of_str 16 L = Some n ->
  0 <= n ->
  exists length_bytes payload checksum_bytes rest r,
    response
    = firstn (Z.to_nat index) response
        ++ STX :: length_bytes ++ payload ++ checksum_bytes ++ ETX :: rest /\
    len length_bytes = 2 /\ len payload = n /\ len checksum_bytes = 2 /\
    L = decode_ascii_ignore length_bytes /\
    P = decode_ascii_ignore payload /\
    int_of_str 16 (decode_ascii_ignore checksum_bytes) = Some r /\
    calculate_checksum_ascii (L ++ P) = inr r /\
    next = index + n + 6 /\
    index < next <= len response.
Proof.
  intros Hi Hstx HF Hn Hnn.
  destruct (read_frame_valid_inv _ _ _ _ _ _ HF)
    as (n' & r & HL & Hn' & HP & Hnext & Hle & Hetx & Hr & Hc).
  assert (n' = n) by congruence. subst n'.
  destruct (getitem_inside _ _ _ Hi Hstx) as [Hlt E0].
  assert (Hi2 : 0 <= next - 1) by lia.
  destruct (getitem_inside _ _ _ Hi2 Hetx) as [_ E4].
  replace (next - 1 + 1) with next in E4 by lia.
  pose proof (skipn_slice response (index + 1) (index + 3) ltac:(lia) ltac:(lia)) as E1.
  pose proof (skipn_slice response (index + 3) (index + 3 + n) ltac:(lia) ltac:(lia))
    as E2.
  pose proof (skipn_slice response (index + 3 + n) (index + 3 + n + 2)
                ltac:(lia) ltac:(lia)) as E3.
  replace (index + 3 + n + 2) with (next - 1) in E3 at 2 by lia.
  exists (slice response (index + 1) (index + 3)),
         (slice response (index + 3) (index + 3 + n)),
         (slice response (index + 3 + n) (index + 3 + n + 2)),
         (skipn (Z.to_nat next) response), r.
  split.
  { rewrite <- E4, <- E3, <- E2, <- E1, <- E0. now rewrite firstn_skipn. }
  split; [rewrite (proj2 (slice_inside response (index + 1) (index + 3)
                            ltac:(lia) ltac:(lia))); lia |].
  split; [rewrite (proj2 (slice_inside response (index + 3) (index + 3 + n)
                            ltac:(lia) ltac:(lia))); lia |].
  split; [rewrite (proj2 (slice_inside response (index + 3 + n) (index + 3 + n + 2)
                            ltac:(lia) ltac:(lia))); lia |].
  split; [exact HL |]. split; [exact HP |]. split; [exact Hr |].
  split; [exact Hc |]. split; lia.
Qed.

Lemma accepted_frame_is_verified_witness :
  exists length_bytes payload checksum_bytes rest r,
    [13; STX; 48; 50; 65; 48; 50; 68; ETX; 10]
    = firstn (Z.to_nat 1) [13; STX; 48; 50; 65; 48; 50; 68; ETX; 10]
        ++ STX :: length_bytes ++ payload ++ checksum_bytes ++ ETX :: rest /\
    len length_bytes = 2 /\ len payload = 2 /\ len checksum_bytes = 2 /\
    "02"%string = decode_ascii_ignore length_bytes /\
    "A0"%string = decode_ascii_ignore payload /\
    int_of_str 16 (decode_ascii_ignore checksum_bytes) = Some r /\
    calculate_checksum_ascii ("02" ++ "A0") = inr r /\
    9 = 1 + 2 + 6 /\
    1 < 9 <= len [13; STX; 48; 50; 65; 48; 50; 68; ETX; 10].
Proof.
  apply (accepted_frame_is_verified "response."
           [13; STX; 48; 50; 65; 48; 50; 68; ETX; 10] 1 "02" "A0" 9 2).
  - lia.
  - reflexivity.
  - vm_compute. reflexivity.
  - reflexivity.
  - lia.
Defined.

(** ** Detection of a corrupted character *)

Lemma sum_bytes_app (a b : bytes) : sum_bytes (a ++ b) = sum_bytes a + sum_bytes b.
Proof. induction a as [|x a IH]; simpl; [reflexivity | rewrite IH; lia]. Qed.

Lemma ord_inj (c c' : ascii) : ord c = ord c' -> c = c'.
Proof. intros H. rewrite <- (chr_ord c), <- (chr_ord c'). now rewrite H. Qed.

(** X2. One wrong character in the payload is always detected.  Take the
    packet of an ASCII command and replace one character of its payload
    by a different ASCII character: the scan reports a checksum mismatch
    and moves past the frame, [process_data_response] returns nothing and
    [check_response] writes nothing (no EOT) in answer to it. *)
Theorem single_character_error_is_detected code data s1 c c' s2 :
  (code ++ data)%string = (s1 ++ String c s2)%string ->
  is_ascii code -> is_ascii data -> strlen code + strlen data <= 255 ->
  ord c' < 128 -> c' <> c ->
  exists L H,
    build_packet code data
    = inr ([STX] ++ bytes_of L ++ bytes_of (s1 ++ String c s2) ++ bytes_of H ++ [ETX]) /\
    let corrupted :=
      [STX] ++ bytes_of L ++ bytes_of (s1 ++ String c' s2) ++ bytes_of H ++ [ETX] in
    (forall what,
        read_frame what corrupted 0
        = FContinue ("Checksum mismatch in " ++ what) (len corrupted)) /\
    (forall fuel st,
        process_data_response (S (S fuel)) corrupted st
        = (add_log (WARNING, [Str "Checksum mismatch in data response."])
             (add_log (DEBUG, [Str "Processing data response: "; Hex corrupted]) st),
           Return None)) /\
    (forall fuel expect st,
        check_response (S (S fuel)) corrupted expect st
        = (add_log (WARNING, [Str "Checksum mismatch in response."])
             (add_log (DEBUG, [Str "Received raw response: "; Hex corrupted]) st),
           Return None)).
Proof.
  intros HP Hc Hd Hlen Hc' Hne.
  assert (Hn : 0 <= strlen code + strlen data < 256) by (unfold strlen in *; lia).
  destruct (format_X_2 _ Hn) as (HL2 & HL & HLn).
  set (L := format_X 2 (strlen code + strlen data)) in *.
  set (P := (s1 ++ String c s2)%string) in *.
  set (P' := (s1 ++ String c' s2)%string).
  assert (HPa : is_ascii P) by (rewrite <- HP; now apply is_ascii_app).
  assert (Hs1 : is_ascii s1 /\ ord c < 128 /\ is_ascii s2).
  { unfold is_ascii in HPa. subst P. rewrite list_ascii_of_string_app in HPa.
    apply Forall_app in HPa as [H1 H2]. simpl in H2. inversion H2; subst.
    now repeat split. }
  destruct Hs1 as (Hs1 & Hco & Hs2).
  assert (HP'a : is_ascii P').
  { apply is_ascii_app; [assumption |]. now apply is_ascii_String. }
  assert (HlP : strlen P = strlen code + strlen data)
    by (rewrite <- HP; apply strlen_app).
  assert (HlP' : strlen P' = strlen P).
  { subst P P'. rewrite !strlen_app. unfold strlen. simpl. reflexivity. }
  set (cs := (0 - sum_bytes (bytes_of (L ++ P))) mod 256).
  assert (Hcr : 0 <= cs < 256) by (apply Z.mod_pos_bound; lia).
  destruct (format_X_2 _ Hcr) as (HH2 & HH & HHn).
  assert (Hcs : cs <> (0 - sum_bytes (bytes_of (L ++ P'))) mod 256).
  { subst cs. intros Heq.
    assert (Hd0 : ((0 - sum_bytes (bytes_of (L ++ P)))
                   - (0 - sum_bytes (bytes_of (L ++ P')))) mod 256 = 0)
      by (rewrite Zminus_mod, Heq, Z.sub_diag; reflexivity).
    subst P P'. rewrite !bytes_of_app, !sum_bytes_app in Hd0.
    change (bytes_of (String c s2)) with (ord c :: bytes_of s2) in Hd0.
    change (bytes_of (String c' s2)) with (ord c' :: bytes_of s2) in Hd0.
    simpl sum_bytes in Hd0.
    match type of Hd0 with ?x mod 256 = 0 =>
      replace x with (ord c' - ord c) in Hd0 by lia end.
    apply Z.mod_divide in Hd0; [| lia]. destruct Hd0 as [k Hk].
    pose proof (ord_range c). pose proof (ord_range c').
    assert (ord c' <> ord c) by (intros E; apply Hne; now apply ord_inj).
    lia. }
  exists L, (format_X 2 cs). split.
  { rewrite (build_packet_ok code data Hc Hd Hlen). fold L.
    subst cs. rewrite <- HP. rewrite (bytes_of_app code data).
    now rewrite <- app_assoc. }
  cbv zeta.
  set (corrupted := [STX] ++ bytes_of L ++ bytes_of P' ++ bytes_of (format_X 2 cs) ++ [ETX]).
  assert (Hlc : len corrupted = 6 + strlen P').
  { subst corrupted. rewrite !len_app, !len_bytes_of. unfold strlen at 1 3.
    rewrite HL2, HH2. change (len [STX]) with 1. change (len [ETX]) with 1. lia. }
  assert (HF : forall what,
             read_frame what corrupted 0
             = FContinue ("Checksum mismatch in " ++ what) (len corrupted)).
  { intros what.
    pose proof (read_frame_at what [] L P' (format_X 2 cs) [] HL HL2) as F.
    rewrite HlP', HlP in F. specialize (F HLn HP'a HH HH2).
    rewrite HHn in F.
    replace (negb (cs =? (0 - sum_bytes (bytes_of (L ++ P'))) mod 256))
      with true in F by (symmetry; apply negb_true_iff; now apply Z.eqb_neq).
    cbv iota in F. rewrite Hlc, HlP', HlP. exact F. }
  assert (H0 : (0 <? len corrupted) = true)
    by (apply Z.ltb_lt; rewrite Hlc; unfold strlen; lia).
  assert (G0 : getitem corrupted 0 = Some STX) by reflexivity.
  split; [exact HF |]. split.
  - intros fuel st. unfold process_data_response. rewrite run_logger.
    rewrite (process_data_response_loop_continue (S fuel) corrupted 0
               "Checksum mismatch in data response." (len corrupted)); auto.
    apply process_data_response_loop_end, Z.ltb_irrefl.
  - intros fuel expect st. unfold check_response. rewrite run_logger.
    rewrite (check_response_loop_continue (S fuel) corrupted expect 0
               "Checksum mismatch in response." (len corrupted)); auto.
    apply check_response_loop_end, Z.ltb_irrefl.
Qed.

(** The success frame 'A0' with its last character turned into '2'. *)
Lemma single_character_error_is_detected_witness :
  exists L H,
    build_packet "A0" ""
    = inr ([STX] ++ bytes_of L ++ bytes_of ("A" ++ "0") ++ bytes_of H ++ [ETX]) /\
    let corrupted :=
      [STX] ++ bytes_of L ++ bytes_of ("A" ++ "2") ++ bytes_of H ++ [ETX] in
    (forall what,
        read_frame what corrupted 0
        = FContinue ("Checksum mismatch in " ++ what) (len corrupted)) /\
    (forall fuel st,
        process_data_response (S (S fuel)) corrupted st
        = (add_log (WARNING, [Str "Checksum mismatch in data response."])
             (add_log (DEBUG, [Str "Processing data response: "; Hex corrupted]) st),
           Return None)) /\
    (forall fuel expect st,
        check_response (S (S fuel)) corrupted expect st
        = (add_log (WARNING, [Str "Checksum mismatch in response."])
             (add_log (DEBUG, [Str "Received raw response: "; Hex corrupted]) st),
           Return None)).
Proof.
  apply (single_character_error_is_detected "A0" "" "A" "0" "2" "").
  - reflexivity.
  - unfold is_ascii. simpl. repeat constructor.
  - unfold is_ascii. simpl. repeat constructor.
  - vm_compute. discriminate.
  - reflexivity.
  - discriminate.
Defined.

(** ** Bytes around a frame *)

Lemma process_data_response_loop_skip fuel response index b st :
  (index <? len response) = true ->
  getitem response index = Some b ->
  (b =? STX) = false ->
  process_data_response_loop (S fuel) response index st
  = process_data_response_loop fuel response (index + 1) st.
Proof.
  intros H G Hb. cbn [process_data_response_loop]. rewrite H, G.
  cbn [lift_opt]. rewrite run_ret. now rewrite Hb.
Qed.

Lemma len_cons {A} (x : A) (l : list A) : len (x :: l) = 1 + len l.
Proof. unfold len. cbn [List.length]. lia. Qed.

Lemma skip_noise_data noise :
  Forall (fun b => b <> STX) noise ->
  forall pre rest fuel st,
    process_data_response_loop (List.length noise + fuel) (pre ++ noise ++ rest)
      (len pre) st
    = process_data_response_loop fuel (pre ++ noise ++ rest) (len pre + len noise) st.
Proof.
  induction 1 as [|b noise Hb _ IH]; intros pre rest fuel st.
  - cbn. now rewrite Z.add_0_r.
  - cbn [List.length Nat.add].
    rewrite (process_data_response_loop_skip _ _ (len pre) b).
    + replace (pre ++ (b :: noise) ++ rest) with ((pre ++ [b]) ++ noise ++ rest)
        by (now rewrite <- app_assoc).
      specialize (IH (pre ++ [b]) rest fuel st).
      rewrite len_app in IH. change (len [b]) with 1 in IH.
      rewrite IH. f_equal. rewrite len_cons. lia.
    + apply Z.ltb_lt. rewrite !len_app, len_cons.
      pose proof (len_nonneg noise). pose proof (len_nonneg rest). lia.
    + cbn [app]. now apply getitem_app_mid.
    + now apply Z.eqb_neq.
Qed.

Lemma skip_noise_response noise :
  Forall (fun b => b <> STX) noise ->
  forall pre rest fuel expect st,
    check_response_loop (List.length noise + fuel) (pre ++ noise ++ rest) expect
      (len pre) st
    = check_response_loop fuel (pre ++ noise ++ rest) expect (len pre + len noise) st.
Proof.
  induction 1 as [|b noise Hb _ IH]; intros pre rest fuel expect st.
  - cbn. now rewrite Z.add_0_r.
  - cbn [List.length Nat.add].
    rewrite (check_response_loop_skip _ _ expect (len pre) b).
    + replace (pre ++ (b :: noise) ++ rest) with ((pre ++ [b]) ++ noise ++ rest)
        by (now rewrite <- app_assoc).
      specialize (IH (pre ++ [b]) rest fuel expect st).
      rewrite len_app in IH. change (len [b]) with 1 in IH.
      rewrite IH. f_equal. rewrite len_cons. lia.
    + apply Z.ltb_lt. rewrite !len_app, len_cons.
      pose proof (len_nonneg noise). pose proof (len_nonneg rest). lia.
    + cbn [app]. now apply getitem_app_mid.
    + now apply Z.eqb_neq.
Qed.

(** X3. Bytes in front of a frame are skipped without a word, and what
    comes after the first good frame of a data response is not looked at:
    for noise free of STX, the packet of an ASCII command and any
    trailing bytes, [process_data_response] returns the payload of the
    packet and logs no warning, and [check_response] reaches the frame
    with its state untouched. *)
Theorem noise_before_a_frame_is_skipped noise code data post :
  Forall (fun b => b <> STX) noise ->
  is_ascii code -> is_ascii data -> strlen code + strlen data <= 255 ->
  exists pkt,
    build_packet code data = inr pkt /\
    (forall fuel st,
        process_data_response (List.length noise + S fuel) (noise ++ pkt ++ post) st
        = (add_log (DEBUG, [Str "Command and Data: "; Str (code ++ data)])
             (add_log (DEBUG, [Str "Processing data response: ";
                               Hex (noise ++ pkt ++ post)]) st),
           Return (Some (code ++ data)%string))) /\
    (forall fuel expect st,
        check_response_loop (List.length noise + fuel) (noise ++ pkt ++ post) expect 0 st
        = check_response_loop fuel (noise ++ pkt ++ post) expect (len noise) st) /\
    getitem (noise ++ pkt ++ post) (len noise) = Some STX /\
    (forall what,
        read_frame what (noise ++ pkt ++ post) (len noise)
        = FValid (format_X 2 (strlen code + strlen data)) (code ++ data)
            (len noise + len pkt)).
Proof.
  intros Hnoise Hc Hd Hlen.
  destruct (read_frame_packet noise post code data Hc Hd Hlen)
    as (pkt & Hpkt & Hlp & HG & HF).
  exists pkt. split; [exact Hpkt |].
  pose proof (len_nonneg noise) as Hn. pose proof (len_nonneg post) as Hp.
  split; [| split; [| split; [exact HG | exact HF]]].
  - intros fuel st. unfold process_data_response. rewrite run_logger.
    pose proof (skip_noise_data noise Hnoise [] (pkt ++ post) (S fuel)) as S.
    cbn [app] in S. change (len (@nil Z)) with 0 in S. rewrite S.
    apply (process_data_response_loop_valid fuel _ (0 + len noise)
             (format_X 2 (strlen code + strlen data)) (code ++ data)
             (len noise + len pkt)).
    + apply Z.ltb_lt. rewrite !len_app, Hlp. unfold strlen. lia.
    + exact HG.
    + apply HF.
  - intros fuel expect st.
    pose proof (skip_noise_response noise Hnoise [] (pkt ++ post) fuel expect st) as S.
    cbn [app] in S. change (len (@nil Z)) with 0 in S. exact S.
Qed.

Lemma noise_before_a_frame_is_skipped_witness :
  exists pkt,
    build_packet "A0" "" = inr pkt /\
    (forall fuel st,
        process_data_response (List.length [65; 13; 10] + S fuel)
          ([65; 13; 10] ++ pkt ++ [7]) st
        = (add_log (DEBUG, [Str "Command and Data: "; Str ("A0" ++ "")])
             (add_log (DEBUG, [Str "Processing data response: ";
                               Hex ([65; 13; 10] ++ pkt ++ [7])]) st),
           Return (Some ("A0" ++ "")%string))) /\
    (forall fuel expect st,
        check_response_loop (List.length [65; 13; 10] + fuel)
          ([65; 13; 10] ++ pkt ++ [7]) expect 0 st
        = check_response_loop fuel ([65; 13; 10] ++ pkt ++ [7]) expect
            (len [65; 13; 10]) st) /\
    getitem ([65; 13; 10] ++ pkt ++ [7]) (len [65; 13; 10]) = Some STX /\
    (forall what,
        read_frame what ([65; 13; 10] ++ pkt ++ [7]) (len [65; 13; 10])
        = FValid (format_X 2 (strlen "A0" + strlen "")) ("A0" ++ "")
            (len [65; 13; 10] + len pkt)).
Proof.
  apply (noise_before_a_frame_is_skipped [65; 13; 10] "A0" "" [7]).
  - repeat constructor; discriminate.
  - unfold is_ascii. simpl. repeat constructor.
  - unfold is_ascii. simpl. repeat constructor.
  - vm_compute. discriminate.
Defined.

(** ** A response cut short *)

Lemma read_frame_short what response index :
  len response <= index + 2 ->
  read_frame what response index = FBreak ("Incomplete length in " ++ what).
Proof.
  intros H. unfold read_frame. cbv zeta.
  destruct (index + 1 + 1 >=? len response) eqn:E; [reflexivity |].
  rewrite Z.geb_leb in E. apply Z.leb_gt in E. lia.
Qed.

Lemma read_frame_cut what L tail n :
  is_ascii L -> String.length L = 2%nat -> int_of_str 16 L = Some n ->
  len tail <= n + 2 ->
  read_frame what ([STX] ++ bytes_of L ++ tail) 0
  = FBreak ((if len tail <? n + 2 then "Incomplete command/data in "
             else "Missing ETX in ") ++ what).
Proof.
  intros HL HL2 HLn Ht.
  assert (HlL : len (bytes_of L) = 2)
    by (rewrite len_bytes_of; unfold strlen; now rewrite HL2).
  pose proof (len_nonneg tail) as Htail.
  set (buffer := [STX] ++ bytes_of L ++ tail).
  assert (Hlen : len buffer = 3 + len tail).
  { subst buffer. rewrite !len_app, HlL. change (len [STX]) with 1. lia. }
  assert (S1 : slice buffer (0 + 1) (0 + 1 + 2) = bytes_of L).
  { subst buffer. apply slice_app_mid; rewrite ?HlL; change (len [STX]) with 1; lia. }
  unfold read_frame. cbv zeta.
  destruct (0 + 1 + 1 >=? len buffer) eqn:E1.
  { rewrite Z.geb_leb in E1. apply Z.leb_le in E1. lia. }
  rewrite S1, (decode_bytes_of L HL), HLn.
  destruct (len tail <? n + 2) eqn:E.
  - apply Z.ltb_lt in E.
    destruct (0 + 1 + 2 + n + 2 >? len buffer) eqn:E2; [reflexivity |].
    rewrite Z.gtb_ltb in E2. apply Z.ltb_ge in E2. lia.
  - apply Z.ltb_ge in E.
    destruct (0 + 1 + 2 + n + 2 >? len buffer) eqn:E2.
    { rewrite Z.gtb_ltb in E2. apply Z.ltb_lt in E2. lia. }
    destruct (0 + 1 + 2 + n + 2 >=? len buffer) eqn:E3; [reflexivity |].
    rewrite Z.geb_leb in E3. apply Z.leb_gt in E3. lia.
Qed.

(** The first step of a scan over a packet cut after [k] bytes. *)
Lemma cut_packet_breaks code data :
  is_ascii code -> is_ascii data -> strlen code + strlen data <= 255 ->
  exists pkt,
    build_packet code data = inr pkt /\
    len pkt = 6 + strlen code + strlen data /\
    forall k, (0 < k < List.length pkt)%nat ->
      (0 <? len (firstn k pkt)) = true /\
      getitem (firstn k pkt) 0 = Some STX /\
      forall what,
        read_frame what (firstn k pkt) 0
        = FBreak ((if (k <? 3)%nat then "Incomplete length in "
                   else if (k <? 5 + String.length code + String.length data)%nat
                        then "Incomplete command/data in "
                        else "Missing ETX in ") ++ what).
Proof.
  intros Hc Hd Hlen.
  assert (Hn : 0 <= strlen code + strlen data < 256) by (unfold strlen in *; lia).
  destruct (format_X_2 _ Hn) as (HL2 & HL & HLn).
  set (L := format_X 2 (strlen code + strlen data)) in *.
  set (cs := (0 - sum_bytes (bytes_of (L ++ code ++ data))) mod 256).
  assert (Hcr : 0 <= cs < 256) by (apply Z.mod_pos_bound; lia).
  destruct (format_X_2 _ Hcr) as (HH2 & HH & HHn).
  set (rest := bytes_of code ++ bytes_of data ++ bytes_of (format_X 2 cs) ++ [ETX]).
  assert (HlL : List.length (bytes_of L) = 2%nat).
  { pose proof (len_bytes_of L) as E. unfold len, strlen in E. lia. }
  assert (Hrest : List.length rest = (String.length code + String.length data + 3)%nat).
  { subst rest. rewrite !length_app.
    pose proof (len_bytes_of code) as E1. pose proof (len_bytes_of data) as E2.
    pose proof (len_bytes_of (format_X 2 cs)) as E3.
    unfold len, strlen in E1, E2, E3. cbn [List.length]. lia. }
  exists ([STX] ++ bytes_of L ++ rest).
  split; [apply (build_packet_ok code data Hc Hd Hlen) |].
  assert (Hlp : List.length ([STX] ++ bytes_of L ++ rest)
                = (6 + String.length code + String.length data)%nat).
  { rewrite !length_app, HlL, Hrest. cbn [List.length]. lia. }
  split; [unfold len, strlen; rewrite Hlp; lia |].
  intros k Hk. rewrite Hlp in Hk.
  assert (Hlk : len (firstn k ([STX] ++ bytes_of L ++ rest)) = Z.of_nat k).
  { unfold len. rewrite length_firstn, Hlp. lia. }
  split; [apply Z.ltb_lt; lia |].
  split.
  { destruct k as [|k]; [lia |]. reflexivity. }
  intros what.
  destruct (k <? 3)%nat eqn:E3.
  - apply Nat.ltb_lt in E3. apply read_frame_short. lia.
  - apply Nat.ltb_ge in E3.
    assert (Hcut : firstn k ([STX] ++ bytes_of L ++ rest)
                   = [STX] ++ bytes_of L ++ firstn (k - 3) rest).
    { rewrite (app_assoc [STX]).
      rewrite firstn_app, firstn_all2 by (rewrite length_app, HlL; cbn; lia).
      rewrite length_app, HlL. cbn [List.length Nat.add].
      now rewrite <- app_assoc. }
    rewrite Hcut.
    assert (Hlt : len (firstn (k - 3) rest) = Z.of_nat (k - 3)).
    { unfold len. rewrite length_firstn, Hrest. lia. }
    rewrite (read_frame_cut what L _ _ HL HL2 HLn)
      by (rewrite Hlt; unfold strlen; lia).
    rewrite Hlt. unfold strlen.
    destruct (k <? 5 + String.length code + String.length data)%nat eqn:E5.
    + apply Nat.ltb_lt in E5.
      destruct (Z.of_nat (k - 3) <? _) eqn:E; [reflexivity |].
      apply Z.ltb_ge in E. lia.
    + apply Nat.ltb_ge in E5.
      destruct (Z.of_nat (k - 3) <? _) eqn:E; [| reflexivity].
      apply Z.ltb_lt in E. lia.
Qed.

(** X4. A response cut short is never taken for a frame.  Whatever
    number of bytes of the packet of an ASCII command has arrived, short
    of the whole packet, [process_data_response] and [check_response]
    return [None]; the scan stops on the cut with the warning of the part
    that is missing (length field, command and data, or ETX), and
    [check_response] answers nothing on the port and leaves the mode
    alone. *)
Theorem cut_packet_is_rejected code data :
  is_ascii code -> is_ascii data -> strlen code + strlen data <= 255 ->
  exists pkt,
    build_packet code data = inr pkt /\
    forall k, (k < List.length pkt)%nat ->
      let cut := firstn k pkt in
      let missing :=
        (if (k <? 3)%nat then "Incomplete length in "
        else if (k <? 5 + String.length code + String.length data)%nat
             then "Incomplete command/data in "
             else "Missing ETX in ")%string in
      (forall fuel st,
          process_data_response (S fuel) cut st
          = ((if (k =? 0)%nat then fun s => s
              else add_log (WARNING, [Str (missing ++ "data response.")]))
               (add_log (DEBUG, [Str "Processing data response: "; Hex cut]) st),
             Return None)) /\
      (forall fuel expect st,
          check_response (S fuel) cut expect st
          = ((if (k =? 0)%nat then fun s => s
              else add_log (WARNING, [Str (missing ++ "response.")]))
               (add_log (DEBUG, [Str "Received raw response: "; Hex cut]) st),
             Return None)).
Proof.
  intros Hc Hd Hlen.
  destruct (cut_packet_breaks code data Hc Hd Hlen) as (pkt & Hpkt & _ & Hcut).
  exists pkt. split; [exact Hpkt |].
  intros k Hk. cbv zeta.
  destruct k as [|k].
  - cbn [firstn Nat.eqb]. split.
    + intros fuel st. unfold process_data_response. rewrite run_logger.
      now apply process_data_response_loop_end.
    + intros fuel expect st. unfold check_response. rewrite run_logger.
      now apply check_response_loop_end.
  - destruct (Hcut (S k)) as (Hlt & HG & HF); [lia |].
    change (S k =? 0)%nat with false. cbv iota. split.
    + intros fuel st. unfold process_data_response. rewrite run_logger.
      apply process_data_response_loop_break; [exact Hlt | exact HG | apply HF].
    + intros fuel expect st. unfold check_response. rewrite run_logger.
      apply check_response_loop_break; [exact Hlt | exact HG | apply HF].
Qed.

Lemma cut_packet_is_rejected_witness :
  exists pkt,
    build_packet "A0" "" = inr pkt /\
    forall k, (k < List.length pkt)%nat ->
      let cut := firstn k pkt in
      let missing :=
        (if (k <? 3)%nat then "Incomplete length in "
        else if (k <? 5 + String.length "A0" + String.length "")%nat
             then "Incomplete command/data in "
             else "Missing ETX in ")%string in
      (forall fuel st,
          process_data_response (S fuel) cut st
          = ((if (k =? 0)%nat then fun s => s
              else add_log (WARNING, [Str (missing ++ "data response.")]))
               (add_log (DEBUG, [Str "Processing data response: "; Hex cut]) st),
             Return None)) /\
      (forall fuel expect st,
          check_response (S fuel) cut expect st
          = ((if (k =? 0)%nat then fun s => s
              else add_log (WARNING, [Str (missing ++ "response.")]))
               (add_log (DEBUG, [Str "Received raw response: "; Hex cut]) st),
             Return None)).
Proof.
  apply (cut_packet_is_rejected "A0" "").
  - unfold is_ascii. simpl. repeat constructor.
  - unfold is_ascii. simpl. repeat constructor.
  - vm_compute. discriminate.
Defined.

(** ** Functions that only report *)

Lemma only_logs_refl st : only_logs st st.
Proof.
  repeat split. exists []. now rewrite app_nil_r.
Qed.

Lemma only_logs_trans a b c : only_logs a b -> only_logs b c -> only_logs a c.
Proof.
  intros (S1 & M1 & T1 & l1 & L1) (S2 & M2 & T2 & l2 & L2).
  repeat split; try congruence.
  exists (l1 ++ l2). rewrite L2, L1. now rewrite app_assoc.
Qed.

Lemma only_logs_logger l msg : preserves only_logs (logger l msg).
Proof.
  intros st. repeat split. now exists [(l, msg)].
Qed.

Lemma parse_read_values_returns data_str st :
  snd (parse_read_values data_str st) = Return tt.
Proof.
  unfold parse_read_values, try_except.
  destruct (startswith data_str "D0"); [| reflexivity].
  destruct (String.eqb (strslice data_str 2 4) "PD"); [| reflexivity].
  destruct (int_of_str 10 (strslice data_str 4 8)) as [n1|]; [| reflexivity].
  cbn [lift_opt]. rewrite run_ret.
  destruct (String.eqb (strslice data_str 8 10) "DT"); [| reflexivity].
  destruct (int_of_str 10 (strslice data_str 10 15)) as [n2|]; [| reflexivity].
  cbn [lift_opt]. rewrite run_ret.
  destruct (String.eqb (strslice data_str 15 17) "VC"); [| reflexivity].
  destruct (int_of_str 10 (strslice data_str 17 21)) as [n3|]; [| reflexivity].
  reflexivity.
Qed.

(** X5. [process_data_response] and [parse_read_values] only report:
    whatever the bytes or the string, they leave the port, the mode and
    the start time as they were and only add records to the log; and
    [parse_read_values] returns on every string, its own errors
    included. *)
Theorem parsing_only_logs :
  (forall fuel response, preserves only_logs (process_data_response fuel response)) /\
  (forall data_str, preserves only_logs (parse_read_values data_str)) /\
  (forall data_str st, snd (parse_read_values data_str st) = Return tt).
Proof.
  split; [| split].
  - intros fuel response.
    apply preserves_process_data_response;
      [apply only_logs_refl | apply only_logs_trans | apply only_logs_logger].
  - intros data_str.
    apply preserves_parse_read_values;
      [apply only_logs_refl | apply only_logs_trans | apply only_logs_logger].
  - apply parse_read_values_returns.
Qed.

(** ** Whole exchanges *)

Lemma run_bind_return {A B} (c : M A) (k : A -> M B) st st' a :
  c st = (st', Return a) -> bind c k st = k a st'.
Proof. intros E. unfold bind. now rewrite E. Qed.

(** [send_command] up to the response of an acknowledged command, with
    the port it has reached. *)
Lemma send_command_acked_port fuel code data expect st p pkt :
  ser st = Some p ->
  fst (ser_read 1 p) = [ACK] ->
  build_packet code data = inr pkt ->
  exists st2,
    ser st2 = Some (ser_write pkt (ser_write [ENQ]
                      (snd (ser_read 100 (snd (ser_read 1 p)))))) /\
    is_timed_mode st2 = is_timed_mode st /\
    send_command fuel code data expect st
    = match fst (ser_read 100 (snd (ser_read 1 p))) with
      | [] =>
          (add_log
             (WARNING,
              [Str "No response from device after sending command. Command may not have been executed."])
             st2, Return None)
      | z :: response => check_response fuel (z :: response) expect st2
      end.
Proof.
  intros Hser Hack Hpkt. unfold send_command. rewrite Hser.
  rewrite (run_write _ _ _ p Hser), run_logger.
  rewrite (run_read _ _ _ (ser_write [ENQ] p)) by reflexivity.
  rewrite ser_read_write. cbn [fst snd]. rewrite Hack.
  change (negb (bytes_eqb [ACK] [ACK])) with false. cbv iota.
  rewrite run_logger, Hpkt. cbn [lift_exn]. rewrite run_ret, run_logger.
  rewrite (run_write _ _ _ (ser_write [ENQ] (snd (ser_read 1 p)))) by reflexivity.
  rewrite (run_read _ _ _ (ser_write pkt (ser_write [ENQ] (snd (ser_read 1 p)))))
    by reflexivity.
  rewrite !ser_read_write. cbn [fst snd].
  match goal with |- context [set_ser ?q ?s] =>
    match q with ser_write pkt _ => exists (set_ser q s) end end.
  split; [reflexivity |]. split; [reflexivity |].
  destruct (fst (ser_read 100 (snd (ser_read 1 p)))); [now rewrite run_logger | reflexivity].
Qed.

(** One accepted frame that asks for no data: EOT for A0 and A2, nothing
    for other codes. *)
Lemma check_response_frame_port fuel reply expect L P st q :
  ser st = Some q ->
  (0 <? len reply) = true ->
  getitem reply 0 = Some STX ->
  read_frame "response." reply 0 = FValid L P (len reply) ->
  expect && String.eqb (strslice P 0 2) "A0" = false ->
  exists st',
    check_response (S (S fuel)) reply expect st = (st', Return None) /\
    ser st' = Some (if String.eqb (strslice P 0 2) "A0"
                       || String.eqb (strslice P 0 2) "A2"
                    then ser_write [EOT] q else q) /\
    is_timed_mode st' = is_timed_mode st.
Proof.
  intros Hser Hlt HG HF Hexp. unfold check_response. rewrite run_logger.
  cbn [check_response_loop]. rewrite Hlt, HG. cbn [lift_opt]. rewrite run_ret.
  change (STX =? STX) with true. cbv iota. rewrite HF. cbv zeta.
  assert (Hend : forall st0, check_response_loop (S fuel) reply expect (len reply) st0
                             = (st0, Return None))
    by (intros st0; apply check_response_loop_end, Z.ltb_irrefl).
  destruct (String.eqb (strslice P 0 2) "A0").
  - rewrite andb_true_r in Hexp. subst expect.
    run_delay. rewrite !run_logger.
    rewrite (run_write _ _ _ q) by exact Hser.
    rewrite Hend. eexists; split; [reflexivity |]. split; reflexivity.
  - destruct (String.eqb (strslice P 0 2) "A2").
    + run_delay. rewrite !run_logger.
      rewrite (run_write _ _ _ q) by exact Hser.
      rewrite Hend. eexists; split; [reflexivity |]. split; reflexivity.
    + rewrite run_logger, Hend. eexists; split; [reflexivity |].
      split; [exact Hser | reflexivity].
Qed.

(** An accepted A0 frame when data is expected: ACK, one read, EOT. *)
Lemma check_response_read_port fuel reply L P st q r :
  ser st = Some q ->
  (0 <? len reply) = true ->
  getitem reply 0 = Some STX ->
  read_frame "response." reply 0 = FValid L P (len reply) ->
  String.eqb (strslice P 0 2) "A0" = true ->
  match fst (ser_read 100 q) with
  | [] => r = None
  | d => forall s, snd (process_data_response (S fuel) d s) = Return r
  end ->
  exists st',
    check_response (S (S fuel)) reply true st = (st', Return r) /\
    ser st' = Some (ser_write [EOT] (ser_write [ACK] (snd (ser_read 100 q)))) /\
    is_timed_mode st' = is_timed_mode st.
Proof.
  intros Hser Hlt HG HF HA0 Hd. unfold check_response. rewrite run_logger.
  cbn [check_response_loop]. rewrite Hlt, HG. cbn [lift_opt]. rewrite run_ret.
  change (STX =? STX) with true. cbv iota. rewrite HF. cbv zeta. rewrite HA0.
  run_delay. rewrite !run_logger.
  rewrite (run_write _ _ _ q) by exact Hser.
  rewrite (run_read _ _ _ (ser_write [ACK] q)) by reflexivity.
  rewrite ser_read_write. cbn [fst snd].
  destruct (fst (ser_read 100 q)) as [|z d].
  - subst r. rewrite !run_logger.
    rewrite (run_write _ _ _ (ser_write [ACK] (snd (ser_read 100 q)))) by reflexivity.
    rewrite (check_response_loop_end fuel reply true (len reply))
      by apply Z.ltb_irrefl.
    eexists; split; [reflexivity |]. split; reflexivity.
  - rewrite run_logger.
    match goal with |- context [bind (process_data_response ?f ?b) ?k ?s] =>
      destruct (process_data_response f b s) as [s' o] eqn:E;
      pose proof (Hd s) as Ho; rewrite E in Ho; cbn [snd] in Ho; subst o;
      pose proof (preserves_process_data_response only_logs only_logs_refl
                    only_logs_trans only_logs_logger f b s) as Hl;
      rewrite E in Hl; cbn [fst] in Hl;
      rewrite (run_bind_return _ k s s' r E)
    end.
    destruct Hl as (Hs & Hm & _).
    rewrite run_logger.
    rewrite (run_write _ _ _ (ser_write [ACK] (snd (ser_read 100 q))))
      by (cbn [ser add_log]; rewrite Hs; reflexivity).
    eexists; split; [reflexivity |]. split; [reflexivity |].
    cbn [is_timed_mode set_ser add_log]. rewrite Hm. reflexivity.
Qed.

Lemma written_after_frame (b : bool) p pkt :
  written (if b
           then ser_write [EOT]
                  (ser_write pkt (ser_write [ENQ]
                     (snd (ser_read 100 (snd (ser_read 1 p))))))
           else ser_write pkt (ser_write [ENQ]
                  (snd (ser_read 100 (snd (ser_read 1 p))))))
  = written p ++ [[ENQ]; pkt] ++ (if b then [[EOT]] else []).
Proof.
  destruct b; cbn [written ser_write ser_read snd]; now rewrite <- !app_assoc.
Qed.

(** X6. An acknowledged command that expects no data ends the sequence
    with EOT exactly when the device reports success (A0) or failure
    (A2).  With ACK after ENQ and a response made of one well-formed
    frame, [send_command] writes ENQ, the packet of the command, then
    EOT if the frame's code is A0 or A2 and nothing for any other code;
    it returns [None] and leaves the mode alone.  The same holds for a
    command that expects data when the frame is not A0. *)
Theorem acknowledged_command_writes fuel code data expect rcode rdata st p pkt :
  ser st = Some p ->
  fst (ser_read 1 p) = [ACK] ->
  build_packet code data = inr pkt ->
  is_ascii rcode -> is_ascii rdata -> strlen rcode + strlen rdata <= 255 ->
  build_packet rcode rdata = inr (fst (ser_read 100 (snd (ser_read 1 p)))) ->
  expect && String.eqb (strslice (rcode ++ rdata) 0 2) "A0" = false ->
  let r := send_command (S (S fuel)) code data expect st in
  snd r = Return None /\
  written_by r
  = written p ++ [[ENQ]; pkt]
      ++ (if String.eqb (strslice (rcode ++ rdata) 0 2) "A0"
             || String.eqb (strslice (rcode ++ rdata) 0 2) "A2"
          then [[EOT]] else []) /\
  is_timed_mode (fst r) = is_timed_mode st.
Proof.
  intros Hser Hack Hpkt Hc Hd Hlen Hresp Hexp. cbv zeta.
  destruct (send_command_acked_port (S (S fuel)) code data expect st p pkt
              Hser Hack Hpkt) as (st2 & Hp2 & Hm2 & E).
  destruct (read_frame_packet [] [] rcode rdata Hc Hd Hlen)
    as (frame & Hframe & Hlf & HG & HF).
  rewrite app_nil_r in HG, HF. cbn [app] in HG, HF.
  change (len (@nil Z)) with 0 in HG, HF. rewrite Z.add_0_l in HF.
  assert (Hresp' : frame = fst (ser_read 100 (snd (ser_read 1 p))))
    by congruence.
  assert (Hlt : (0 <? len frame) = true)
    by (apply Z.ltb_lt; rewrite Hlf; unfold strlen; lia).
  destruct (check_response_frame_port fuel frame expect _ _ st2 _ Hp2 Hlt HG
              (HF "response."%string) Hexp) as (st' & Hst' & Hser' & Hm').
  rewrite E, <- Hresp'.
  destruct frame as [|z frame]; [discriminate |].
  rewrite Hst'. cbn [fst snd]. split; [reflexivity |]. split.
  - unfold written_by. cbn [fst]. rewrite Hser'. apply written_after_frame.
  - congruence.
Qed.

Lemma acknowledged_command_writes_witness :
  exists pkt,
    build_packet "PS  " "0500" = inr pkt /\
    let st := __init__ (Some (idle_port [[ACK]; [STX; 48; 50; 65; 50; 50; 66; ETX]])) in
    let r := send_command 2 "PS  " "0500" true st in
    snd r = Return None /\
    written_by r
    = written (idle_port [[ACK]; [STX; 48; 50; 65; 50; 50; 66; ETX]])
        ++ [[ENQ]; pkt]
        ++ (if String.eqb (strslice ("A2" ++ "") 0 2) "A0"
               || String.eqb (strslice ("A2" ++ "") 0 2) "A2"
            then [[EOT]] else []) /\
    is_timed_mode (fst r) = is_timed_mode st.
Proof.
  eexists. split; [vm_compute; reflexivity |].
  apply (acknowledged_command_writes 0 "PS  " "0500" true "A2" ""
           (__init__ (Some (idle_port [[ACK]; [STX; 48; 50; 65; 50; 50; 66; ETX]])))
           (idle_port [[ACK]; [STX; 48; 50; 65; 50; 50; 66; ETX]])).
  - reflexivity.
  - reflexivity.
  - vm_compute. reflexivity.
  - unfold is_ascii. simpl. repeat constructor.
  - unfold is_ascii. simpl. repeat constructor.
  - vm_compute. discriminate.
  - vm_compute. reflexivity.
  - reflexivity.
Defined.

Lemma process_data_response_framed noise dcode ddata post dpkt fuel st :
  Forall (fun b => b <> STX) noise ->
  is_ascii dcode -> is_ascii ddata -> strlen dcode + strlen ddata <= 255 ->
  build_packet dcode ddata = inr dpkt ->
  snd (process_data_response (S (List.length noise + fuel)) (noise ++ dpkt ++ post) st)
  = Return (Some (dcode ++ ddata)%string).
Proof.
  intros Hnoise Hc Hd Hlen Hpkt.
  destruct (read_frame_packet noise post dcode ddata Hc Hd Hlen)
    as (pkt & Hpkt' & Hlp & HG & HF).
  assert (pkt = dpkt) by congruence. subst pkt.
  pose proof (len_nonneg noise) as Hn. pose proof (len_nonneg post) as Hp.
  unfold process_data_response. rewrite run_logger.
  rewrite <- Nat.add_succ_r.
  pose proof (skip_noise_data noise Hnoise [] (dpkt ++ post) (S fuel)) as S.
  cbn [app] in S. change (len (@nil Z)) with 0 in S. rewrite S.
  rewrite (process_data_response_loop_valid fuel _ (0 + len noise)
             (format_X 2 (strlen dcode + strlen ddata)) (dcode ++ ddata)
             (len noise + len dpkt)).
  - reflexivity.
  - apply Z.ltb_lt. rewrite !len_app, Hlp. unfold strlen. lia.
  - exact HG.
  - apply HF.
Qed.

Lemma written_after_read p pkt :
  written (ser_write [EOT] (ser_write [ACK]
             (snd (ser_read 100
                     (ser_write pkt (ser_write [ENQ]
                        (snd (ser_read 100 (snd (ser_read 1 p))))))))))
  = written p ++ [[ENQ]; pkt; [ACK]; [EOT]].
Proof.
  cbn [written ser_write ser_read snd]. now rewrite <- !app_assoc.
Qed.

(** The read sequence up to the value returned, with the port reached. *)
Lemma read_exchange fuel code data rcode rdata noise dcode ddata post st p pkt dpkt :
  ser st = Some p ->
  fst (ser_read 1 p) = [ACK] ->
  build_packet code data = inr pkt ->
  is_ascii rcode -> is_ascii rdata -> strlen rcode + strlen rdata <= 255 ->
  build_packet rcode rdata = inr (fst (ser_read 100 (snd (ser_read 1 p)))) ->
  strslice (rcode ++ rdata) 0 2 = "A0"%string ->
  Forall (fun b => b <> STX) noise ->
  is_ascii dcode -> is_ascii ddata -> strlen dcode + strlen ddata <= 255 ->
  build_packet dcode ddata = inr dpkt ->
  fst (ser_read 100 (snd (ser_read 100 (snd (ser_read 1 p))))) = noise ++ dpkt ++ post ->
  exists st',
    send_command (S (S (List.length noise + fuel))) code data true st
    = (st', Return (Some (dcode ++ ddata)%string)) /\
    (exists p', ser st' = Some p' /\
                written p' = written p ++ [[ENQ]; pkt; [ACK]; [EOT]]) /\
    is_timed_mode st' = is_timed_mode st.
Proof.
  intros Hser Hack Hpkt Hc Hd Hlen Hresp HA0 Hnoise Hdc Hdd Hdlen Hdpkt Hdata.
  destruct (send_command_acked_port (S (S (List.length noise + fuel))) code data true
              st p pkt Hser Hack Hpkt) as (st2 & Hp2 & Hm2 & E).
  destruct (read_frame_packet [] [] rcode rdata Hc Hd Hlen)
    as (frame & Hframe & Hlf & HG & HF).
  rewrite app_nil_r in HG, HF. cbn [app] in HG, HF.
  change (len (@nil Z)) with 0 in HG, HF. rewrite Z.add_0_l in HF.
  assert (Hresp' : frame = fst (ser_read 100 (snd (ser_read 1 p))))
    by congruence.
  assert (Hlt : (0 <? len frame) = true)
    by (apply Z.ltb_lt; rewrite Hlf; unfold strlen; lia).
  assert (HA0' : String.eqb (strslice (rcode ++ rdata) 0 2) "A0" = true)
    by (rewrite HA0; reflexivity).
  destruct (check_response_read_port (List.length noise + fuel) frame _ _ st2 _
              (Some (dcode ++ ddata)%string) Hp2 Hlt HG (HF "response."%string) HA0')
    as (st' & Hst' & Hser' & Hm').
  { rewrite !ser_read_write. cbn [fst]. rewrite Hdata.
    destruct (noise ++ dpkt ++ post) as [|z d] eqn:Enil.
    - exfalso. apply app_eq_nil in Enil as [_ Enil].
      apply app_eq_nil in Enil as [Enil _]. subst dpkt.
      destruct (read_frame_packet [] [] dcode ddata Hdc Hdd Hdlen)
        as (x & Hx & Hlx & _).
      assert (x = []) by congruence. subst x.
      change (len (@nil Z)) with 0 in Hlx. unfold strlen in Hlx. lia.
    - intros s. rewrite <- Enil.
      now apply process_data_response_framed. }
  exists st'. rewrite E, <- Hresp'.
  destruct frame as [|z frame]; [discriminate |].
  split; [exact Hst' |]. split; [| congruence].
  eexists. split; [exact Hser' |]. apply written_after_read.
Qed.

(** X7. A read command runs the whole sequence of the protocol: with ACK
    after ENQ, a success frame (A0) as response and, after the ACK of the
    controller, a data response that holds a well-formed frame (behind
    any bytes other than STX, before any bytes at all), [send_command]
    with [expect_response] returns the payload of that frame, has written
    ENQ, the packet, ACK and EOT in this order and nothing else, and
    leaves the mode alone. *)
Theorem read_command_returns_payload fuel code data rcode rdata noise dcode ddata
  post st p pkt dpkt :
  ser st = Some p ->
  fst (ser_read 1 p) = [ACK] ->
  build_packet code data = inr pkt ->
  is_ascii rcode -> is_ascii rdata -> strlen rcode + strlen rdata <= 255 ->
  build_packet rcode rdata = inr (fst (ser_read 100 (snd (ser_read 1 p)))) ->
  strslice (rcode ++ rdata) 0 2 = "A0"%string ->
  Forall (fun b => b <> STX) noise ->
  is_ascii dcode -> is_ascii ddata -> strlen dcode + strlen ddata <= 255 ->
  build_packet dcode ddata = inr dpkt ->
  fst (ser_read 100 (snd (ser_read 100 (snd (ser_read 1 p))))) = noise ++ dpkt ++ post ->
  let r := send_command (S (S (List.length noise + fuel))) code data true st in
  snd r = Return (Some (dcode ++ ddata)%string) /\
  written_by r = written p ++ [[ENQ]; pkt; [ACK]; [EOT]] /\
  is_timed_mode (fst r) = is_timed_mode st.
Proof.
  intros Hser Hack Hpkt Hc Hd Hlen Hresp HA0 Hnoise Hdc Hdd Hdlen Hdpkt Hdata.
  cbv zeta.
  destruct (read_exchange fuel code data rcode rdata noise dcode ddata post st p pkt
              dpkt Hser Hack Hpkt Hc Hd Hlen Hresp HA0 Hnoise Hdc Hdd Hdlen Hdpkt Hdata)
    as (st' & E & (p' & Hp' & Hw) & Hm).
  rewrite E. cbn [fst snd]. split; [reflexivity |]. split; [| exact Hm].
  unfold written_by. cbn [fst]. now rewrite Hp'.
Qed.

Lemma read_command_returns_payload_witness :
  let reply := [STX; 48; 50; 65; 48; 50; 68; ETX] in
  let dpkt := [STX; 49; 53; 68; 48; 80; 68; 48; 53; 48; 48; 68; 84; 48; 49; 48;
               48; 48; 86; 67; 48; 48; 53; 48; 69; 54; ETX] in
  let pkt := [STX; 48; 53; 69; 56; 48; 48; 48; 56; 69; ETX] in
  let p := {| written := [[7]]; rxbuf := [];
              incoming := [[ACK]; reply; [13; 10] ++ dpkt ++ [0]] |} in
  let st := __init__ (Some p) in
  let r := send_command (S (S (List.length [13; 10] + 0))) "E8" "000" true st in
  snd r = Return (Some ("D0" ++ "PD0500DT01000VC0050")%string) /\
  written_by r = written p ++ [[ENQ]; pkt; [ACK]; [EOT]] /\
  is_timed_mode (fst r) = is_timed_mode st.
Proof.
  cbv zeta.
  apply (read_command_returns_payload 0 "E8" "000" "A0" "" [13; 10]
           "D0" "PD0500DT01000VC0050" [0])
    with (dpkt := [STX; 49; 53; 68; 48; 80; 68; 48; 53; 48; 48; 68; 84; 48; 49; 48;
                   48; 48; 86; 67; 48; 48; 53; 48; 69; 54; ETX]).
  - reflexivity.
  - reflexivity.
  - vm_compute. reflexivity.
  - unfold is_ascii. simpl. repeat constructor.
  - unfold is_ascii. simpl. repeat constructor.
  - vm_compute. discriminate.
  - vm_compute. reflexivity.
  - reflexivity.
  - repeat constructor; discriminate.
  - unfold is_ascii. simpl. repeat constructor.
  - unfold is_ascii. simpl. repeat constructor; lia.
  - vm_compute. discriminate.
  - vm_compute. reflexivity.
  - reflexivity.
Defined.

(** X8. When the device reports success but sends no data after the ACK
    of the controller, a read command still closes the sequence: it
    warns, writes EOT after its ACK, and returns [None]. *)
Theorem read_command_without_data fuel code data rcode rdata st p pkt :
  ser st = Some p ->
  fst (ser_read 1 p) = [ACK] ->
  build_packet code data = inr pkt ->
  is_ascii rcode -> is_ascii rdata -> strlen rcode + strlen rdata <= 255 ->
  build_packet rcode rdata = inr (fst (ser_read 100 (snd (ser_read 1 p)))) ->
  strslice (rcode ++ rdata) 0 2 = "A0"%string ->
  fst (ser_read 100 (snd (ser_read 100 (snd (ser_read 1 p))))) = [] ->
  let r := send_command (S (S fuel)) code data true st in
  snd r = Return None /\
  written_by r = written p ++ [[ENQ]; pkt; [ACK]; [EOT]] /\
  In (WARNING, [Str "No data response received."]) (logged (fst r)) /\
  is_timed_mode (fst r) = is_timed_mode st.
Proof.
  intros Hser Hack Hpkt Hc Hd Hlen Hresp HA0 Hdata. cbv zeta.
  destruct (send_command_acked_port (S (S fuel)) code data true
              st p pkt Hser Hack Hpkt) as (st2 & Hp2 & Hm2 & E).
  destruct (read_frame_packet [] [] rcode rdata Hc Hd Hlen)
    as (frame & Hframe & Hlf & HG & HF).
  rewrite app_nil_r in HG, HF. cbn [app] in HG, HF.
  change (len (@nil Z)) with 0 in HG, HF. rewrite Z.add_0_l in HF.
  assert (Hresp' : frame = fst (ser_read 100 (snd (ser_read 1 p))))
    by congruence.
  assert (Hlt : (0 <? len frame) = true)
    by (apply Z.ltb_lt; rewrite Hlf; unfold strlen; lia).
  rewrite E, <- Hresp'.
  destruct frame as [|z frame]; [discriminate |].
  set (reply := z :: frame) in *.
  unfold check_response. rewrite run_logger.
  cbn [check_response_loop]. rewrite Hlt, HG. cbn [lift_opt]. rewrite run_ret.
  change (STX =? STX) with true. cbv iota. rewrite (HF "response."%string).
  cbv zeta. rewrite HA0. change ("A0" =? "A0")%string with true. cbv iota.
  run_delay. rewrite !run_logger.
  match type of Hp2 with ser _ = Some ?q =>
    rewrite (run_write _ _ _ q) by exact Hp2;
    rewrite (run_read _ _ _ (ser_write [ACK] q)) by reflexivity
  end.
  rewrite !ser_read_write. cbn [fst snd]. rewrite Hdata.
  rewrite !run_logger.
  match goal with |- context [bind (write ?b) ?k ?s] =>
    let q := eval cbn [ser set_ser add_log] in (ser s) in
    match q with Some ?port => rewrite (run_write b k s port) by reflexivity end
  end.
  rewrite (check_response_loop_end fuel reply true (len reply)) by apply Z.ltb_irrefl.
  cbn [fst snd]. split; [reflexivity |]. split.
  - unfold written_by. cbn [fst ser set_ser].
    cbn [written ser_write ser_read snd]. now rewrite <- !app_assoc.
  - split; [| cbn [is_timed_mode set_ser add_log]; exact Hm2].
    cbn [logged set_ser add_log]. apply in_or_app. left. apply in_or_app. right.
    left. reflexivity.
Qed.

Lemma read_command_without_data_witness :
  let reply := [STX; 48; 50; 65; 48; 50; 68; ETX] in
  let pkt := [STX; 48; 53; 69; 56; 48; 48; 48; 56; 69; ETX] in
  let p := idle_port [[ACK]; reply] in
  let st := __init__ (Some p) in
  let r := send_command (S (S 0)) "E8" "000" true st in
  snd r = Return None /\
  written_by r = written p ++ [[ENQ]; pkt; [ACK]; [EOT]] /\
  In (WARNING, [Str "No data response received."]) (logged (fst r)) /\
  is_timed_mode (fst r) = is_timed_mode st.
Proof.
  cbv zeta.
  apply (read_command_without_data 0 "E8" "000" "A0" "").
  - reflexivity.
  - reflexivity.
  - vm_compute. reflexivity.
  - unfold is_ascii. simpl. repeat constructor.
  - unfold is_ascii. simpl. repeat constructor.
  - vm_compute. discriminate.
  - vm_compute. reflexivity.
  - reflexivity.
  - reflexivity.
Defined.

(** ** The argument of a command *)

Lemma split_no_sep sep s :
  ~ In sep (list_ascii_of_string s) -> split sep s = [s].
Proof.
  induction s as [|c s IH]; intros H; [reflexivity |].
  cbn [split]. destruct (Ascii.eqb c sep) eqn:E.
  - apply Ascii.eqb_eq in E. subst c. exfalso. apply H. now left.
  - rewrite IH; [reflexivity |]. intros Hin. apply H. now right.
Qed.

Lemma split_app_sep sep s t :
  ~ In sep (list_ascii_of_string s) ->
  split sep (s ++ String sep t) = s :: split sep t.
Proof.
  induction s as [|c s IH]; intros H.
  - cbn [append split]. now rewrite Ascii.eqb_refl.
  - cbn [append split]. destruct (Ascii.eqb c sep) eqn:E.
    + apply Ascii.eqb_eq in E. subst c. exfalso. apply H. now left.
    + rewrite IH; [reflexivity |]. intros Hin. apply H. now right.
Qed.

(** A command word followed by one argument without a space splits into
    the two. *)
Lemma split_command word arg :
  ~ In " "%char (list_ascii_of_string word) ->
  ~ In " "%char (list_ascii_of_string arg) ->
  split " " (word ++ String " " arg) = [word; arg].
Proof.
  intros Hw Ha. rewrite split_app_sep by exact Hw. now rewrite split_no_sep.
Qed.

Lemma dec3_all : forallb dec3_ok (map Z.of_nat (seq 0 400)) = true.
Proof. vm_compute. reflexivity. Qed.

Lemma format_d_3 (n : Z) :
  0 <= n <= 399 ->
  String.length (format_d 3 n) = 3%nat /\
  is_ascii (format_d 3 n) /\
  int_of_str 10 (format_d 3 n) = Some n.
Proof.
  intros Hn.
  assert (Hin : In n (map Z.of_nat (seq 0 400))).
  { apply in_map_iff. exists (Z.to_nat n). split; [lia |]. apply in_seq. lia. }
  pose proof (proj1 (forallb_forall _ _) dec3_all n Hin) as H.
  unfold dec3_ok in H. cbv zeta in H.
  apply andb_true_iff in H as [H H3]. apply andb_true_iff in H as [H1 H2].
  split; [now apply Nat.eqb_eq |]. split.
  - unfold is_ascii. apply Forall_forall. intros c Hc.
    pose proof (proj1 (forallb_forall _ _) H2 c Hc) as Hd.
    apply andb_true_iff in Hd as [_ Hd]. apply Z.leb_le in Hd. lia.
  - destruct (int_of_str 10 (format_d 3 n)) as [m|]; [| discriminate].
    apply Z.eqb_eq in H3. now subst.
Qed.

Lemma read_values_unfold py_float fuel arg st :
  ~ In " "%char (list_ascii_of_string arg) ->
  dispenser_callback py_float fuel ("read_values " ++ arg) st
  = try_except
      (memory_location <- lift_opt ValueError (int_of_str 10 arg) ;;
       if (0 <=? memory_location) && (memory_location <=? 399) then
         response_data <- send_command fuel "E8" (format_d 3 memory_location) true ;;
         match response_data with
         | Some (String c s) => parse_read_values (String c s)
         | _ => ret tt
         end
       else
         logger ERROR [Str "Invalid memory location: "; Int memory_location;
                       Str ". Must be between 0 and 399"])
      is_ValueError
      (fun _ => logger ERROR
         [Str "Invalid memory location format. Use: read_values <memory_location>"])
      st.
Proof.
  intros Ha.
  change (dispenser_callback py_float fuel ("read_values " ++ arg) st)
    with (try_except
      (let parts := split " " ("read_values" ++ String " " arg) in
       memory_location <-
         (if len parts =? 2 then
            arg <- lift_opt IndexError (getitem parts 1) ;;
            lift_opt ValueError (int_of_str 10 arg)
          else ret 0) ;;
       if (0 <=? memory_location) && (memory_location <=? 399) then
         response_data <- send_command fuel "E8" (format_d 3 memory_location) true ;;
         match response_data with
         | Some (String c s) => parse_read_values (String c s)
         | _ => ret tt
         end
       else
         logger ERROR [Str "Invalid memory location: "; Int memory_location;
                       Str ". Must be between 0 and 399"])
      is_ValueError
      (fun _ => logger ERROR
         [Str "Invalid memory location format. Use: read_values <memory_location>"])
      st).
  cbv zeta. rewrite (split_command "read_values" arg) by (simpl; intuition congruence || exact Ha).
  change (len ["read_values"%string; arg] =? 2) with true. cbv iota.
  change (getitem ["read_values"%string; arg] 1) with (Some arg).
  unfold try_except.
  cbn [lift_opt]. 
  match goal with |- context [bind (bind (ret arg) ?k) ?h ?s] =>
    change (bind (bind (ret arg) k) h s) with (bind (k arg) h s) end.
  reflexivity.
Qed.

(** X9. 'read_values <arg>' checks its argument before anything is sent.
    An argument that [int] does not read is reported as a format error,
    and a location outside 0..399 as an invalid location: in both cases
    the call returns with that one error logged and the port untouched.
    A location in 0..399 is sent with code E8 as three decimal digits
    that read back as the location. *)
Theorem read_values_checks_location py_float fuel arg st :
  ~ In " "%char (list_ascii_of_string arg) ->
  let r := dispenser_callback py_float fuel ("read_values " ++ arg) st in
  match int_of_str 10 arg with
  | None =>
      r = (add_log
             (ERROR,
              [Str "Invalid memory location format. Use: read_values <memory_location>"])
             st, Return tt)
  | Some m =>
      if (0 <=? m) && (m <=? 399) then
        r = try_except
              (response_data <- send_command fuel "E8" (format_d 3 m) true ;;
               match response_data with
               | Some (String c s) => parse_read_values (String c s)
               | _ => ret tt
               end)
              is_ValueError
              (fun _ => logger ERROR
                 [Str "Invalid memory location format. Use: read_values <memory_location>"])
              st /\
        String.length (format_d 3 m) = 3%nat /\
        int_of_str 10 (format_d 3 m) = Some m
      else
        r = (add_log
               (ERROR, [Str "Invalid memory location: "; Int m;
                        Str ". Must be between 0 and 399"])
               st, Return tt)
  end.
Proof.
  intros Ha. cbv zeta. rewrite (read_values_unfold py_float fuel arg st Ha).
  destruct (int_of_str 10 arg) as [m|]; [| reflexivity].
  cbn [lift_opt].
  destruct ((0 <=? m) && (m <=? 399)) eqn:E.
  - split.
    + unfold try_except. rewrite run_ret. now rewrite E.
    + apply andb_true_iff in E as [E1 E2].
      apply Z.leb_le in E1. apply Z.leb_le in E2.
      destruct (format_d_3 m) as (H1 & _ & H3); [lia | now split].
  - unfold try_except. rewrite run_ret. now rewrite E.
Qed.

Lemma read_values_checks_location_witness :
  let r := dispenser_callback float_of_decimal 3 ("read_values " ++ "400")
             (__init__ (Some (idle_port []))) in
  match int_of_str 10 "400" with
  | None =>
      r = (add_log
             (ERROR,
              [Str "Invalid memory location format. Use: read_values <memory_location>"])
             (__init__ (Some (idle_port []))), Return tt)
  | Some m =>
      if (0 <=? m) && (m <=? 399) then
        r = try_except
              (response_data <- send_command 3 "E8" (format_d 3 m) true ;;
               match response_data with
               | Some (String c s) => parse_read_values (String c s)
               | _ => ret tt
               end)
              is_ValueError
              (fun _ => logger ERROR
                 [Str "Invalid memory location format. Use: read_values <memory_location>"])
              (__init__ (Some (idle_port []))) /\
        String.length (format_d 3 m) = 3%nat /\
        int_of_str 10 (format_d 3 m) = Some m
      else
        r = (add_log
               (ERROR, [Str "Invalid memory location: "; Int m;
                        Str ". Must be between 0 and 399"])
               (__init__ (Some (idle_port []))), Return tt)
  end.
Proof.
  apply (read_values_checks_location float_of_decimal 3 "400"
           (__init__ (Some (idle_port [])))).
  simpl. intuition discriminate.
Defined.

(** X10. 'read_values' takes its location only from a command of exactly
    two words.  Any other command that starts with 'read_values' (more
    words, as in 'read_values 5 7', or a longer first word) is run as
    'read_values' alone, which reads location 0. *)
Theorem read_values_needs_two_words py_float fuel rest st :
  len (split " " ("read_values" ++ rest)) <> 2 ->
  dispenser_callback py_float fuel ("read_values" ++ rest) st
  = dispenser_callback py_float fuel "read_values" st.
Proof.
  intros H. destruct rest as [|a rest]; [reflexivity |].
  change (dispenser_callback py_float fuel ("read_values" ++ String a rest) st)
    with (try_except
      (let parts := split " " ("read_values" ++ String a rest) in
       memory_location <-
         (if len parts =? 2 then
            arg <- lift_opt IndexError (getitem parts 1) ;;
            lift_opt ValueError (int_of_str 10 arg)
          else ret 0) ;;
       if (0 <=? memory_location) && (memory_location <=? 399) then
         response_data <- send_command fuel "E8" (format_d 3 memory_location) true ;;
         match response_data with
         | Some (String c s) => parse_read_values (String c s)
         | _ => ret tt
         end
       else
         logger ERROR [Str "Invalid memory location: "; Int memory_location;
                       Str ". Must be between 0 and 399"])
      is_ValueError
      (fun _ => logger ERROR
         [Str "Invalid memory location format. Use: read_values <memory_location>"])
      st).
  cbv zeta. apply Z.eqb_neq in H. rewrite H. reflexivity.
Qed.

Lemma read_values_needs_two_words_witness :
  dispenser_callback float_of_decimal 3 ("read_values" ++ " 5 7")
    (__init__ (Some (idle_port [])))
  = dispenser_callback float_of_decimal 3 "read_values"
      (__init__ (Some (idle_port []))).
Proof.
  apply (read_values_needs_two_words float_of_decimal 3 " 5 7").
  vm_compute. discriminate.
Defined.

(** X11. 'read_values <location>' from the command line to the report:
    for a location in 0..399, a device that answers ACK, then a success
    frame, then a data response holding a well-formed frame with a
    payload that is not empty, the command returns, has written ENQ, the
    E8 packet of the location, ACK and EOT, and what it hands to
    [parse_read_values] is precisely the payload of the data frame. *)
Theorem read_values_reports_payload py_float fuel arg m rcode rdata noise dcode ddata
  post st p pkt dpkt :
  ~ In " "%char (list_ascii_of_string arg) ->
  int_of_str 10 arg = Some m -> 0 <= m <= 399 ->
  ser st = Some p ->
  fst (ser_read 1 p) = [ACK] ->
  build_packet "E8" (format_d 3 m) = inr pkt ->
  is_ascii rcode -> is_ascii rdata -> strlen rcode + strlen rdata <= 255 ->
  build_packet rcode rdata = inr (fst (ser_read 100 (snd (ser_read 1 p)))) ->
  strslice (rcode ++ rdata) 0 2 = "A0"%string ->
  Forall (fun b => b <> STX) noise ->
  is_ascii dcode -> is_ascii ddata -> strlen dcode + strlen ddata <= 255 ->
  (dcode ++ ddata)%string <> EmptyString ->
  build_packet dcode ddata = inr dpkt ->
  fst (ser_read 100 (snd (ser_read 100 (snd (ser_read 1 p))))) = noise ++ dpkt ++ post ->
  let budget := S (S (List.length noise + fuel)) in
  let r := dispenser_callback py_float budget ("read_values " ++ arg) st in
  snd r = Return tt /\
  written_by r = written p ++ [[ENQ]; pkt; [ACK]; [EOT]] /\
  fst r = fst (parse_read_values (dcode ++ ddata)
                 (fst (send_command budget "E8" (format_d 3 m) true st))).
Proof.
  intros Ha Hm Hrange Hser Hack Hpkt Hc Hd Hlen Hresp HA0 Hnoise Hdc Hdd Hdlen Hne
    Hdpkt Hdata.
  cbv zeta. rewrite (read_values_unfold py_float _ arg st Ha).
  rewrite Hm. cbn [lift_opt]. unfold try_except. rewrite run_ret.
  replace ((0 <=? m) && (m <=? 399)) with true
    by (symmetry; apply andb_true_iff; split; apply Z.leb_le; lia).
  destruct (read_exchange fuel "E8" (format_d 3 m) rcode rdata noise dcode ddata post
              st p pkt dpkt Hser Hack Hpkt Hc Hd Hlen Hresp HA0 Hnoise Hdc Hdd Hdlen
              Hdpkt Hdata)
    as (st' & E & (p' & Hp' & Hw) & _).
  rewrite (run_bind_return _ _ st st' _ E). rewrite E. cbn [fst].
  destruct (dcode ++ ddata)%string as [|c s] eqn:Epay; [congruence |].
  pose proof (parse_read_values_returns (String c s) st') as Hret.
  pose proof (preserves_parse_read_values only_logs only_logs_refl only_logs_trans
                only_logs_logger (String c s) st') as (Hs & _).
  destruct (parse_read_values (String c s) st') as [s2 o].
  cbn [fst snd] in *. subst o. split; [reflexivity |]. split; [| reflexivity].
  unfold written_by. cbn [fst]. now rewrite Hs, Hp'.
Qed.

Lemma read_values_reports_payload_witness :
  let reply := [STX; 48; 50; 65; 48; 50; 68; ETX] in
  let dpkt := [STX; 49; 53; 68; 48; 80; 68; 48; 53; 48; 48; 68; 84; 48; 49; 48;
               48; 48; 86; 67; 48; 48; 53; 48; 69; 54; ETX] in
  let pkt := [STX; 48; 53; 69; 56; 48; 48; 53; 56; 57; ETX] in
  let p := idle_port [[ACK]; reply; [] ++ dpkt ++ []] in
  let st := __init__ (Some p) in
  let budget := S (S (List.length (@nil Z) + 0)) in
  let r := dispenser_callback float_of_decimal budget ("read_values " ++ "5") st in
  snd r = Return tt /\
  written_by r = written p ++ [[ENQ]; pkt; [ACK]; [EOT]] /\
  fst r = fst (parse_read_values ("D0" ++ "PD0500DT01000VC0050")
                 (fst (send_command budget "E8" (format_d 3 5) true st))).
Proof.
  cbv zeta.
  apply (read_values_reports_payload float_of_decimal 0 "5" 5 "A0" "" []
           "D0" "PD0500DT01000VC0050" [])
    with (dpkt := [STX; 49; 53; 68; 48; 80; 68; 48; 53; 48; 48; 68; 84; 48; 49; 48;
                   48; 48; 86; 67; 48; 48; 53; 48; 69; 54; ETX]).
  - simpl. intuition discriminate.
  - reflexivity.
  - lia.
  - reflexivity.
  - reflexivity.
  - vm_compute. reflexivity.
  - unfold is_ascii. simpl. repeat constructor.
  - unfold is_ascii. simpl. repeat constructor.
  - vm_compute. discriminate.
  - vm_compute. reflexivity.
  - reflexivity.
  - constructor.
  - unfold is_ascii. simpl. repeat constructor.
  - unfold is_ascii. simpl. repeat constructor; lia.
  - vm_compute. discriminate.
  - discriminate.
  - vm_compute. reflexivity.
  - reflexivity.
Defined.

(** ** Units *)

Lemma lower_char_idempotent c : lower_char (lower_char c) = lower_char c.
Proof. destruct c as [[] [] [] [] [] [] [] []]; vm_compute; reflexivity. Qed.

Lemma lower_char_space c : lower_char c = " "%char -> c = " "%char.
Proof. destruct c as [[] [] [] [] [] [] [] []]; vm_compute; congruence. Qed.

Lemma lower_idempotent s : lower (lower s) = lower s.
Proof.
  induction s as [|c s IH]; [reflexivity |].
  cbn [lower]. now rewrite lower_char_idempotent, IH.
Qed.

Lemma lower_no_space s :
  ~ In " "%char (list_ascii_of_string s) ->
  ~ In " "%char (list_ascii_of_string (lower s)).
Proof.
  induction s as [|c s IH]; intros H; [exact H |].
  cbn [lower list_ascii_of_string]. intros [E | Hin].
  - apply H. left. now apply lower_char_space.
  - apply IH; [| exact Hin]. intros Hs. apply H. now right.
Qed.

Lemma set_pressure_units_unfold py_float fuel arg st :
  ~ In " "%char (list_ascii_of_string arg) ->
  dispenser_callback py_float fuel ("set_pressure_units " ++ arg) st
  = try_except
      (match lookup (lower arg) pressure_units_map with
       | Some units_code => discard (send_command fuel "E6  " units_code false)
       | None =>
           logger ERROR [Str "Invalid pressure unit: "; Str (lower arg);
                         Str ". Must be one of "; Keys (map fst pressure_units_map)]
       end)
      is_IndexError
      (fun _ => logger ERROR [Str "Invalid command format. Use: set_pressure_units <unit>"])
      st.
Proof.
  intros Ha. set (cmd := ("set_pressure_units " ++ arg)%string).
  assert (E1 : String.eqb cmd "start" = false) by reflexivity.
  assert (E2 : String.eqb cmd "stop" = false) by reflexivity.
  assert (E3 : startswith cmd "pressure " = false) by reflexivity.
  assert (E4 : startswith cmd "vacuum " = false) by reflexivity.
  assert (E5 : String.eqb cmd "toggle_mode" = false) by reflexivity.
  assert (E6 : startswith cmd "time " = false) by reflexivity.
  assert (E7 : startswith cmd "read_values" = false) by reflexivity.
  assert (E9 : startswith cmd "set_pressure_units " = true)
    by (subst cmd; destruct arg; reflexivity).
  unfold dispenser_callback. rewrite E1, E2, E3, E4, E5, E6, E7, E9.
  cbv zeta. subst cmd.
  change ("set_pressure_units " ++ arg)%string
    with ("set_pressure_units" ++ String " " arg)%string.
  rewrite (split_command "set_pressure_units" arg)
    by (simpl; intuition congruence || exact Ha).
  change (getitem ["set_pressure_units"%string; arg] 1) with (Some arg).
  unfold try_except. cbn [lift_opt]. now rewrite run_ret.
Qed.

Lemma set_vacuum_units_unfold py_float fuel arg st :
  ~ In " "%char (list_ascii_of_string arg) ->
  dispenser_callback py_float fuel ("set_vacuum_units " ++ arg) st
  = try_except
      (match lookup (lower arg) vacuum_units_map with
       | Some units_code => discard (send_command fuel "E7  " units_code false)
       | None =>
           logger ERROR [Str "Invalid vacuum unit: "; Str (lower arg);
                         Str ". Must be one of "; Keys (map fst vacuum_units_map)]
       end)
      is_IndexError
      (fun _ => logger ERROR [Str "Invalid command format. Use: set_vacuum_units <unit>"])
      st.
Proof.
  intros Ha. set (cmd := ("set_vacuum_units " ++ arg)%string).
  assert (E1 : String.eqb cmd "start" = false) by reflexivity.
  assert (E2 : String.eqb cmd "stop" = false) by reflexivity.
  assert (E3 : startswith cmd "pressure " = false) by reflexivity.
  assert (E4 : startswith cmd "vacuum " = false) by reflexivity.
  assert (E5 : String.eqb cmd "toggle_mode" = false) by reflexivity.
  assert (E6 : startswith cmd "time " = false) by reflexivity.
  assert (E7 : startswith cmd "read_values" = false) by reflexivity.
  assert (E8 : startswith cmd "set_pressure_units " = false) by reflexivity.
  assert (E9 : startswith cmd "set_vacuum_units " = true)
    by (subst cmd; destruct arg; reflexivity).
  unfold dispenser_callback. rewrite E1, E2, E3, E4, E5, E6, E7, E8, E9.
  cbv zeta. subst cmd.
  change ("set_vacuum_units " ++ arg)%string
    with ("set_vacuum_units" ++ String " " arg)%string.
  rewrite (split_command "set_vacuum_units" arg)
    by (simpl; intuition congruence || exact Ha).
  change (getitem ["set_vacuum_units"%string; arg] 1) with (Some arg).
  unfold try_except. cbn [lift_opt]. now rewrite run_ret.
Qed.

(** X12. Unit names are read without regard to letter case: a units
    command with the name in any mix of cases does exactly what it does
    with the name in lower case, the error report included. *)
Theorem unit_names_ignore_case py_float fuel arg st :
  ~ In " "%char (list_ascii_of_string arg) ->
  dispenser_callback py_float fuel ("set_pressure_units " ++ arg) st
  = dispenser_callback py_float fuel ("set_pressure_units " ++ lower arg) st /\
  dispenser_callback py_float fuel ("set_vacuum_units " ++ arg) st
  = dispenser_callback py_float fuel ("set_vacuum_units " ++ lower arg) st.
Proof.
  intros Ha. pose proof (lower_no_space arg Ha) as Hl.
  rewrite (set_pressure_units_unfold py_float fuel arg st Ha).
  rewrite (set_pressure_units_unfold py_float fuel (lower arg) st Hl).
  rewrite (set_vacuum_units_unfold py_float fuel arg st Ha).
  rewrite (set_vacuum_units_unfold py_float fuel (lower arg) st Hl).
  rewrite lower_idempotent. split; reflexivity.
Qed.

Lemma unit_names_ignore_case_witness :
  dispenser_callback float_of_decimal 3 ("set_pressure_units " ++ "kPa")
    (__init__ (Some (idle_port [])))
  = dispenser_callback float_of_decimal 3 ("set_pressure_units " ++ lower "kPa")
      (__init__ (Some (idle_port []))) /\
  dispenser_callback float_of_decimal 3 ("set_vacuum_units " ++ "kPa")
    (__init__ (Some (idle_port [])))
  = dispenser_callback float_of_decimal 3 ("set_vacuum_units " ++ lower "kPa")
      (__init__ (Some (idle_port []))).
Proof.
  apply (unit_names_ignore_case float_of_decimal 3 "kPa").
  simpl. intuition discriminate.
Defined.

(** X13. A units command with a name that is not in the table of its
    kind is refused before anything is sent: the call returns with one
    error record, which carries the name in lower case and the names of
    the table, and the port and the mode are as they were.  'kpa' is the
    one name in both tables, with code 02 for pressure and 00 for
    vacuum. *)
Theorem unknown_unit_is_refused py_float fuel arg st :
  ~ In " "%char (list_ascii_of_string arg) ->
  (lookup (lower arg) pressure_units_map = None ->
   dispenser_callback py_float fuel ("set_pressure_units " ++ arg) st
   = (add_log (ERROR, [Str "Invalid pressure unit: "; Str (lower arg);
                       Str ". Must be one of "; Keys ["psi"; "bar"; "kpa"]%string]) st,
      Return tt)) /\
  (lookup (lower arg) vacuum_units_map = None ->
   dispenser_callback py_float fuel ("set_vacuum_units " ++ arg) st
   = (add_log (ERROR, [Str "Invalid vacuum unit: "; Str (lower arg);
                       Str ". Must be one of ";
                       Keys ["kpa"; "inches_h2o"; "inches_hg"; "mmhg"; "torr"]%string])
        st,
      Return tt)) /\
  (forall units_code,
      lookup (lower arg) pressure_units_map = Some units_code ->
      dispenser_callback py_float fuel ("set_pressure_units " ++ arg) st
      = try_except (discard (send_command fuel "E6  " units_code false))
          is_IndexError
          (fun _ => logger ERROR
                      [Str "Invalid command format. Use: set_pressure_units <unit>"])
          st) /\
  (forall units_code,
      lookup (lower arg) vacuum_units_map = Some units_code ->
      dispenser_callback py_float fuel ("set_vacuum_units " ++ arg) st
      = try_except (discard (send_command fuel "E7  " units_code false))
          is_IndexError
          (fun _ => logger ERROR
                      [Str "Invalid command format. Use: set_vacuum_units <unit>"])
          st) /\
  lookup "kpa" pressure_units_map = Some "02"%string /\
  lookup "kpa" vacuum_units_map = Some "00"%string.
Proof.
  intros Ha.
  rewrite (set_pressure_units_unfold py_float fuel arg st Ha).
  rewrite (set_vacuum_units_unfold py_float fuel arg st Ha).
  split; [intros E; unfold try_except; rewrite E; reflexivity |].
  split; [intros E; unfold try_except; rewrite E; reflexivity |].
  split; [intros c E; unfold try_except; rewrite E; reflexivity |].
  split; [intros c E; unfold try_except; rewrite E; reflexivity |].
  split; reflexivity.
Qed.

Lemma unknown_unit_is_refused_witness :
  dispenser_callback float_of_decimal 3 ("set_pressure_units " ++ "Torr")
    (__init__ (Some (idle_port [])))
  = (add_log (ERROR, [Str "Invalid pressure unit: "; Str (lower "Torr");
                      Str ". Must be one of "; Keys ["psi"; "bar"; "kpa"]%string])
       (__init__ (Some (idle_port []))),
     Return tt).
Proof.
  apply (unknown_unit_is_refused float_of_decimal 3 "Torr").
  - simpl. intuition discriminate.
  - reflexivity.
Defined.

(** ** Setting the vacuum *)

(** A value accepted as a vacuum is also within the range of pressures,
    so the bound on the product with 10 applies to it. *)
Lemma vacuum_in_pressure_range (v : float) :
  fle (float_lit 0 1) v = true ->
  fle v (float_lit 180 1) = true ->
  fle v (float_lit 1000 1) = true.
Proof.
  change (float_lit 0 1) with (S754_zero false).
  change (float_lit 1000 1) with (S754_finite false 7036874417766400 (-46)).
  change (float_lit 180 1) with (S754_finite false 5066549580791808 (-48)).
  intros H0 H18.
  destruct v as [s | s | | s m e]; try discriminate.
  - reflexivity.
  - destruct s; discriminate.
  - destruct s; [discriminate |].
    assert (He : e <= -48).
    { unfold fle, SFleb, SFcompare in H18.
      destruct (Z.compare_spec e (-48)); [lia | lia | discriminate]. }
    unfold fle, SFleb, SFcompare.
    destruct (Z.compare_spec e (-46)); [lia | reflexivity | lia].
Qed.

(** X14. 'vacuum <v>' encodes as 'pressure' does, with its own range and
    code: for a binary64 value [v] in [0.0, 18.0] the data field is the
    integer part of [v * 10], truncated toward zero, as four decimal
    digits, sent with command code 'VS  '; outside the range only the
    error is logged and nothing is written to the port. *)
Theorem set_vacuum_truncates py_float fuel command_str arg v st :
  startswith command_str "vacuum " = true ->
  getitem (split " " command_str) 1 = Some arg ->
  py_float arg = Some v ->
  valid_binary prec emax v = true ->
  (fle (float_lit 0 1) v && fle v (float_lit 180 1) = true ->
   exists n pkt,
     int_of_float (fmul v (float_of_int 10)) = inr n /\
     0 <= n < 10000 /\
     String.length (format_d 4 n) = 4%nat /\
     int_of_str 10 (format_d 4 n) = Some n /\
     build_packet "VS  " (format_d 4 n) = inr pkt /\
     dispenser_callback py_float fuel command_str st
     = try_except (discard (send_command fuel "VS  " (format_d 4 n) false))
         handles_Index_or_Value
         (fun _ => logger ERROR
            [Str "Invalid vacuum command format. Use: vacuum <value>"])
         st /\
     forall p,
       ser st = Some p -> fst (ser_read 1 p) = [ACK] ->
       exists rest,
         written_by (dispenser_callback py_float fuel command_str st)
         = written p ++ [ENQ] :: pkt :: rest) /\
  (fle (float_lit 0 1) v && fle v (float_lit 180 1) = false ->
   dispenser_callback py_float fuel command_str st
   = (add_log (ERROR, [Str "Invalid vacuum value: "; Flt v;
                       Str ". Must be between 0.0 and 18.0 inH2O"]) st,
      Return tt)).
Proof.
  intros Hpre Harg Hv Hvalid.
  destruct (startswith_app _ _ Hpre) as (rest0 & Hcmd).
  assert (E1 : String.eqb command_str "start" = false) by (subst; reflexivity).
  assert (E2 : String.eqb command_str "stop" = false) by (subst; reflexivity).
  assert (E3 : startswith command_str "pressure " = false) by (subst; reflexivity).
  assert (Hcb : forall b,
             fle (float_lit 0 1) v && fle v (float_lit 180 1) = b ->
             dispenser_callback py_float fuel command_str st
             = try_except
                 (if b then
                    n <- lift_exn (int_of_float (fmul v (float_of_int 10))) ;;
                    discard (send_command fuel "VS  " (format_d 4 n) false)
                  else
                    logger ERROR [Str "Invalid vacuum value: "; Flt v;
                                  Str ". Must be between 0.0 and 18.0 inH2O"])
                 handles_Index_or_Value
                 (fun _ => logger ERROR
                    [Str "Invalid vacuum command format. Use: vacuum <value>"])
                 st).
  { intros b Hb. unfold dispenser_callback. rewrite E1, E2, E3, Hpre.
    unfold try_except. rewrite Harg. cbn [lift_opt]. rewrite run_ret, Hv.
    cbn [lift_opt]. rewrite run_ret, Hb. reflexivity. }
  split.
  - intros Hrange. rewrite (Hcb true Hrange).
    apply andb_true_iff in Hrange as [H0 H100].
    destruct (pressure_product_small v Hvalid H0
                (vacuum_in_pressure_range v H0 H100)) as (n & Hn & Hnr).
    destruct (format_d_4 n Hnr) as (Hl & Ha & Hi).
    assert (HVS : is_ascii "VS  ") by (unfold is_ascii; simpl; repeat constructor).
    assert (Hlen : strlen "VS  " + strlen (format_d 4 n) <= 255)
      by (unfold strlen; rewrite Hl; simpl; lia).
    pose proof (build_packet_ok "VS  " (format_d 4 n) HVS Ha Hlen) as Hpkt.
    match type of Hpkt with _ = inr ?x => set (pkt := x) in Hpkt end.
    exists n, pkt. split; [exact Hn |]. split; [lia |]. split; [exact Hl |].
    split; [exact Hi |]. split; [exact Hpkt |].
    assert (Hbody : forall st0,
               (n0 <- lift_exn (int_of_float (fmul v (float_of_int 10))) ;;
                discard (send_command fuel "VS  " (format_d 4 n0) false)) st0
               = discard (send_command fuel "VS  " (format_d 4 n) false) st0).
    { intros st0. rewrite Hn. cbn [lift_exn]. now rewrite run_ret. }
    split.
    { unfold try_except. now rewrite Hbody. }
    intros p Hser Hack.
    match goal with |- exists rest, written_by ?r = _ =>
      assert (H : has_written (written p ++ [[ENQ]; pkt]) r) end.
    { unfold try_except at 1. rewrite Hbody. fold (try_except
        (discard (send_command fuel "VS  " (format_d 4 n) false))
        handles_Index_or_Value
        (fun _ => logger ERROR
           [Str "Invalid vacuum command format. Use: vacuum <value>"]) st).
      apply has_written_try_except; [| intros e; apply port_grows_logger].
      unfold discard. apply has_written_bind.
      - apply send_command_has_written; [exact Hser | exact Hack | exact Hpkt].
      - intros a st0. apply port_grows_refl. }
    destruct (has_written_by _ _ H) as (rest & Hr).
    exists rest. rewrite Hr. now rewrite <- app_assoc.
  - intros Hrange. rewrite (Hcb false Hrange). reflexivity.
Qed.

Lemma set_vacuum_truncates_witness :
   exists n pkt,
     int_of_float (fmul (float_lit 125 1) (float_of_int 10)) = inr n /\
     0 <= n < 10000 /\
     String.length (format_d 4 n) = 4%nat /\
     int_of_str 10 (format_d 4 n) = Some n /\
     build_packet "VS  " (format_d 4 n) = inr pkt /\
     dispenser_callback float_of_decimal 2 "vacuum 12.5"
         (__init__ (Some (idle_port [[ACK]])))
     = try_except (discard (send_command 2 "VS  " (format_d 4 n) false))
         handles_Index_or_Value
         (fun _ => logger ERROR
            [Str "Invalid vacuum command format. Use: vacuum <value>"])
         (__init__ (Some (idle_port [[ACK]]))) /\
     forall p,
       ser (__init__ (Some (idle_port [[ACK]]))) = Some p -> fst (ser_read 1 p) = [ACK] ->
       exists rest,
         written_by (dispenser_callback float_of_decimal 2 "vacuum 12.5"
         (__init__ (Some (idle_port [[ACK]]))))
         = written p ++ [ENQ] :: pkt :: rest.
Proof.
  apply (proj1 (set_vacuum_truncates float_of_decimal 2 "vacuum 12.5" "12.5"
                  (float_lit 125 1) (__init__ (Some (idle_port [[ACK]])))
                  eq_refl eq_refl eq_refl eq_refl)).
  reflexivity.
Defined.

(** The bounds of the range: 18.0 is sent as 0180, 18.1 is refused and
    leaves the port untouched. *)
Example set_vacuum_18 :
  written_by (dispenser_callback float_of_decimal 2 "vacuum 18.0"
                (__init__ (Some (idle_port [[ACK]]))))
  = [[ENQ]; [STX] ++ bytes_of "08VS  0180" ++ bytes_of "E6" ++ [ETX]].
Proof. vm_compute. reflexivity. Qed.

Example set_vacuum_18_1 :
  dispenser_callback float_of_decimal 2 "vacuum 18.1"
    (__init__ (Some (idle_port [[ACK]])))
  = (add_log (ERROR, [Str "Invalid vacuum value: "; Flt (float_lit 181 1);
                      Str ". Must be between 0.0 and 18.0 inH2O"])
       (__init__ (Some (idle_port [[ACK]]))),
     Return tt).
Proof. vm_compute. reflexivity. Qed.

(** ** An exception raised by the scan *)

Lemma pressure_in_range_unfold py_float fuel command_str arg v n st :
  startswith command_str "pressure " = true ->
  getitem (split " " command_str) 1 = Some arg ->
  py_float arg = Some v ->
  fle (float_lit 0 1) v && fle v (float_lit 1000 1) = true ->
  int_of_float (fmul v (float_of_int 10)) = inr n ->
  dispenser_callback py_float fuel command_str st
  = try_except (discard (send_command fuel "PS  " (format_d 4 n) false))
      handles_Index_or_Value
      (fun _ => logger ERROR
         [Str "Invalid pressure command format. Use: pressure <value>"])
      st.
Proof.
  intros Hpre Harg Hv Hb Hn.
  destruct (startswith_app _ _ Hpre) as (rest0 & Hcmd).
  assert (E1 : String.eqb command_str "start" = false) by (subst; reflexivity).
  assert (E2 : String.eqb command_str "stop" = false) by (subst; reflexivity).
  unfold dispenser_callback. rewrite E1, E2, Hpre.
  unfold try_except. rewrite Harg. cbn [lift_opt]. rewrite run_ret, Hv.
  cbn [lift_opt]. rewrite run_ret, Hb, Hn. cbn [lift_exn]. now rewrite run_ret.
Qed.

Lemma discard_raise {A} (c : M A) st st' e :
  c st = (st', Raise e) -> discard c st = (st', Raise e).
Proof. intros E. unfold discard, bind. now rewrite E. Qed.

Lemma try_except_handled {A} (body : M A) handled handler st st' e :
  body st = (st', Raise e) -> handled e = true ->
  try_except body handled handler st = handler e st'.
Proof. intros E H. unfold try_except. now rewrite E, H. Qed.

(** A response on which the scan raises makes [send_command] raise, the
    packet already written. *)
Lemma send_command_scan_raises fuel code data expect st p pkt e :
  ser st = Some p ->
  fst (ser_read 1 p) = [ACK] ->
  build_packet code data = inr pkt ->
  fst (ser_read 100 (snd (ser_read 1 p))) <> [] ->
  (forall s, snd (check_response fuel (fst (ser_read 100 (snd (ser_read 1 p)))) expect s)
             = Raise e) ->
  exists st' p' rest,
    send_command fuel code data expect st = (st', Raise e) /\
    ser st' = Some p' /\ written p' = written p ++ [ENQ] :: pkt :: rest.
Proof.
  intros Hser Hack Hpkt Hne Hscan.
  destruct (send_command_acked_port fuel code data expect st p pkt Hser Hack Hpkt)
    as (st2 & Hp2 & Hm2 & E).
  pose proof (check_response_port_grows fuel
                (fst (ser_read 100 (snd (ser_read 1 p)))) expect st2) as Hg.
  specialize (Hscan st2).
  destruct (fst (ser_read 100 (snd (ser_read 1 p)))) as [|z resp]; [congruence |].
  rewrite E.
  destruct (check_response fuel (z :: resp) expect st2) as [st' o].
  cbn [fst snd] in *. subst o.
  unfold port_grows in Hg. rewrite Hp2 in Hg.
  destruct Hg as (p' & extra & Hp' & Hw).
  exists st', p', extra. split; [reflexivity |]. split; [exact Hp' |].
  rewrite Hw. cbn [written ser_write ser_read snd]. now rewrite <- !app_assoc.
Qed.

Lemma pressure_units_codes unit units_code :
  lookup unit pressure_units_map = Some units_code ->
  units_code = "00"%string \/ units_code = "01"%string \/ units_code = "02"%string.
Proof.
  unfold pressure_units_map. cbn [lookup].
  destruct (String.eqb unit "psi"); [intros [= <-]; now left |].
  destruct (String.eqb unit "bar"); [intros [= <-]; right; now left |].
  destruct (String.eqb unit "kpa"); [intros [= <-]; right; now right |].
  discriminate.
Qed.

(** X15. An [IndexError] raised while the response of the device is
    scanned is not caught by [send_command].  In 'start' (no handler) and
    'read_values' (handler for [ValueError] only) it leaves
    [dispenser_callback]; in 'pressure' and in 'set_pressure_units' the
    handler meant for a missing argument catches it, so that the call
    returns and reports an invalid command format although the command
    was well formed and its packet has been sent. *)
Theorem scan_error_is_reported_as_format_error py_float fuel st p :
  ser st = Some p ->
  fst (ser_read 1 p) = [ACK] ->
  fst (ser_read 100 (snd (ser_read 1 p))) <> [] ->
  (forall expect s,
      snd (check_response fuel (fst (ser_read 100 (snd (ser_read 1 p)))) expect s)
      = Raise IndexError) ->
  snd (dispenser_callback py_float fuel "start" st) = Raise IndexError /\
  snd (dispenser_callback py_float fuel "read_values" st) = Raise IndexError /\
  (forall command_str arg v,
      startswith command_str "pressure " = true ->
      getitem (split " " command_str) 1 = Some arg ->
      py_float arg = Some v ->
      valid_binary prec emax v = true ->
      fle (float_lit 0 1) v && fle v (float_lit 1000 1) = true ->
      exists n pkt st' p' rest,
        int_of_float (fmul v (float_of_int 10)) = inr n /\
        build_packet "PS  " (format_d 4 n) = inr pkt /\
        ser st' = Some p' /\ written p' = written p ++ [ENQ] :: pkt :: rest /\
        dispenser_callback py_float fuel command_str st
        = (add_log (ERROR, [Str "Invalid pressure command format. Use: pressure <value>"])
             st', Return tt)) /\
  (forall arg units_code,
      ~ In " "%char (list_ascii_of_string arg) ->
      lookup (lower arg) pressure_units_map = Some units_code ->
      exists pkt st' p' rest,
        build_packet "E6  " units_code = inr pkt /\
        ser st' = Some p' /\ written p' = written p ++ [ENQ] :: pkt :: rest /\
        dispenser_callback py_float fuel ("set_pressure_units " ++ arg) st
        = (add_log (ERROR, [Str "Invalid command format. Use: set_pressure_units <unit>"])
             st', Return tt)).
Proof.
  intros Hser Hack Hne Hscan.
  split; [| split; [| split]].
  - destruct (send_command_scan_raises fuel "DI  " "" false st p _ IndexError Hser Hack
                eq_refl Hne (Hscan false)) as (st' & p' & rest & E & _).
    change (dispenser_callback py_float fuel "start" st)
      with (discard (send_command fuel "DI  " "" false) st).
    now rewrite (discard_raise _ st st' IndexError E).
  - destruct (send_command_scan_raises fuel "E8" "000" true st p _ IndexError Hser Hack
                eq_refl Hne (Hscan true)) as (st' & p' & rest & E & _).
    change (dispenser_callback py_float fuel "read_values" st)
      with (try_except
              (response_data <- send_command fuel "E8" "000" true ;;
               match response_data with
               | Some (String c s) => parse_read_values (String c s)
               | _ => ret tt
               end)
              is_ValueError
              (fun _ => logger ERROR
                 [Str "Invalid memory location format. Use: read_values <memory_location>"])
              st).
    unfold try_except, bind. rewrite E. reflexivity.
  - intros command_str arg v Hpre Harg Hv Hvalid Hb.
    pose proof Hb as Hrange. apply andb_true_iff in Hrange as [H0 H100].
    destruct (pressure_product_small v Hvalid H0 H100) as (n & Hn & Hnr).
    destruct (format_d_4 n Hnr) as (Hl & Ha & Hi).
    assert (HPS : is_ascii "PS  ") by (unfold is_ascii; simpl; repeat constructor).
    assert (Hlen : strlen "PS  " + strlen (format_d 4 n) <= 255)
      by (unfold strlen; rewrite Hl; simpl; lia).
    pose proof (build_packet_ok "PS  " (format_d 4 n) HPS Ha Hlen) as Hpkt.
    match type of Hpkt with _ = inr ?x => set (pkt := x) in Hpkt end.
    destruct (send_command_scan_raises fuel "PS  " (format_d 4 n) false st p pkt
                IndexError Hser Hack Hpkt Hne (Hscan false))
      as (st' & p' & rest & E & Hp' & Hw).
    exists n, pkt, st', p', rest.
    split; [exact Hn |]. split; [exact Hpkt |]. split; [exact Hp' |].
    split; [exact Hw |].
    rewrite (pressure_in_range_unfold py_float fuel command_str arg v n st
               Hpre Harg Hv Hb Hn).
    rewrite (try_except_handled _ _ _ st st' IndexError
               (discard_raise _ st st' IndexError E) eq_refl).
    reflexivity.
  - intros arg units_code Ha Hlook.
    assert (HE6 : is_ascii "E6  ") by (unfold is_ascii; simpl; repeat constructor).
    assert (Hc : is_ascii units_code /\ strlen units_code = 2).
    { destruct (pressure_units_codes _ _ Hlook) as [-> | [-> | ->]];
        (split; [unfold is_ascii; simpl; repeat constructor | reflexivity]). }
    destruct Hc as [Hc Hl].
    assert (Hlen : strlen "E6  " + strlen units_code <= 255)
      by (rewrite Hl; unfold strlen; simpl; lia).
    pose proof (build_packet_ok "E6  " units_code HE6 Hc Hlen) as Hpkt.
    match type of Hpkt with _ = inr ?x => set (pkt := x) in Hpkt end.
    destruct (send_command_scan_raises fuel "E6  " units_code false st p pkt
                IndexError Hser Hack Hpkt Hne (Hscan false))
      as (st' & p' & rest & E & Hp' & Hw).
    exists pkt, st', p', rest.
    split; [exact Hpkt |]. split; [exact Hp' |]. split; [exact Hw |].
    rewrite (set_pressure_units_unfold py_float fuel arg st Ha), Hlook.
    rewrite (try_except_handled _ _ _ st st' IndexError
               (discard_raise _ st st' IndexError E) eq_refl).
    reflexivity.
Qed.

Lemma scan_error_is_reported_as_format_error_witness :
  let st := __init__ (Some (idle_port [[ACK]; [STX; 45; 70]])) in
  snd (dispenser_callback float_of_decimal 3 "start" st) = Raise IndexError /\
  exists n pkt st' p' rest,
    int_of_float (fmul (float_lit 500 1) (float_of_int 10)) = inr n /\
    build_packet "PS  " (format_d 4 n) = inr pkt /\
    ser st' = Some p' /\
    written p' = written (idle_port [[ACK]; [STX; 45; 70]]) ++ [ENQ] :: pkt :: rest /\
    dispenser_callback float_of_decimal 3 "pressure 50.0" st
    = (add_log (ERROR, [Str "Invalid pressure command format. Use: pressure <value>"])
         st', Return tt).
Proof.
  cbv zeta.
  pose proof (scan_error_is_reported_as_format_error float_of_decimal 3
                (__init__ (Some (idle_port [[ACK]; [STX; 45; 70]])))
                (idle_port [[ACK]; [STX; 45; 70]])
                eq_refl eq_refl ltac:(discriminate)
                ltac:(intros expect s; destruct expect; reflexivity))
    as (H1 & _ & H3 & _).
  split; [exact H1 |].
  apply (H3 "pressure 50.0"%string "50.0"%string (float_lit 500 1));
    reflexivity.
Defined.

(** ** A session *)

Lemma toggle_mode_returns py_float fuel st st' a :
  dispenser_callback py_float fuel "toggle_mode" st = (st', Return a) ->
  is_timed_mode st' = negb (is_timed_mode st).
Proof.
  rewrite toggle_mode_unfold. unfold bind.
  pose proof (send_command_same_mode fuel "TM  " "" false st) as Hm.
  destruct (send_command fuel "TM  " "" false st) as [s1 [r| e |]];
    [| discriminate | discriminate].
  cbn [fst] in Hm. unfold same_mode in Hm. rewrite <- Hm.
  destruct (is_timed_mode s1); intros [= <- _]; reflexivity.
Qed.

(** X16. The mode flag follows the session: when [run]'s loop ends by
    'exit' or at the end of the input, the flag is the one the session
    started with, flipped once for every 'toggle_mode' line typed before
    the first 'exit'; no other command line changes it. *)
Theorem session_mode_is_parity_of_toggles py_float fuel stdin st st' e :
  run_loop py_float fuel stdin st = (st', e) ->
  e = Exited \/ e = EndOfInput ->
  is_timed_mode st' = xorb (is_timed_mode st) (toggles stdin).
Proof.
  revert st. induction stdin as [|[command_str now] stdin IH]; intros st Hrun He.
  - cbn in Hrun. injection Hrun as <- _. cbn. now rewrite xorb_false_r.
  - cbn [run_loop toggles] in *.
    destruct (String.eqb (lower command_str) "exit").
    + injection Hrun as <- _. now rewrite xorb_false_r.
    + destruct (dispenser_callback py_float fuel command_str (set_start_time now st))
        as [s1 [a| x |]] eqn:Ecb.
      * rewrite (IH s1 Hrun He). rewrite <- xorb_assoc. f_equal.
        destruct (String.eqb command_str "toggle_mode") eqn:Et.
        -- apply String.eqb_eq in Et. subst command_str.
           rewrite (toggle_mode_returns _ _ _ _ _ Ecb). cbn [is_timed_mode set_start_time].
           now rewrite xorb_true_r.
        -- pose proof (dispenser_callback_same_mode py_float fuel command_str Et
                         (set_start_time now st)) as Hm.
           rewrite Ecb in Hm. cbn [fst] in Hm. unfold same_mode in Hm.
           rewrite Hm. cbn [is_timed_mode set_start_time]. now rewrite xorb_false_r.
      * injection Hrun as _ <-. destruct He; discriminate.
      * injection Hrun as _ <-. destruct He; discriminate.
Qed.

Lemma session_mode_is_parity_of_toggles_witness :
  is_timed_mode
    (fst (run_loop float_of_decimal 3
            [("toggle_mode", 1); ("start", 2); ("toggle_mode", 3);
             ("toggle_mode", 4); ("EXIT", 5); ("toggle_mode", 6)]%string
            (__init__ None)))
  = xorb (is_timed_mode (__init__ None))
      (toggles [("toggle_mode", 1); ("start", 2); ("toggle_mode", 3);
                ("toggle_mode", 4); ("EXIT", 5); ("toggle_mode", 6)]%string).
Proof.
  apply (session_mode_is_parity_of_toggles float_of_decimal 3
           [("toggle_mode", 1); ("start", 2); ("toggle_mode", 3);
            ("toggle_mode", 4); ("EXIT", 5); ("toggle_mode", 6)]%string
           (__init__ None) _ Exited).
  - vm_compute. reflexivity.
  - now left.
Defined.

Lemma run_loop_exit py_float fuel before command_str now after st :
  lower command_str = "exit"%string ->
  run_loop py_float fuel (before ++ (command_str, now) :: after) st
  = run_loop py_float fuel (before ++ [(command_str, now)]) st.
Proof.
  intros Hexit. revert st.
  induction before as [|[c t] before IH]; intros st; cbn [app run_loop].
  - now rewrite Hexit.
  - destruct (String.eqb (lower c) "exit"); [reflexivity |].
    destruct (dispenser_callback py_float fuel c (set_start_time t st))
      as [s1 [a| x |]]; [apply IH | reflexivity | reflexivity].
Qed.

(** X17. Nothing typed after 'exit' is run, in whatever letter case
    'exit' is typed: a session gives the same controller, the same
    closing of the port and the same end with or without the lines that
    follow the 'exit' line, and it never ends by running out of input. *)
Theorem lines_after_exit_are_not_run py_float fuel before command_str now after st :
  lower command_str = "exit"%string ->
  run py_float fuel (before ++ (command_str, now) :: after) st
  = run py_float fuel (before ++ [(command_str, now)]) st /\
  snd (run py_float fuel (before ++ (command_str, now) :: after) st) <> EndOfInput.
Proof.
  intros Hexit. split.
  - unfold run. now rewrite (run_loop_exit py_float fuel before command_str now after st).
  - unfold run. rewrite (run_loop_exit py_float fuel before command_str now after st Hexit).
    clear after. revert st.
    induction before as [|[c t] before IH]; intros st; cbn [app run_loop].
    + rewrite Hexit. cbn. discriminate.
    + destruct (String.eqb (lower c) "exit"); [cbn; discriminate |].
      destruct (dispenser_callback py_float fuel c (set_start_time t st))
        as [s1 [a| x |]]; [apply IH | cbn; discriminate | cbn; discriminate].
Qed.

Lemma lines_after_exit_are_not_run_witness :
  run float_of_decimal 3 ([("start"%string, 1)] ++ ("Exit"%string, 2) :: [("toggle_mode"%string, 3)])
    (__init__ None)
  = run float_of_decimal 3 ([("start"%string, 1)] ++ [("Exit"%string, 2)]) (__init__ None) /\
  snd (run float_of_decimal 3
         ([("start"%string, 1)] ++ ("Exit"%string, 2) :: [("toggle_mode"%string, 3)]) (__init__ None))
  <> EndOfInput.
Proof.
  apply (lines_after_exit_are_not_run float_of_decimal 3 [("start", 1)]%string
           "Exit" 2 [("toggle_mode", 3)]%string (__init__ None)).
  reflexivity.
Defined.

(** ** Connecting *)

Lemma connect_loop_failed failed :
  Forall (fun q => exists e, opens q = inl e) failed ->
  forall ports st,
  exists st1,
    connect_loop (failed ++ ports) st = connect_loop ports st1 /\
    ser st1 = ser st /\ is_timed_mode st1 = is_timed_mode st.
Proof.
  induction 1 as [|q failed [e Hq] _ IH]; intros ports st.
  - exists st. repeat split.
  - cbn [app connect_loop]. rewrite Hq. rewrite run_logger.
    destruct (IH ports (add_log (ERROR, [Str "Error connecting to "; Str (device q);
                                         Str ": "; Str e]) st))
      as (st1 & E & Hs & Hm).
    exists st1. split; [exact E |]. split; [exact Hs | exact Hm].
Qed.

Lemma ser_log_ports ports st : ser (fst (log_ports ports st)) = ser st.
Proof.
  revert st. induction ports as [|q ports IH]; intros st; [reflexivity |].
  cbn [log_ports]. rewrite run_logger. now rewrite IH.
Qed.

Lemma log_ports_returns ports st : snd (log_ports ports st) = Return tt.
Proof.
  revert st. induction ports as [|q ports IH]; intros st; [reflexivity |].
  cbn [log_ports]. rewrite run_logger. apply IH.
Qed.

(** X18. The constructor takes the first port that opens.  When the
    ports listed before one fail to open and that one opens, the
    controller holds that port, whatever is listed after it; when every
    port fails, or none is listed, it holds no port (simulation mode).
    In each case it starts in timed mode with no start time, and its
    last log record is 'Dispenser Controller Started'. *)
Theorem constructor_takes_first_port_that_opens failed :
  Forall (fun q => exists e, opens q = inl e) failed ->
  (forall port p rest,
      opens port = inr p ->
      ser (DispenserController (failed ++ port :: rest)) = Some p) /\
  ser (DispenserController failed) = None /\
  (forall ports,
      is_timed_mode (DispenserController ports) = true /\
      start_time (DispenserController ports) = None /\
      exists records,
        logged (DispenserController ports)
        = records ++ [(INFO, [Str "Dispenser Controller Started"])]).
Proof.
  intros Hfailed. split; [| split].
  - intros port p rest Hp. unfold DispenserController. cbv zeta.
    cbn [ser add_log]. unfold connect.
    destruct (failed ++ port :: rest) as [|q0 l] eqn:El.
    { destruct failed; discriminate. }
    rewrite <- El. rewrite run_logger.
    match goal with |- context [bind (log_ports ?l) ?k ?s] =>
      pose proof (log_ports_returns l s) as Hr;
      pose proof (ser_log_ports l s) as Hs;
      destruct (log_ports l s) as [s1 o] eqn:E1;
      rewrite (run_bind_return _ k s s1 tt)
        by (cbn [snd] in Hr; now rewrite E1, Hr)
    end.
    destruct (connect_loop_failed failed Hfailed (port :: rest) s1) as (s2 & E2 & _).
    rewrite E2. cbn [connect_loop]. rewrite Hp. reflexivity.
  - unfold DispenserController. cbv zeta. cbn [ser add_log]. unfold connect.
    destruct failed as [|q0 l] eqn:El; [reflexivity |].
    rewrite <- El in *. rewrite run_logger.
    match goal with |- context [bind (log_ports ?l) ?k ?s] =>
      pose proof (log_ports_returns l s) as Hr;
      pose proof (ser_log_ports l s) as Hs;
      destruct (log_ports l s) as [s1 o] eqn:E1;
      rewrite (run_bind_return _ k s s1 tt)
        by (cbn [snd] in Hr; now rewrite E1, Hr)
    end.
    cbn [fst] in Hs. cbn [ser add_log] in Hs.
    destruct (connect_loop_failed failed Hfailed [] s1) as (s2 & E2 & Hs2 & _).
    rewrite app_nil_r in E2. rewrite E2. cbn [connect_loop].
    rewrite Hs2, Hs. cbn [logger fst ser add_log]. now rewrite Hs2.
  - intros ports. unfold DispenserController. cbv zeta.
    split; [reflexivity |]. split; [reflexivity |].
    eexists. reflexivity.
Qed.

Lemma constructor_takes_first_port_that_opens_witness :
  ser (DispenserController
         ([{| device := "/dev/ttyS0"; description := "n/a"; opens := inl "busy"%string |}]
            ++ {| device := "/dev/ttyUSB0"; description := "USB Serial";
                  opens := inr (idle_port [[ACK]]) |}
            :: [{| device := "/dev/ttyUSB1"; description := "USB Serial";
                   opens := inr (idle_port []) |}]))
  = Some (idle_port [[ACK]]).
Proof.
  apply (constructor_takes_first_port_that_opens
           [{| device := "/dev/ttyS0"; description := "n/a"; opens := inl "busy"%string |}]).
  - repeat constructor. now exists "busy"%string.
  - reflexivity.
Defined.

(** ** Setting the dispense time *)

(** Rounding a positive number below [2^B] whose exponent is negative
    gives zero or a finite positive float, whose integer part is at most
    [2^B + 1]. *)
Lemma binary_round_aux_bounded (B : Z) (M : positive) (E : Z) :
  0 <= B <= 51 -> E <= -1 -> Zdigits2 (Z.pos M) + E <= B ->
  exists r,
    binary_round_aux 53 1024 false (Z.pos M) E loc_Exact = r /\
    (r = S754_zero false \/
     exists m e, r = S754_finite false m e /\ e <= -1 /\
                 0 <= Z.shiftl (Z.pos m) e <= 2 ^ B + 1).
Proof.
  intros HB HE Hd. eexists. split; [reflexivity |].
  unfold binary_round_aux, shr_fexp.
  change (fexp 53 1024) with (fun k => Z.max (k - 53) (-1074)). cbv beta.
  set (d := Zdigits2 (Z.pos M)) in *.
  set (n1 := Z.max (d + E - 53) (-1074) - E).
  pose proof (shr_spec (shr_record_of_loc (Z.pos M) loc_Exact) E n1) as S1.
  rewrite shr_m_of_loc in S1. specialize (S1 ltac:(lia)).
  destruct (shr (shr_record_of_loc (Z.pos M) loc_Exact) E n1) as [mrs1 e1].
  cbn [fst snd] in S1. destruct S1 as [Hm1 He1].
  set (m2 := round_nearest_even (shr_m mrs1) (loc_of_shr_record mrs1)).
  pose proof (round_nearest_even_bounds (shr_m mrs1) (loc_of_shr_record mrs1)) as Hm2.
  fold m2 in Hm2.
  set (k1 := Z.max 0 n1) in *.
  assert (Hk1 : 0 <= k1) by lia.
  assert (Hm1n : 0 <= shr_m mrs1) by (rewrite Hm1; apply Z.div_pos; lia).
  set (n2 := Z.max (Zdigits2 m2 + e1 - 53) (-1074) - e1).
  pose proof (shr_spec (shr_record_of_loc m2 loc_Exact) e1 n2) as S2.
  rewrite shr_m_of_loc in S2. specialize (S2 ltac:(lia)).
  destruct (shr (shr_record_of_loc m2 loc_Exact) e1 n2) as [mrs2 e2].
  cbn [fst snd] in S2. destruct S2 as [Hm3 He2].
  set (k2 := Z.max 0 n2) in *.
  assert (Hk2 : 0 <= k2) by lia.
  (* the exponents stay negative *)
  assert (He1n : e1 <= -1) by lia.
  pose proof (Zdigits2_upper (Z.pos M) ltac:(lia)) as HMd. fold d in HMd.
  pose proof (Zdigits2_nonneg (Z.pos M)) as Hdn. fold d in Hdn.
  assert (Hd2 : Zdigits2 m2 + e1 <= B + 1).
  { destruct (Z_le_gt_dec k1 d) as [Hle|Hgt].
    - assert (shr_m mrs1 < 2 ^ (d - k1)).
      { rewrite Hm1. apply Z.div_lt_upper_bound; [apply Z.pow_pos_nonneg; lia |].
        rewrite <- Z.pow_add_r by lia. now replace (k1 + (d - k1)) with d by lia. }
      assert (m2 < 2 ^ (d - k1 + 1)).
      { rewrite Z.pow_add_r by lia. change (2 ^ 1) with 2.
        assert (0 < 2 ^ (d - k1)) by (apply Z.pow_pos_nonneg; lia). lia. }
      assert (Hz : Zdigits2 m2 <= d - k1 + 1) by (apply Zdigits2_le; lia). lia.
    - assert (shr_m mrs1 = 0).
      { rewrite Hm1. apply Z.div_small. split; [lia |].
        eapply Z.lt_le_trans; [exact HMd |]. apply Z.pow_le_mono_r; lia. }
      assert (m2 < 2 ^ 1) by (change (2 ^ 1) with 2; lia).
      assert (Hz : Zdigits2 m2 <= 1) by (apply Zdigits2_le; lia). lia. }
  assert (He2n : e2 <= -1) by lia.
  assert (Hm3n : 0 <= shr_m mrs2) by (rewrite Hm3; apply Z.div_pos; lia).
  destruct (shr_m mrs2) as [|m3|m3] eqn:Em3; [now left | | lia].
  right. replace (e2 <=? 1024 - 53) with true by (symmetry; apply Z.leb_le; lia).
  exists m3, e2. split; [reflexivity |]. split; [assumption |].
  rewrite Z.shiftl_div_pow2 by lia. rewrite Hm3.
  rewrite Z.div_div by lia.
  rewrite <- Z.pow_add_r by lia.
  replace (k2 + - e2) with (- e1) by lia.
  split; [apply Z.div_pos; lia |].
  assert (Hb : m2 / 2 ^ (- e1) <= (shr_m mrs1 + 1) / 2 ^ (- e1))
    by (apply Z.div_le_mono; lia).
  assert (Hc : (shr_m mrs1 + 1) / 2 ^ (- e1) <= shr_m mrs1 / 2 ^ (- e1) + 1).
  { assert (0 < 2 ^ (- e1)) by (apply Z.pow_pos_nonneg; lia).
    replace (shr_m mrs1 + 1) with (shr_m mrs1 + 1 * 1) by lia.
    apply Z.div_le_upper_bound; [assumption |].
    pose proof (Z.mul_div_le (shr_m mrs1) (2 ^ (- e1)) H) as Hx.
    pose proof (Z.mod_pos_bound (shr_m mrs1) (2 ^ (- e1)) H) as Hy.
    pose proof (Z.div_mod (shr_m mrs1) (2 ^ (- e1)) ltac:(lia)) as Hz.
    nia. }
  assert (Hdv : shr_m mrs1 / 2 ^ (- e1) = Z.pos M / 2 ^ (- E)).
  { rewrite Hm1, Z.div_div by lia. rewrite <- Z.pow_add_r by lia.
    f_equal. f_equal. lia. }
  assert (He : Z.pos M / 2 ^ (- E) <= 2 ^ B).
  { destruct (Z_le_gt_dec 0 (d + E)) as [Hp|Hn].
    - apply Z.lt_succ_r. apply Z.div_lt_upper_bound; [apply Z.pow_pos_nonneg; lia |].
      eapply Z.lt_le_trans; [exact HMd |].
      replace (Z.succ (2 ^ B)) with (2 ^ B + 1) by lia.
      assert (2 ^ d <= 2 ^ (- E) * 2 ^ B).
      { rewrite <- Z.pow_add_r by lia. apply Z.pow_le_mono_r; lia. }
      assert (0 < 2 ^ (- E)) by (apply Z.pow_pos_nonneg; lia). nia.
    - rewrite Z.div_small; [apply Z.pow_nonneg; lia |]. split; [lia |].
      eapply Z.lt_le_trans; [exact HMd |]. apply Z.pow_le_mono_r; lia. }
  lia.
Qed.

(** For a binary64 value in [0.0, 9.9999] the product with 10000 is finite
    and its integer part lies in 0..2^18+1 (in fact 0..99999; the coarse
    bound is all that is used). *)
Lemma time_product_small (v : float) :
  valid_binary prec emax v = true ->
  fle (float_lit 0 4) v = true ->
  fle v (float_lit 99999 4) = true ->
  exists n, int_of_float (fmul v (float_of_int 10000)) = inr n /\ 0 <= n <= 262145.
Proof.
  change (float_lit 0 4) with (S754_zero false).
  change (float_lit 99999 4) with (S754_finite false 5629443239217778 (-49)).
  change (float_of_int 10000) with (S754_finite false 5497558138880000 (-39)).
  intros Hv H0 H9.
  destruct v as [s | s | | s m e]; try discriminate.
  - exists 0. split; [reflexivity | lia].
  - destruct s; discriminate.
  - destruct s; [discriminate |].
    assert (He : e <= -49).
    { unfold fle, SFleb, SFcompare in H9.
      destruct (Z.compare_spec e (-49)); [lia | lia | discriminate]. }
    assert (Hm : Zdigits2 (Z.pos m) <= 53).
    { unfold valid_binary, bounded, canonical_mantissa in Hv.
      apply andb_true_iff in Hv as [Hc _]. apply Z.eqb_eq in Hc.
      change (fexp prec emax) with (fun k => Z.max (k - 53) (-1074)) in Hc.
      cbv beta in Hc. simpl Zdigits2. lia. }
    assert (Hd : Zdigits2 (Z.pos (m * 5497558138880000)) <= 106).
    { apply Zdigits2_le; [lia | lia |].
      pose proof (Zdigits2_upper (Z.pos m) ltac:(lia)) as Hu.
      assert (2 ^ Zdigits2 (Z.pos m) <= 2 ^ 53) by (apply Z.pow_le_mono_r; lia).
      rewrite Pos2Z.inj_mul.
      change (2 ^ 106) with (2 ^ 53 * 2 ^ 53).
      apply Z.mul_lt_mono_nonneg; [lia | lia | lia | reflexivity]. }
    destruct (binary_round_aux_bounded 18 (m * 5497558138880000) (e + -39))
      as (r & Hr & [Hz | (m' & e' & Hf & He' & Hn)]); [lia | lia | lia | |].
    + exists 0. unfold fmul, SFmul. cbn [xorb]. unfold prec, emax.
      rewrite Hr, Hz. split; [reflexivity | lia].
    + exists (Z.shiftl (Z.pos m') e'). unfold fmul, SFmul. cbn [xorb].
      unfold prec, emax. rewrite Hr, Hf. split; [reflexivity |].
      change (2 ^ 18 + 1) with 262145 in Hn. exact Hn.
Qed.

(** *** Decimal fields of any width *)

Lemma digit_char_ascii d : 0 <= d < 10 -> ord (digit_char d) < 128.
Proof.
  intros H.
  assert (Hd : d = 0 \/ d = 1 \/ d = 2 \/ d = 3 \/ d = 4 \/ d = 5 \/ d = 6 \/ d = 7
               \/ d = 8 \/ d = 9) by lia.
  repeat (destruct Hd as [-> | Hd]; [reflexivity |]). subst d. reflexivity.
Qed.

Lemma digits_of_ascii fuel : forall n acc,
  0 <= n -> is_ascii acc -> is_ascii (digits_of fuel 10 n acc).
Proof.
  induction fuel as [|fuel IH]; intros n acc Hn Hacc; [exact Hacc |].
  cbn [digits_of]. cbv zeta.
  assert (Hacc' : is_ascii (String (digit_char (n mod 10)) acc)).
  { apply is_ascii_String. split; [| exact Hacc].
    apply digit_char_ascii. apply Z.mod_pos_bound. lia. }
  destruct (n <? 10); [exact Hacc' |].
  apply IH; [apply Z.div_pos; lia | exact Hacc'].
Qed.

Lemma digits_of_length fuel : forall n acc,
  (String.length (digits_of fuel 10 n acc) <= fuel + String.length acc)%nat.
Proof.
  induction fuel as [|fuel IH]; intros n acc; [cbn; lia |].
  cbn [digits_of]. cbv zeta.
  destruct (n <? 10); [cbn [String.length]; lia |].
  specialize (IH (n / 10) (String (digit_char (n mod 10)) acc)).
  cbn [String.length] in IH. lia.
Qed.

Lemma zeros_ascii k : is_ascii (zeros k).
Proof.
  induction k as [|k IH]; [constructor |].
  cbn [zeros]. apply is_ascii_String. split; [reflexivity | exact IH].
Qed.

Lemma zeros_length k : String.length (zeros k) = k.
Proof. induction k as [|k IH]; [reflexivity |]. cbn. now rewrite IH. Qed.

Lemma string_length_app (s t : string) :
  String.length (s ++ t) = (String.length s + String.length t)%nat.
Proof. induction s as [|c s IH]; [reflexivity |]. cbn. now rewrite IH. Qed.

(** A number that is not negative is rendered in ASCII, on at most
    [width] characters or the number of its binary digits. *)
Lemma format_d_nonneg width n :
  0 <= n ->
  is_ascii (format_d width n) /\
  (String.length (format_d width n) <= width + S (Z.to_nat (Z.log2 n)))%nat.
Proof.
  intros Hn. unfold format_d, format_int.
  destruct (n <? 0) eqn:E; [apply Z.ltb_lt in E; lia |].
  unfold zfill, natural_digits. split.
  - apply is_ascii_app; [apply zeros_ascii |].
    apply digits_of_ascii; [exact Hn | constructor].
  - rewrite string_length_app, zeros_length.
    pose proof (digits_of_length (S (Z.to_nat (Z.log2 n))) n EmptyString) as Hl.
    cbn [String.length] in Hl. lia.
Qed.

(** X19. 'time <v>' encodes the dispense time by truncation: for a
    binary64 value [v] in [0.0, 9.9999] the data field is the letter T
    followed by the integer part of [v * 10000], on four digits when [v]
    is below 1.0 and on five digits otherwise, sent with command code
    'DS  '; outside the range only the error is logged and nothing is
    written to the port. *)
Theorem set_dispense_time_truncates py_float fuel command_str arg v st :
  startswith command_str "time " = true ->
  getitem (split " " command_str) 1 = Some arg ->
  py_float arg = Some v ->
  valid_binary prec emax v = true ->
  (fle (float_lit 0 4) v && fle v (float_lit 99999 4) = true ->
   exists n pkt,
     int_of_float (fmul v (float_of_int 10000)) = inr n /\
     0 <= n /\
     let formatted_time :=
       String "T" (if flt v (float_lit 10000 4) then format_d 4 n else format_d 5 n) in
     build_packet "DS  " formatted_time = inr pkt /\
     dispenser_callback py_float fuel command_str st
     = try_except (discard (send_command fuel "DS  " formatted_time false))
         handles_Index_or_Value
         (fun _ => logger ERROR
            [Str "Invalid time command format. Use: time <value>"])
         st /\
     forall p,
       ser st = Some p -> fst (ser_read 1 p) = [ACK] ->
       exists rest,
         written_by (dispenser_callback py_float fuel command_str st)
         = written p ++ [ENQ] :: pkt :: rest) /\
  (fle (float_lit 0 4) v && fle v (float_lit 99999 4) = false ->
   dispenser_callback py_float fuel command_str st
   = (add_log (ERROR, [Str "Invalid time value: "; Flt v;
                       Str ". Must be between 0.0000 and 9.9999 seconds"]) st,
      Return tt)).
Proof.
  intros Hpre Harg Hv Hvalid.
  destruct (startswith_app _ _ Hpre) as (rest0 & Hcmd).
  assert (E1 : String.eqb command_str "start" = false) by (subst; reflexivity).
  assert (E2 : String.eqb command_str "stop" = false) by (subst; reflexivity).
  assert (E3 : startswith command_str "pressure " = false) by (subst; reflexivity).
  assert (E4 : startswith command_str "vacuum " = false) by (subst; reflexivity).
  assert (E5 : String.eqb command_str "toggle_mode" = false) by (subst; reflexivity).
  assert (Hcb : forall b,
             fle (float_lit 0 4) v && fle v (float_lit 99999 4) = b ->
             dispenser_callback py_float fuel command_str st
             = try_except
                 (if b then
                    n <- lift_exn (int_of_float (fmul v (float_of_int 10000))) ;;
                    discard (send_command fuel "DS  "
                               (if flt v (float_lit 10000 4)
                                then String "T" (format_d 4 n)
                                else String "T" (format_d 5 n)) false)
                  else
                    logger ERROR [Str "Invalid time value: "; Flt v;
                                  Str ". Must be between 0.0000 and 9.9999 seconds"])
                 handles_Index_or_Value
                 (fun _ => logger ERROR
                    [Str "Invalid time command format. Use: time <value>"])
                 st).
  { intros b Hb. unfold dispenser_callback. rewrite E1, E2, E3, E4, E5, Hpre.
    unfold try_except. rewrite Harg. cbn [lift_opt]. rewrite run_ret, Hv.
    cbn [lift_opt]. rewrite run_ret, Hb. reflexivity. }
  split.
  - intros Hrange. rewrite (Hcb true Hrange).
    apply andb_true_iff in Hrange as [H0 H9].
    destruct (time_product_small v Hvalid H0 H9) as (n & Hn & Hnr).
    set (formatted_time :=
           String "T" (if flt v (float_lit 10000 4) then format_d 4 n else format_d 5 n)).
    assert (Hfmt : is_ascii formatted_time /\ strlen formatted_time <= 30).
    { subst formatted_time.
      assert (Hlog : (Z.to_nat (Z.log2 n) <= 18)%nat).
      { destruct (Z.eq_dec n 0) as [-> | Hnz]; [cbn; lia |].
        assert (Z.log2 n <= Z.log2 262145) by (apply Z.log2_le_mono; lia).
        change (Z.log2 262145) with 18 in *. lia. }
      destruct (flt v (float_lit 10000 4)).
      - destruct (format_d_nonneg 4 n) as [Ha Hl]; [lia |].
        split; [apply is_ascii_String; split; [reflexivity | exact Ha] |].
        unfold strlen. cbn [String.length]. lia.
      - destruct (format_d_nonneg 5 n) as [Ha Hl]; [lia |].
        split; [apply is_ascii_String; split; [reflexivity | exact Ha] |].
        unfold strlen. cbn [String.length]. lia. }
    destruct Hfmt as [Ha Hl].
    assert (HDS : is_ascii "DS  ") by (unfold is_ascii; simpl; repeat constructor).
    assert (Hlen : strlen "DS  " + strlen formatted_time <= 255)
      by (change (strlen "DS  ") with 4; lia).
    pose proof (build_packet_ok "DS  " formatted_time HDS Ha Hlen) as Hpkt.
    match type of Hpkt with _ = inr ?x => set (pkt := x) in Hpkt end.
    exists n, pkt. split; [exact Hn |]. split; [lia |]. cbv zeta. fold formatted_time.
    split; [exact Hpkt |].
    assert (Hbody : forall st0,
               (n0 <- lift_exn (int_of_float (fmul v (float_of_int 10000))) ;;
                discard (send_command fuel "DS  "
                           (if flt v (float_lit 10000 4)
                            then String "T" (format_d 4 n0)
                            else String "T" (format_d 5 n0)) false)) st0
               = discard (send_command fuel "DS  " formatted_time false) st0).
    { intros st0. rewrite Hn. cbn [lift_exn]. rewrite run_ret.
      subst formatted_time. now destruct (flt v (float_lit 10000 4)). }
    split.
    { unfold try_except. now rewrite Hbody. }
    intros p Hser Hack.
    match goal with |- exists rest, written_by ?r = _ =>
      assert (H : has_written (written p ++ [[ENQ]; pkt]) r) end.
    { unfold try_except at 1. rewrite Hbody. fold (try_except
        (discard (send_command fuel "DS  " formatted_time false))
        handles_Index_or_Value
        (fun _ => logger ERROR
           [Str "Invalid time command format. Use: time <value>"]) st).
      apply has_written_try_except; [| intros e; apply port_grows_logger].
      unfold discard. apply has_written_bind.
      - apply send_command_has_written; [exact Hser | exact Hack | exact Hpkt].
      - intros a st0. apply port_grows_refl. }
    destruct (has_written_by _ _ H) as (rest & Hr).
    exists rest. rewrite Hr. now rewrite <- app_assoc.
  - intros Hrange. rewrite (Hcb false Hrange). reflexivity.
Qed.

Lemma set_dispense_time_truncates_witness :
   exists n pkt,
     int_of_float (fmul (float_lit 12500 4) (float_of_int 10000)) = inr n /\
     0 <= n /\
     let formatted_time :=
       String "T" (if flt (float_lit 12500 4) (float_lit 10000 4)
                   then format_d 4 n else format_d 5 n) in
     build_packet "DS  " formatted_time = inr pkt /\
     dispenser_callback float_of_decimal 2 "time 1.2500"
       (__init__ (Some (idle_port [[ACK]])))
     = try_except (discard (send_command 2 "DS  " formatted_time false))
         handles_Index_or_Value
         (fun _ => logger ERROR
            [Str "Invalid time command format. Use: time <value>"])
         (__init__ (Some (idle_port [[ACK]]))) /\
     forall p,
       ser (__init__ (Some (idle_port [[ACK]]))) = Some p -> fst (ser_read 1 p) = [ACK] ->
       exists rest,
         written_by (dispenser_callback float_of_decimal 2 "time 1.2500"
                       (__init__ (Some (idle_port [[ACK]]))))
         = written p ++ [ENQ] :: pkt :: rest.
Proof.
  apply (proj1 (set_dispense_time_truncates float_of_decimal 2 "time 1.2500" "1.2500"
                  (float_lit 12500 4) (__init__ (Some (idle_port [[ACK]])))
                  eq_refl eq_refl eq_refl eq_refl)).
  reflexivity.
Defined.

(** ** Simulation mode *)

Lemma send_command_simulated fuel code data expect st :
  ser st = None ->
  send_command fuel code data expect st
  = (add_log (INFO, [Str "Simulated successful response"])
       (add_log (INFO, [Str "Simulated command sent."]) st),
     Return None).
Proof. intros H. unfold send_command. now rewrite H. Qed.

Lemma getitem_second {A} (l : list A) :
  len l = 2 -> exists x, getitem l 1 = Some x.
Proof.
  destruct l as [|a [|b [|c l]]]; unfold len; cbn [List.length]; try lia.
  intros _. now exists b.
Qed.

Lemma simulated_callback_returns py_float fuel command_str st :
  (forall s v, py_float s = Some v -> valid_binary prec emax v = true) ->
  ser st = None ->
  exists st',
    dispenser_callback py_float fuel command_str st = (st', Return tt) /\
    ser st' = None.
Proof.
  intros Hvalid Hnone.
  assert (Hsend : forall code data expect,
             send_command fuel code data expect st
             = (add_log (INFO, [Str "Simulated successful response"])
                  (add_log (INFO, [Str "Simulated command sent."]) st),
                Return None))
    by (intros; now apply send_command_simulated).
  assert (Hdiscard : forall code data,
             discard (send_command fuel code data false) st
             = (add_log (INFO, [Str "Simulated successful response"])
                  (add_log (INFO, [Str "Simulated command sent."]) st),
                Return tt))
    by (intros; unfold discard, bind; now rewrite Hsend).
  unfold dispenser_callback.
  destruct (String.eqb command_str "start").
  { rewrite Hdiscard. eexists; split; [reflexivity | exact Hnone]. }
  destruct (String.eqb command_str "stop").
  { rewrite Hdiscard. eexists; split; [reflexivity | exact Hnone]. }
  destruct (startswith command_str "pressure ").
  { unfold try_except.
    destruct (getitem (split " " command_str) 1) as [arg|];
      [| eexists; split; [reflexivity | exact Hnone]].
    cbn [lift_opt]. rewrite run_ret.
    destruct (py_float arg) as [v|] eqn:Ev;
      [| eexists; split; [reflexivity | exact Hnone]].
    cbn [lift_opt]. rewrite run_ret.
    destruct (fle (float_lit 0 1) v && fle v (float_lit 1000 1)) eqn:Er;
      [| eexists; split; [reflexivity | exact Hnone]].
    apply andb_true_iff in Er as [H0 H1].
    destruct (pressure_product_small v (Hvalid _ _ Ev) H0 H1) as (n & Hn & _).
    rewrite Hn. cbn [lift_exn]. rewrite run_ret, Hdiscard.
    eexists; split; [reflexivity | exact Hnone]. }
  destruct (startswith command_str "vacuum ").
  { unfold try_except.
    destruct (getitem (split " " command_str) 1) as [arg|];
      [| eexists; split; [reflexivity | exact Hnone]].
    cbn [lift_opt]. rewrite run_ret.
    destruct (py_float arg) as [v|] eqn:Ev;
      [| eexists; split; [reflexivity | exact Hnone]].
    cbn [lift_opt]. rewrite run_ret.
    destruct (fle (float_lit 0 1) v && fle v (float_lit 180 1)) eqn:Er;
      [| eexists; split; [reflexivity | exact Hnone]].
    apply andb_true_iff in Er as [H0 H1].
    destruct (pressure_product_small v (Hvalid _ _ Ev) H0
                (vacuum_in_pressure_range v H0 H1)) as (n & Hn & _).
    rewrite Hn. cbn [lift_exn]. rewrite run_ret, Hdiscard.
    eexists; split; [reflexivity | exact Hnone]. }
  destruct (String.eqb command_str "toggle_mode").
  { unfold bind at 1. rewrite Hsend. cbn [is_timed_mode add_log].
    destruct (is_timed_mode st); (eexists; split; [reflexivity | exact Hnone]). }
  destruct (startswith command_str "time ").
  { unfold try_except.
    destruct (getitem (split " " command_str) 1) as [arg|];
      [| eexists; split; [reflexivity | exact Hnone]].
    cbn [lift_opt]. rewrite run_ret.
    destruct (py_float arg) as [v|] eqn:Ev;
      [| eexists; split; [reflexivity | exact Hnone]].
    cbn [lift_opt]. rewrite run_ret.
    destruct (fle (float_lit 0 4) v && fle v (float_lit 99999 4)) eqn:Er;
      [| eexists; split; [reflexivity | exact Hnone]].
    apply andb_true_iff in Er as [H0 H1].
    destruct (time_product_small v (Hvalid _ _ Ev) H0 H1) as (n & Hn & _).
    rewrite Hn. cbn [lift_exn]. rewrite run_ret. cbv zeta. rewrite Hdiscard.
    eexists; split; [reflexivity | exact Hnone]. }
  destruct (startswith command_str "read_values").
  { unfold try_except. cbv zeta.
    assert (Hloc : forall m,
               ((if (0 <=? m) && (m <=? 399) then
                   response_data <- send_command fuel "E8" (format_d 3 m) true ;;
                   match response_data with
                   | Some (String c s) => parse_read_values (String c s)
                   | _ => ret tt
                   end
                 else
                   logger ERROR [Str "Invalid memory location: "; Int m;
                                 Str ". Must be between 0 and 399"]) st)
               = (if (0 <=? m) && (m <=? 399)
                  then add_log (INFO, [Str "Simulated successful response"])
                         (add_log (INFO, [Str "Simulated command sent."]) st)
                  else add_log (ERROR, [Str "Invalid memory location: "; Int m;
                                        Str ". Must be between 0 and 399"]) st,
                  Return tt)).
    { intros m. destruct ((0 <=? m) && (m <=? 399)); [| reflexivity].
      unfold bind. now rewrite Hsend. }
    destruct (len (split " " command_str) =? 2) eqn:E2.
    - apply Z.eqb_eq in E2. destruct (getitem_second _ E2) as (arg & Harg).
      rewrite Harg. cbn [lift_opt]. rewrite run_bind_assoc, run_ret.
      destruct (int_of_str 10 arg) as [m|];
        [| eexists; split; [reflexivity | exact Hnone]].
      cbn [lift_opt]. rewrite run_ret, Hloc.
      eexists; split; [reflexivity |].
      destruct ((0 <=? m) && (m <=? 399)); exact Hnone.
    - rewrite run_ret, Hloc. eexists; split; [reflexivity |]. exact Hnone. }
  destruct (startswith command_str "set_pressure_units ").
  { cbv zeta. unfold try_except.
    destruct (getitem (split " " command_str) 1) as [arg|];
      [| eexists; split; [reflexivity | exact Hnone]].
    cbn [lift_opt]. rewrite run_ret.
    destruct (lookup (lower arg) pressure_units_map);
      [rewrite Hdiscard |]; (eexists; split; [reflexivity | exact Hnone]). }
  destruct (startswith command_str "set_vacuum_units ").
  { cbv zeta. unfold try_except.
    destruct (getitem (split " " command_str) 1) as [arg|];
      [| eexists; split; [reflexivity | exact Hnone]].
    cbn [lift_opt]. rewrite run_ret.
    destruct (lookup (lower arg) vacuum_units_map);
      [rewrite Hdiscard |]; (eexists; split; [reflexivity | exact Hnone]). }
  eexists; split; [reflexivity | exact Hnone].
Qed.

(** X20. Without a port (simulation mode) every command line is handled:
    provided [float] gives binary64 values, [dispenser_callback] returns
    on every command string, with any budget for the scans, and the
    controller still has no port; hence a session never stops on an
    exception or a scan that does not end, it ends by 'exit' or at the
    end of the input, and [destroy] has no port to close. *)
Theorem simulation_handles_every_command py_float fuel st :
  (forall s v, py_float s = Some v -> valid_binary prec emax v = true) ->
  ser st = None ->
  (forall command_str,
      exists st',
        dispenser_callback py_float fuel command_str st = (st', Return tt) /\
        ser st' = None) /\
  (forall stdin,
      exists st' e,
        run py_float fuel stdin st
        = (add_log (INFO, [Str "Dispenser Controller Stopped"]) st', false, e) /\
        (e = Exited \/ e = EndOfInput) /\
        ser st' = None).
Proof.
  intros Hvalid Hnone. split.
  - intros command_str. now apply simulated_callback_returns.
  - intros stdin.
    assert (Hloop : exists st' e,
               run_loop py_float fuel stdin st = (st', e) /\
               (e = Exited \/ e = EndOfInput) /\ ser st' = None).
    { revert st Hnone. induction stdin as [|[c t] stdin IH]; intros st Hnone.
      - exists st, EndOfInput. split; [reflexivity |]. split; [now right | exact Hnone].
      - cbn [run_loop]. destruct (String.eqb (lower c) "exit").
        + exists st, Exited. split; [reflexivity |]. split; [now left | exact Hnone].
        + destruct (simulated_callback_returns py_float fuel c (set_start_time t st)
                      Hvalid Hnone) as (s1 & E & Hs1).
          rewrite E. apply IH. exact Hs1. }
    destruct Hloop as (st' & e & E & He & Hs).
    exists st', e. split; [| split; [exact He | exact Hs]].
    unfold run. rewrite E. unfold destroy. rewrite Hs.
    destruct He as [-> | ->]; reflexivity.
Qed.

Lemma simulation_handles_every_command_witness :
  exists st' e,
    run (fun s => if String.eqb s "50.0" then Some (float_lit 500 1) else None) 0
      [("pressure 50.0"%string, 1); ("read_values 7"%string, 2);
       ("time"%string, 3); ("exit"%string, 4)]
      (__init__ None)
    = (add_log (INFO, [Str "Dispenser Controller Stopped"]) st', false, e) /\
    (e = Exited \/ e = EndOfInput) /\
    ser st' = None.
Proof.
  apply (simulation_handles_every_command
           (fun s => if String.eqb s "50.0" then Some (float_lit 500 1) else None) 0
           (__init__ None)).
  - intros s v. destruct (String.eqb s "50.0"); [| discriminate].
    intros [= <-]. vm_compute. reflexivity.
  - reflexivity.
Defined.

(** ** What is put on the line *)

Section Transmits.

Variable R : controller -> controller -> Prop.
Variable W : bytes -> Prop.
Hypothesis R_refl : forall st, R st st.
Hypothesis R_trans : forall a b c, R a b -> R b c -> R a c.
Hypothesis R_logger : forall l msg, preserves R (logger l msg).
Hypothesis R_read : forall n, preserves R (read n).
Hypothesis R_mode : forall b, preserves R (set_is_timed_mode b).
Hypothesis R_write : forall b, W b -> preserves R (write b).
Hypothesis W_ENQ : W [ENQ].
Hypothesis W_ACK : W [ACK].
Hypothesis W_EOT : W [EOT].
Hypothesis W_packet :
  forall code data pkt,
    In code command_codes -> build_packet code data = inr pkt -> W pkt.

Ltac tx :=
  repeat first
    [ apply (preserves_ret R R_refl) | apply (preserves_raise R R_refl)
    | apply (preserves_diverge R R_refl)
    | apply R_logger | apply R_read | apply R_mode
    | apply R_write; first [exact W_ENQ | exact W_ACK | exact W_EOT | assumption]
    | apply (preserves_log_delay R R_logger)
    | apply (preserves_lift_opt R R_refl) | apply (preserves_lift_exn R R_refl)
    | apply (preserves_process_data_response R R_refl R_trans R_logger)
    | apply (preserves_parse_read_values R R_refl R_trans R_logger)
    | assumption
    | apply (preserves_bind R R_trans); [| intros ? ]
    | apply (preserves_try_except R R_trans); [| intros ? ]
    | match goal with
      | |- preserves _ (if ?b then _ else _) => destruct b
      | |- preserves _ (match ?x with _ => _ end) => destruct x
      end
    | progress cbv zeta ].

Lemma transmits_check_response_loop fuel response expect :
  forall index, preserves R (check_response_loop fuel response expect index).
Proof.
  induction fuel as [|fuel IH]; intros index; cbn [check_response_loop]; tx;
    apply IH.
Qed.

Lemma transmits_check_response fuel response expect :
  preserves R (check_response fuel response expect).
Proof.
  unfold check_response. tx. apply transmits_check_response_loop.
Qed.

Lemma preserves_bind_lift_exn {A B} (r : exn + A) (k : A -> M B) :
  (forall a, r = inr a -> preserves R (k a)) ->
  preserves R (bind (lift_exn r) k).
Proof.
  intros H st. destruct r as [e|a]; [apply R_refl |].
  exact (H a eq_refl st).
Qed.

Lemma transmits_send_command fuel code data expect :
  In code command_codes ->
  preserves R (send_command fuel code data expect).
Proof.
  intros Hcode st. unfold send_command. destruct (ser st).
  - match goal with |- R st (fst (?c st)) => enough (H : preserves R c) by apply H end.
    apply (preserves_bind R R_trans); [apply R_write; exact W_ENQ | intros _].
    apply (preserves_bind R R_trans); [apply R_logger | intros _].
    apply (preserves_bind R R_trans); [apply R_read | intros ack_response].
    destruct (negb (bytes_eqb ack_response [ACK])); [tx |].
    apply (preserves_bind R R_trans); [apply R_logger | intros _].
    apply preserves_bind_lift_exn. intros packet Hpacket.
    apply (preserves_bind R R_trans); [apply R_logger | intros _].
    apply (preserves_bind R R_trans);
      [apply R_write; exact (W_packet code data packet Hcode Hpacket) | intros _].
    apply (preserves_bind R R_trans); [apply R_read | intros response].
    destruct response; [tx |]. apply transmits_check_response.
  - match goal with |- R st (fst (?c st)) => enough (H : preserves R c) by apply H end.
    tx.
Qed.

Lemma transmits_dispenser_callback py_float fuel command_str :
  preserves R (dispenser_callback py_float fuel command_str).
Proof.
  unfold dispenser_callback.
  tx;
    try (apply (preserves_discard R R_refl R_trans));
    try (apply transmits_send_command; unfold command_codes; cbn [In]; tauto).
  intros st. destruct (is_timed_mode st).
  - match goal with |- R st (fst (?c st)) => enough (H : preserves R c) by apply H end.
    tx.
  - match goal with |- R st (fst (?c st)) => enough (H : preserves R c) by apply H end.
    tx.
Qed.

End Transmits.

Lemma writes_only_refl W st : writes_only W st st.
Proof.
  unfold writes_only. destruct (ser st) as [p|] eqn:E; [| reflexivity].
  exists p, []. split; [reflexivity |]. split; [now rewrite app_nil_r | constructor].
Qed.

Lemma writes_only_trans W a b c :
  writes_only W a b -> writes_only W b c -> writes_only W a c.
Proof.
  unfold writes_only. destruct (ser a) as [pa|].
  - intros (pb & e1 & Hb & H1 & F1). rewrite Hb.
    intros (pc & e2 & Hc & H2 & F2). exists pc, (e1 ++ e2).
    split; [assumption |]. split; [now rewrite H2, H1, app_assoc |].
    apply Forall_app. now split.
  - intros Hb. now rewrite Hb.
Qed.

Lemma writes_only_same_port W st st' :
  ser st' = ser st -> writes_only W st st'.
Proof.
  intros H. unfold writes_only. rewrite H.
  destruct (ser st) as [p|]; [| reflexivity].
  exists p, []. split; [reflexivity |]. split; [now rewrite app_nil_r | constructor].
Qed.

Lemma writes_only_logger W l msg : preserves (writes_only W) (logger l msg).
Proof. intros st. now apply writes_only_same_port. Qed.

Lemma writes_only_mode W b : preserves (writes_only W) (set_is_timed_mode b).
Proof. intros st. now apply writes_only_same_port. Qed.

Lemma writes_only_read W n : preserves (writes_only W) (read n).
Proof.
  intros st. unfold writes_only, read. destruct (ser st) as [p|] eqn:E.
  - cbn [fst ser set_ser]. exists (snd (ser_read n p)), [].
    split; [reflexivity |]. split; [now rewrite app_nil_r | constructor].
  - cbn [fst]. exact E.
Qed.

Lemma writes_only_write (W : bytes -> Prop) b :
  W b -> preserves (writes_only W) (write b).
Proof.
  intros Hb st. unfold writes_only, write. destruct (ser st) as [p|] eqn:E.
  - cbn [fst ser set_ser]. exists (ser_write b p), [b].
    split; [reflexivity |]. split; [reflexivity |]. now constructor.
  - cbn [fst]. exact E.
Qed.

(** X21. The controller puts nothing on the line but what the protocol
    provides for: whatever the command string and whatever the device
    sends, every chunk [dispenser_callback] writes is ENQ, ACK, EOT or
    the packet [build_packet] makes for one of the eight command codes,
    and the port it holds stays the one it had; the same holds for all
    the lines of a session. *)
Theorem only_protocol_bytes_are_written py_float fuel :
  (forall command_str,
      preserves (writes_only transmission) (dispenser_callback py_float fuel command_str)) /\
  (forall stdin st,
      writes_only transmission st (fst (run_loop py_float fuel stdin st))).
Proof.
  assert (Hcb : forall command_str,
             preserves (writes_only transmission)
               (dispenser_callback py_float fuel command_str)).
  { intros command_str.
    apply (transmits_dispenser_callback (writes_only transmission) transmission).
    - apply writes_only_refl.
    - apply writes_only_trans.
    - apply writes_only_logger.
    - apply writes_only_read.
    - apply writes_only_mode.
    - apply writes_only_write.
    - now left.
    - right. now left.
    - right. right. now left.
    - intros code data pkt Hc Hp. right. right. right. now exists code, data. }
  split; [exact Hcb |].
  intros stdin. induction stdin as [|[c t] stdin IH]; intros st.
  - apply writes_only_refl.
  - cbn [run_loop]. destruct (String.eqb (lower c) "exit"); [apply writes_only_refl |].
    pose proof (Hcb c (set_start_time t st)) as H1.
    assert (H0 : writes_only transmission st (set_start_time t st))
      by now apply writes_only_same_port.
    destruct (dispenser_callback py_float fuel c (set_start_time t st))
      as [s1 [a| x |]]; cbn [fst] in *.
    + eapply writes_only_trans; [exact H0 |].
      eapply writes_only_trans; [exact H1 | apply IH].
    + eapply writes_only_trans; [exact H0 | exact H1].
    + eapply writes_only_trans; [exact H0 | exact H1].
Qed.

(** ** Text that is not ASCII *)

Lemma encode_ascii_inl s e : encode_ascii s = inl e -> e = UnicodeEncodeError.
Proof.
  induction s as [|c s IH]; cbn [encode_ascii]; [discriminate |].
  destruct (ord c <? 128); [| now intros [= <-]].
  destruct (encode_ascii s) as [e'|b]; [| discriminate].
  intros [= <-]. now apply IH.
Qed.

Lemma encode_ascii_inr s b : encode_ascii s = inr b -> is_ascii s.
Proof.
  revert b. induction s as [|c s IH]; intros b; cbn [encode_ascii].
  - intros _. constructor.
  - destruct (ord c <? 128) eqn:E; [| discriminate].
    destruct (encode_ascii s) as [e'|b']; [discriminate |].
    intros _. apply is_ascii_String. split; [now apply Z.ltb_lt | now apply (IH b')].
Qed.

Lemma is_ascii_app_inv s t : is_ascii (s ++ t) -> is_ascii s /\ is_ascii t.
Proof.
  induction s as [|c s IH]; cbn [append]; intros H.
  - split; [constructor | exact H].
  - apply is_ascii_String in H as [Hc H]. destruct (IH H) as [Hs Ht].
    split; [apply is_ascii_String; now split | exact Ht].
Qed.

Lemma build_packet_non_ascii code data :
  ~ (is_ascii code /\ is_ascii data) ->
  build_packet code data = inl UnicodeEncodeError.
Proof.
  intros Hn. unfold build_packet. cbv zeta. unfold calculate_checksum_ascii.
  set (L := format_X 2 (strlen code + strlen data)).
  destruct (encode_ascii (L ++ code ++ data)) as [e|b] eqn:E.
  - now rewrite (encode_ascii_inl _ _ E).
  - exfalso. apply Hn. apply encode_ascii_inr in E.
    apply is_ascii_app_inv in E as [_ E]. now apply is_ascii_app_inv in E.
Qed.

(** X22. Text that is not ASCII is found out only after the handshake:
    on a command code or data with a character above 127,
    [build_packet] fails with [UnicodeEncodeError], and [send_command]
    raises it once ENQ has been written and acknowledged, so that ENQ is
    all that has been sent; without a port the text is never encoded and
    the call returns. *)
Theorem non_ascii_command_raises_after_enq fuel code data expect st :
  ~ (is_ascii code /\ is_ascii data) ->
  build_packet code data = inl UnicodeEncodeError /\
  (forall p,
      ser st = Some p -> fst (ser_read 1 p) = [ACK] ->
      snd (send_command fuel code data expect st) = Raise UnicodeEncodeError /\
      written_by (send_command fuel code data expect st) = written p ++ [[ENQ]]) /\
  (ser st = None ->
   snd (send_command fuel code data expect st) = Return None).
Proof.
  intros Hn. pose proof (build_packet_non_ascii code data Hn) as Hb.
  split; [exact Hb |]. split.
  - intros p Hser Hack. unfold send_command. rewrite Hser.
    rewrite (run_write _ _ _ p Hser), run_logger.
    rewrite (run_read _ _ _ (ser_write [ENQ] p)) by reflexivity.
    rewrite ser_read_write. cbn [fst snd]. rewrite Hack.
    change (negb (bytes_eqb [ACK] [ACK])) with false. cbv iota.
    rewrite run_logger, Hb. split; reflexivity.
  - intros Hnone. now rewrite send_command_simulated.
Qed.

Lemma non_ascii_command_raises_after_enq_witness :
  build_packet "PS  " (String (chr 233) "0500") = inl UnicodeEncodeError /\
  (forall p,
      ser (__init__ (Some (idle_port [[ACK]]))) = Some p -> fst (ser_read 1 p) = [ACK] ->
      snd (send_command 2 "PS  " (String (chr 233) "0500") false
             (__init__ (Some (idle_port [[ACK]]))))
      = Raise UnicodeEncodeError /\
      written_by (send_command 2 "PS  " (String (chr 233) "0500") false
                    (__init__ (Some (idle_port [[ACK]]))))
      = written p ++ [[ENQ]]) /\
  (ser (__init__ (Some (idle_port [[ACK]]))) = None ->
   snd (send_command 2 "PS  " (String (chr 233) "0500") false
          (__init__ (Some (idle_port [[ACK]]))))
   = Return None).
Proof.
  apply (non_ascii_command_raises_after_enq 2 "PS  " (String (chr 233) "0500") false
           (__init__ (Some (idle_port [[ACK]])))).
  intros [_ H]. apply is_ascii_String in H as [H _]. vm_compute in H. discriminate.
Defined.

(** ** 'start' and 'stop' *)

(** X23. 'stop' sends the command 'start' sends: both call
    [send_command] with the code 'DI  ' and no data, so that on a port
    that acknowledges ENQ the packet written by 'stop' is
    STX "04DI  " "CF" ETX, the packet of 'start'; no other packet is
    built for 'stop'. *)
Theorem stop_sends_the_packet_of_start py_float fuel st :
  dispenser_callback py_float fuel "stop" st
  = dispenser_callback py_float fuel "start" st /\
  dispenser_callback py_float fuel "stop" st
  = discard (send_command fuel "DI  " "" false) st /\
  build_packet "DI  " "" = inr ([STX] ++ bytes_of "04DI  " ++ bytes_of "CF" ++ [ETX]) /\
  forall p,
    ser st = Some p ->
    fst (ser_read 1 p) = [ACK] ->
    exists rest,
      written_by (dispenser_callback py_float fuel "stop" st)
      = written p ++ [ENQ]
          :: ([STX] ++ bytes_of "04DI  " ++ bytes_of "CF" ++ [ETX]) :: rest.
Proof.
  split; [reflexivity |]. split; [reflexivity |]. split; [reflexivity |].
  intros p Hser Hack.
  assert (H : has_written
                (written p ++ [[ENQ]; [STX] ++ bytes_of "04DI  " ++ bytes_of "CF" ++ [ETX]])
                (dispenser_callback py_float fuel "stop" st)).
  { change (dispenser_callback py_float fuel "stop" st)
      with (discard (send_command fuel "DI  " "" false) st).
    unfold discard. apply has_written_bind.
    - apply send_command_has_written; [exact Hser | exact Hack | reflexivity].
    - intros a st0. apply port_grows_refl. }
  destruct (has_written_by _ _ H) as (rest & Hr).
  exists rest. rewrite Hr. now rewrite <- app_assoc.
Qed.
